(** * nand_dumper: a Raspberry Pi Pico NAND flash dumper

    Shallow embedding of [nand_dumper.c].  The firmware bit-bangs the
    command/address/data bus of a parallel NAND chip from core 1 and talks
    to a host over a serial link from core 0.

    Integers are [Z] with the C conversions written out; bytes are [Z] in
    [0, 256); buffers are [list Z] indexed with stdpp's lookup and insert.
    Everything the firmware does to the outside world (pins, timers, the
    serial link) is threaded through an explicit [machine] state by a small
    state monad whose computations may also stop without returning. *)

From Stdlib Require Import ZArith Lia Ascii DecimalString.
From stdpp Require Import base list strings.

Local Open Scope Z_scope.

(** ** C integer conversions *)

Definition u8 (z : Z) : Z := z mod 256.
Definition u16 (z : Z) : Z := z mod 65536.
Definition u32 (z : Z) : Z := z mod 4294967296.

(** Conversion to [int] (32 bits, two's complement). *)
Definition s32 (z : Z) : Z :=
  let w := z mod 4294967296 in
  if w <? 2147483648 then w else w - 4294967296.

(** ** Data types of the program *)

Record nand_pins_t := mk_pins {
  io_start : Z;
  ale : Z;
  cle : Z;
  ce : Z;
  re : Z;
  we : Z;
  wp : Z;
  ry : Z
}.

Record id_data_t := mk_id {
  maker : Z;
  device : Z;
  chip_n_type : Z;
  pgsz_bksz_iow : Z;
  districts : Z
}.

Inductive cmd_enum_t :=
| CMD_READ_ID
| CMD_READ_PAGE
| CMD_RESET_PAGE_NO
| CMD_SET_PAGE_NO
| CMD_GET_DRIVE_STRENGTH
| CMD_GET_FLASH_INFO
| CMD_NONE.

Record cmd_t := mk_cmd {
  cmd : cmd_enum_t;
  arg : Z
}.

Record result_t := mk_result {
  sz : Z;
  alloc : Z
}.

Record flash_info_struct := mk_flash_info {
  page_size_bytes : Z;
  oob_size_bytes : Z;
  flash_size_bytes : Z
}.

Definition TOSHIBA_KIOXIA : Z := 0x98.
Definition LED_PIN : Z := 25.

Definition HELP_STR : string :=
  "Commands: " +:+ String "010"%char (
  "0: id - shows the ID/parameters of the connected NAND chip" +:+ String "010"%char (
  "1: read - reads the contents of one page of the NAND chip and increments internal counter" +:+ String "010"%char (
  "2: reset page - reset the page number to read" +:+ String "010"%char (
  "3: set page - set the page number to specific offset" +:+ String "010"%char (
  "4: get drive strength - get drive strength of pins" +:+ String "010"%char (
  "else: help - Display this help string" +:+ String "010"%char "")))))).

(** ** The SDK seen from the program

    The Pico SDK is not part of the repository.  Its calls are modelled by
    what they do to the outside world: each call on a pin or a timer is
    appended to a log, and each read of an input takes the next sample of
    an input sequence that the environment fixes in advance. *)

Inductive gpio_drive_strength :=
| GPIO_DRIVE_STRENGTH_2MA
| GPIO_DRIVE_STRENGTH_4MA
| GPIO_DRIVE_STRENGTH_8MA
| GPIO_DRIVE_STRENGTH_12MA.

Definition drive_strength_code (s : gpio_drive_strength) : Z :=
  match s with
  | GPIO_DRIVE_STRENGTH_2MA => 0
  | GPIO_DRIVE_STRENGTH_4MA => 1
  | GPIO_DRIVE_STRENGTH_8MA => 2
  | GPIO_DRIVE_STRENGTH_12MA => 3
  end.

Inductive bus_event :=
| EvGpioInit (pin : Z)
| EvGpioSetPulls (pin : Z) (up down : bool)
| EvGpioSetDir (pin : Z) (out : bool)
| EvGpioSetDirOutMasked (mask : Z)
| EvGpioSetDirInMasked (mask : Z)
| EvGpioSetDriveStrength (pin : Z) (s : gpio_drive_strength)
| EvGpioPut (pin : Z) (v : bool)
| EvGpioPutMasked (mask val : Z)
| EvGpioGet (pin : Z) (v : bool)
| EvGpioGetAll (v : Z)
| EvBusyWait (cycles : Z)
| EvSleepUs (us : Z)
| EvSleepMs (ms : Z)
| EvStdioInit.

(** A [queue_t] of the SDK: a bounded FIFO.  [q_count] is the capacity
    given to [queue_init]. *)
Record queue_t (A : Type) := mk_queue {
  q_count : nat;
  q_elems : list A
}.
Arguments mk_queue {A} _ _.
Arguments q_count {A} _.
Arguments q_elems {A} _.

(** The inputs of a run, fixed by the environment: the n-th read of the
    ready/busy pin, the n-th read of all GPIO inputs, the n-th read of the
    microsecond timer. *)
Record world := mk_world {
  ry_line : nat -> bool;
  io_line : nat -> Z;
  timer : nat -> Z
}.

Record machine := mk_machine {
  (* outside world *)
  env : world;
  bus_log : list bus_event;          (* newest event first *)
  ry_reads : nat;
  io_reads : nat;
  timer_reads : nat;
  pad_drive : Z -> gpio_drive_strength;
  serial_in : list (option Z);       (* outcome of each getchar_timeout_us to come *)
  stdout : list string;              (* one entry per printf, oldest first *)
  (* state shared between the cores *)
  cmd_queue : queue_t cmd_t;
  results_queue : queue_t result_t;
  pins_glob : nand_pins_t;
  shared_buffer : list Z;
  flash_info_glob : flash_info_struct;
  (* locals of core1_main *)
  core1_launched : bool;
  w_cmd_arg : cmd_t;
  w_result : result_t;
  page_num : Z;
  (* locals of main that live across loop iterations *)
  curr_page : Z
}.

(** The bus events of a run, oldest first. *)
Definition bus_trace (m : machine) : list bus_event := rev (bus_log m).

Definition set_bus_log (x : list bus_event) (m : machine) : machine :=
  mk_machine (env m) x (ry_reads m) (io_reads m) (timer_reads m) (pad_drive m)
    (serial_in m) (stdout m) (cmd_queue m) (results_queue m) (pins_glob m)
    (shared_buffer m) (flash_info_glob m) (core1_launched m) (w_cmd_arg m)
    (w_result m) (page_num m) (curr_page m).

Definition set_ry_reads (x : nat) (m : machine) : machine :=
  mk_machine (env m) (bus_log m) x (io_reads m) (timer_reads m) (pad_drive m)
    (serial_in m) (stdout m) (cmd_queue m) (results_queue m) (pins_glob m)
    (shared_buffer m) (flash_info_glob m) (core1_launched m) (w_cmd_arg m)
    (w_result m) (page_num m) (curr_page m).

Definition set_io_reads (x : nat) (m : machine) : machine :=
  mk_machine (env m) (bus_log m) (ry_reads m) x (timer_reads m) (pad_drive m)
    (serial_in m) (stdout m) (cmd_queue m) (results_queue m) (pins_glob m)
    (shared_buffer m) (flash_info_glob m) (core1_launched m) (w_cmd_arg m)
    (w_result m) (page_num m) (curr_page m).

Definition set_timer_reads (x : nat) (m : machine) : machine :=
  mk_machine (env m) (bus_log m) (ry_reads m) (io_reads m) x (pad_drive m)
    (serial_in m) (stdout m) (cmd_queue m) (results_queue m) (pins_glob m)
    (shared_buffer m) (flash_info_glob m) (core1_launched m) (w_cmd_arg m)
    (w_result m) (page_num m) (curr_page m).

Definition set_pad_drive (x : Z -> gpio_drive_strength) (m : machine) : machine :=
  mk_machine (env m) (bus_log m) (ry_reads m) (io_reads m) (timer_reads m) x
    (serial_in m) (stdout m) (cmd_queue m) (results_queue m) (pins_glob m)
    (shared_buffer m) (flash_info_glob m) (core1_launched m) (w_cmd_arg m)
    (w_result m) (page_num m) (curr_page m).

Definition set_serial_in (x : list (option Z)) (m : machine) : machine :=
  mk_machine (env m) (bus_log m) (ry_reads m) (io_reads m) (timer_reads m)
    (pad_drive m) x (stdout m) (cmd_queue m) (results_queue m) (pins_glob m)
    (shared_buffer m) (flash_info_glob m) (core1_launched m) (w_cmd_arg m)
    (w_result m) (page_num m) (curr_page m).

Definition set_stdout (x : list string) (m : machine) : machine :=
  mk_machine (env m) (bus_log m) (ry_reads m) (io_reads m) (timer_reads m)
    (pad_drive m) (serial_in m) x (cmd_queue m) (results_queue m) (pins_glob m)
    (shared_buffer m) (flash_info_glob m) (core1_launched m) (w_cmd_arg m)
    (w_result m) (page_num m) (curr_page m).

Definition set_cmd_queue (x : queue_t cmd_t) (m : machine) : machine :=
  mk_machine (env m) (bus_log m) (ry_reads m) (io_reads m) (timer_reads m)
    (pad_drive m) (serial_in m) (stdout m) x (results_queue m) (pins_glob m)
    (shared_buffer m) (flash_info_glob m) (core1_launched m) (w_cmd_arg m)
    (w_result m) (page_num m) (curr_page m).

Definition set_results_queue (x : queue_t result_t) (m : machine) : machine :=
  mk_machine (env m) (bus_log m) (ry_reads m) (io_reads m) (timer_reads m)
    (pad_drive m) (serial_in m) (stdout m) (cmd_queue m) x (pins_glob m)
    (shared_buffer m) (flash_info_glob m) (core1_launched m) (w_cmd_arg m)
    (w_result m) (page_num m) (curr_page m).

Definition set_pins_glob (x : nand_pins_t) (m : machine) : machine :=
  mk_machine (env m) (bus_log m) (ry_reads m) (io_reads m) (timer_reads m)
    (pad_drive m) (serial_in m) (stdout m) (cmd_queue m) (results_queue m) x
    (shared_buffer m) (flash_info_glob m) (core1_launched m) (w_cmd_arg m)
    (w_result m) (page_num m) (curr_page m).

Definition set_shared_buffer (x : list Z) (m : machine) : machine :=
  mk_machine (env m) (bus_log m) (ry_reads m) (io_reads m) (timer_reads m)
    (pad_drive m) (serial_in m) (stdout m) (cmd_queue m) (results_queue m)
    (pins_glob m) x (flash_info_glob m) (core1_launched m) (w_cmd_arg m)
    (w_result m) (page_num m) (curr_page m).

Definition set_flash_info_glob (x : flash_info_struct) (m : machine) : machine :=
  mk_machine (env m) (bus_log m) (ry_reads m) (io_reads m) (timer_reads m)
    (pad_drive m) (serial_in m) (stdout m) (cmd_queue m) (results_queue m)
    (pins_glob m) (shared_buffer m) x (core1_launched m) (w_cmd_arg m)
    (w_result m) (page_num m) (curr_page m).

Definition set_core1_launched (x : bool) (m : machine) : machine :=
  mk_machine (env m) (bus_log m) (ry_reads m) (io_reads m) (timer_reads m)
    (pad_drive m) (serial_in m) (stdout m) (cmd_queue m) (results_queue m)
    (pins_glob m) (shared_buffer m) (flash_info_glob m) x (w_cmd_arg m)
    (w_result m) (page_num m) (curr_page m).

Definition set_w_cmd_arg (x : cmd_t) (m : machine) : machine :=
  mk_machine (env m) (bus_log m) (ry_reads m) (io_reads m) (timer_reads m)
    (pad_drive m) (serial_in m) (stdout m) (cmd_queue m) (results_queue m)
    (pins_glob m) (shared_buffer m) (flash_info_glob m) (core1_launched m) x
    (w_result m) (page_num m) (curr_page m).

Definition set_w_result (x : result_t) (m : machine) : machine :=
  mk_machine (env m) (bus_log m) (ry_reads m) (io_reads m) (timer_reads m)
    (pad_drive m) (serial_in m) (stdout m) (cmd_queue m) (results_queue m)
    (pins_glob m) (shared_buffer m) (flash_info_glob m) (core1_launched m)
    (w_cmd_arg m) x (page_num m) (curr_page m).

Definition set_page_num (x : Z) (m : machine) : machine :=
  mk_machine (env m) (bus_log m) (ry_reads m) (io_reads m) (timer_reads m)
    (pad_drive m) (serial_in m) (stdout m) (cmd_queue m) (results_queue m)
    (pins_glob m) (shared_buffer m) (flash_info_glob m) (core1_launched m)
    (w_cmd_arg m) (w_result m) x (curr_page m).

Definition set_curr_page (x : Z) (m : machine) : machine :=
  mk_machine (env m) (bus_log m) (ry_reads m) (io_reads m) (timer_reads m)
    (pad_drive m) (serial_in m) (stdout m) (cmd_queue m) (results_queue m)
    (pins_glob m) (shared_buffer m) (flash_info_glob m) (core1_launched m)
    (w_cmd_arg m) (w_result m) (page_num m) x.

(** ** Computations

    A computation either returns a value and a new machine, or stops at
    the machine it has reached: out of fuel inside the ready/busy poll
    ([PollReady]), inside the [while (true)] of a fatal startup error
    ([TightLoop]), parked on a queue operation that cannot proceed
    ([QueueBlocked]), or at an operation that C leaves undefined, such as
    an access outside a buffer ([Undefined]). *)

Inductive halt := PollReady | TightLoop | QueueBlocked | Undefined.

Inductive outcome (A : Type) :=
| Ok (a : A) (m : machine)
| Halt (h : halt) (m : machine).
Arguments Ok {A} _ _.
Arguments Halt {A} _ _.

Definition M (A : Type) : Type := machine -> outcome A.

Definition ret {A} (a : A) : M A := fun m => Ok a m.

Definition bind {A B} (c : M A) (k : A -> M B) : M B :=
  fun m => match c m with
           | Ok a m' => k a m'
           | Halt h m' => Halt h m'
           end.

Definition stop {A} (h : halt) : M A := fun m => Halt h m.

Declare Scope m_scope.
Delimit Scope m_scope with M.
Notation "x <- c ;; k" := (bind c (fun x => k))
  (at level 100, c at next level, k at level 200, right associativity) : m_scope.
Notation "c ;; k" := (bind c (fun _ => k))
  (at level 100, k at level 200, right associativity) : m_scope.
Local Open Scope m_scope.

(** [for (int i = 0; i < n; i++) body(i)] *)
Fixpoint for_loop_from (i : Z) (n : nat) (body : Z -> M unit) : M unit :=
  match n with
  | O => ret tt
  | S n' => body i ;; for_loop_from (i + 1) n' body
  end.

Definition for_loop (n : nat) (body : Z -> M unit) : M unit :=
  for_loop_from 0 n body.

(** *** Pins and timers *)

Definition emit (e : bus_event) : M unit :=
  fun m => Ok tt (set_bus_log (e :: bus_log m) m).

Definition gpio_init (pin : Z) : M unit := emit (EvGpioInit pin).
Definition gpio_set_pulls (pin : Z) (up down : bool) : M unit :=
  emit (EvGpioSetPulls pin up down).
Definition gpio_set_dir (pin : Z) (out : bool) : M unit :=
  emit (EvGpioSetDir pin out).
Definition gpio_set_dir_out_masked (mask : Z) : M unit :=
  emit (EvGpioSetDirOutMasked mask).
Definition gpio_set_dir_in_masked (mask : Z) : M unit :=
  emit (EvGpioSetDirInMasked mask).
Definition gpio_put (pin : Z) (v : bool) : M unit := emit (EvGpioPut pin v).
Definition gpio_put_masked (mask val : Z) : M unit :=
  emit (EvGpioPutMasked mask val).
Definition busy_wait_at_least_cycles (n : Z) : M unit := emit (EvBusyWait n).
Definition sleep_us (n : Z) : M unit := emit (EvSleepUs n).
Definition sleep_ms (n : Z) : M unit := emit (EvSleepMs n).
Definition stdio_init_all : M unit := emit EvStdioInit.
Definition tight_loop_contents : M unit := ret tt.

Definition gpio_set_drive_strength (pin : Z) (s : gpio_drive_strength) : M unit :=
  fun m =>
    emit (EvGpioSetDriveStrength pin s)
      (set_pad_drive (fun p => if p =? pin then s else pad_drive m p) m).

Definition gpio_get_drive_strength (pin : Z) : M gpio_drive_strength :=
  fun m => Ok (pad_drive m pin) m.

(** A read of the ready/busy pin (the only pin the program reads with
    [gpio_get]) takes the next sample of [ry_line]. *)
Definition gpio_get (pin : Z) : M bool :=
  fun m =>
    let v := ry_line (env m) (ry_reads m) in
    Ok v (set_bus_log (EvGpioGet pin v :: bus_log m) (set_ry_reads (S (ry_reads m)) m)).

Definition gpio_get_all : M Z :=
  fun m =>
    let v := io_line (env m) (io_reads m) in
    Ok v (set_bus_log (EvGpioGetAll v :: bus_log m) (set_io_reads (S (io_reads m)) m)).

Definition time_us_32 : M Z :=
  fun m => Ok (u32 (timer (env m) (timer_reads m)))
              (set_timer_reads (S (timer_reads m)) m).

(** *** Queues *)

(** A queue of the program, as the address passed to the SDK. *)
Record queue_ref (A : Type) := mk_queue_ref {
  q_load : machine -> queue_t A;
  q_store : queue_t A -> machine -> machine
}.
Arguments q_load {A} _ _.
Arguments q_store {A} _ _ _.

Definition cmd_queue_ref : queue_ref cmd_t :=
  {| q_load := cmd_queue; q_store := set_cmd_queue |}.
Definition results_queue_ref : queue_ref result_t :=
  {| q_load := results_queue; q_store := set_results_queue |}.

Definition queue_init {A} (q : queue_ref A) (element_count : nat) : M unit :=
  fun m => Ok tt (q_store q (mk_queue element_count []) m).

(** [queue_add_blocking] returns once there is room; with nobody else
    running, a full queue parks the caller for good. *)
Definition queue_add_blocking {A} (q : queue_ref A) (x : A) : M unit :=
  fun m =>
    let cur := q_load q m in
    if (length (q_elems cur) <? q_count cur)%nat
    then Ok tt (q_store q (mk_queue (q_count cur) (q_elems cur ++ [x])) m)
    else Halt QueueBlocked m.

Definition queue_remove_blocking {A} (q : queue_ref A) : M A :=
  fun m =>
    let cur := q_load q m in
    match q_elems cur with
    | x :: rest => Ok x (q_store q (mk_queue (q_count cur) rest) m)
    | [] => Halt QueueBlocked m
    end.

(** *** Serial link *)

(** Each call takes the next entry of [serial_in]: a byte that arrived in
    time, or a timeout.  When the host has nothing more to say every call
    times out.  The SDK's error code is a parameter. *)
Definition getchar_timeout_us (PICO_ERROR_TIMEOUT : Z) (timeout_us : Z) : M Z :=
  fun m =>
    match serial_in m with
    | Some b :: rest => Ok (u8 b) (set_serial_in rest m)
    | None :: rest => Ok PICO_ERROR_TIMEOUT (set_serial_in rest m)
    | [] => Ok PICO_ERROR_TIMEOUT m
    end.

Definition printf (s : string) : M unit :=
  fun m => Ok tt (set_stdout (stdout m ++ [s]) m).

Definition nl : string := String "010"%char "".

(** [%d], [%u], [%lld] *)
Definition fmt_d (z : Z) : string := NilZero.string_of_int (Z.to_int z).

Definition hex_digit (upper : bool) (d : Z) : ascii :=
  if d <? 10 then ascii_of_N (Z.to_N (48 + d))
  else ascii_of_N (Z.to_N ((if upper then 55 else 87) + d)).

Fixpoint hex_digits (upper : bool) (fuel : nat) (z : Z) (acc : string) : string :=
  match fuel with
  | O => acc
  | S f =>
      let acc' := String (hex_digit upper (z mod 16)) acc in
      if z / 16 =? 0 then acc' else hex_digits upper f (z / 16) acc'
  end.

(** [%x] of an unsigned 32-bit value *)
Definition fmt_x (z : Z) : string := hex_digits false 8 z "".

(** [%02x] and [%02X] *)
Definition fmt_02x (upper : bool) (z : Z) : string :=
  let s := hex_digits upper 8 z "" in
  if (String.length s <? 2)%nat then String "0"%char s else s.

(** ** The program: pins *)

Definition set_gpios (pins : nand_pins_t) : nand_pins_t :=
  {| io_start := 0; cle := 22; ale := 21; ce := 20; re := 19; we := 18;
     wp := 17; ry := 16 |}.

Definition set_drive_strengths (pins : nand_pins_t) (strength : gpio_drive_strength)
  : M unit :=
  for_loop 8 (fun i => gpio_set_drive_strength (io_start pins + i) strength) ;;
  gpio_set_drive_strength (ale pins) strength ;;
  gpio_set_drive_strength (cle pins) strength ;;
  gpio_set_drive_strength (ce pins) strength ;;
  gpio_set_drive_strength (re pins) strength ;;
  gpio_set_drive_strength (we pins) strength ;;
  gpio_set_drive_strength (wp pins) strength.

Definition init_gpios (pins : nand_pins_t) (init_strength : gpio_drive_strength)
  : M unit :=
  for_loop 8 (fun i => gpio_init (io_start pins + i)) ;;
  gpio_init (ale pins) ;;
  gpio_init (cle pins) ;;
  gpio_init (ce pins) ;;
  gpio_init (re pins) ;;
  gpio_init (we pins) ;;
  gpio_init (wp pins) ;;
  gpio_init (ry pins) ;;
  gpio_init LED_PIN ;;
  gpio_set_pulls (ry pins) true false ;;
  gpio_set_dir_out_masked 0xFF ;;
  gpio_set_dir (ale pins) true ;;
  gpio_set_dir (cle pins) true ;;
  gpio_set_dir (ce pins) true ;;
  gpio_set_dir (re pins) true ;;
  gpio_set_dir (we pins) true ;;
  gpio_set_dir (wp pins) true ;;
  gpio_set_dir (ry pins) false ;;
  gpio_set_dir LED_PIN true ;;
  gpio_put (ale pins) false ;;
  gpio_put (cle pins) false ;;
  gpio_put (ce pins) true ;;
  gpio_put (we pins) true ;;
  gpio_put (re pins) true ;;
  gpio_put (wp pins) true ;;
  gpio_put LED_PIN true ;;
  set_drive_strengths pins init_strength.

Definition set_io_dir (pins : nand_pins_t) (to_output : bool) : M unit :=
  if to_output then gpio_set_dir_out_masked 0x000000FF
  else gpio_set_dir_in_masked 0x000000FF.

Definition set_io_val (pins : nand_pins_t) (io_val : Z) : M unit :=
  gpio_put_masked 0x000000FF (u8 io_val).

Definition get_io_val (pins : nand_pins_t) : M Z :=
  v <- gpio_get_all ;; ret (u8 (Z.land v 0xFF)).

(** ** The program: bus primitives *)

Definition write_cmd (pins : nand_pins_t) (c : Z) : M unit :=
  gpio_put (re pins) true ;;
  gpio_put (we pins) true ;;
  gpio_put (ale pins) false ;;
  set_io_dir pins true ;;
  set_io_val pins c ;;
  gpio_put (cle pins) true ;;
  gpio_put (ce pins) false ;;
  busy_wait_at_least_cycles 5 ;;
  gpio_put (we pins) false ;;
  busy_wait_at_least_cycles 3 ;;
  gpio_put (we pins) true ;;
  busy_wait_at_least_cycles 3 ;;
  gpio_put (cle pins) false.

Definition reset_nand (pins : nand_pins_t) : M unit :=
  write_cmd pins 0xFF ;;
  gpio_put (ce pins) true ;;
  sleep_us 600.

Definition write_addr_1 (pins : nand_pins_t) (addr : Z) : M unit :=
  gpio_put (ce pins) false ;;
  gpio_put (re pins) true ;;
  gpio_put (we pins) true ;;
  gpio_put (cle pins) false ;;
  set_io_dir pins true ;;
  gpio_put (ale pins) true ;;
  busy_wait_at_least_cycles 4 ;;
  set_io_val pins addr ;;
  busy_wait_at_least_cycles 3 ;;
  gpio_put (we pins) false ;;
  busy_wait_at_least_cycles 3 ;;
  gpio_put (we pins) true ;;
  busy_wait_at_least_cycles 3 ;;
  gpio_put (ale pins) false.

(** [addr_bytes] of [write_addr_5]. *)
Definition addr_bytes (page_addr col_addr : Z) : list Z :=
  let col_addr_0 := u8 (Z.land col_addr 0xFF) in
  let col_addr_1 := u8 (Z.land (Z.shiftr col_addr 8) 0x1F) in
  let page_addr_0 := u8 (Z.land page_addr 0xFF) in
  let page_addr_1 := u8 (Z.land (Z.shiftr page_addr 8) 0xFF) in
  let page_addr_2 := u8 (Z.land (Z.shiftr page_addr 16) 0x01) in
  [col_addr_0; col_addr_1; page_addr_0; page_addr_1; page_addr_2].

Definition write_addr_5 (pins : nand_pins_t) (page_addr col_addr : Z) : M unit :=
  let timing_multiplier := 10 in
  let bytes := addr_bytes page_addr col_addr in
  gpio_put (ce pins) false ;;
  gpio_put (re pins) true ;;
  gpio_put (we pins) true ;;
  gpio_put (cle pins) false ;;
  set_io_dir pins true ;;
  gpio_put (ale pins) true ;;
  busy_wait_at_least_cycles (5 * timing_multiplier) ;;
  for_loop 5 (fun i =>
    set_io_val pins (nth (Z.to_nat i) bytes 0) ;;
    busy_wait_at_least_cycles (4 * timing_multiplier) ;;
    gpio_put (we pins) false ;;
    busy_wait_at_least_cycles (4 * timing_multiplier) ;;
    gpio_put (we pins) true ;;
    busy_wait_at_least_cycles (4 * timing_multiplier)) ;;
  busy_wait_at_least_cycles (3 * timing_multiplier) ;;
  gpio_put (ale pins) false.

(** The [while (!gpio_get(pins->ry))] of [read_bytes].  The loop has no
    bound of its own; [fuel] bounds the number of samples a run of the
    model may take, and a run that uses it up stops at [PollReady]. *)
Fixpoint wait_ready (fuel : nat) (pins : nand_pins_t) (timing_multiplier : Z)
  : M unit :=
  match fuel with
  | O => stop PollReady
  | S fuel' =>
      ready <- gpio_get (ry pins) ;;
      if ready then ret tt
      else busy_wait_at_least_cycles (20 * timing_multiplier) ;;
           wait_ready fuel' pins timing_multiplier
  end.

(** The [for] loop of [read_bytes], from index [i], [n] bytes to go.  A
    store past the end of the destination is undefined in C. *)
Fixpoint read_loop (pins : nand_pins_t) (timing_multiplier : Z)
    (i : nat) (n : nat) (dst : list Z) : M (list Z) :=
  match n with
  | O => ret dst
  | S n' =>
      gpio_put (re pins) false ;;
      busy_wait_at_least_cycles (5 * timing_multiplier) ;;
      v <- get_io_val pins ;;
      (if (i <? length dst)%nat then
         busy_wait_at_least_cycles (3 * timing_multiplier) ;;
         gpio_put (re pins) true ;;
         busy_wait_at_least_cycles (3 * timing_multiplier) ;;
         read_loop pins timing_multiplier (S i) n' (<[i:=v]> dst)
       else stop Undefined)
  end.

(** [dst] is the content of the destination before the call; the value
    returned is its content after. *)
Definition read_bytes (fuel : nat) (pins : nand_pins_t) (dst : list Z)
    (num_bytes : Z) : M (list Z) :=
  let timing_multiplier := 2 in
  set_io_dir pins false ;;
  gpio_put (ce pins) false ;;
  gpio_put (cle pins) false ;;
  gpio_put (ale pins) false ;;
  gpio_put (we pins) true ;;
  gpio_put (re pins) true ;;
  busy_wait_at_least_cycles (20 * timing_multiplier) ;;
  wait_ready fuel pins timing_multiplier ;;
  busy_wait_at_least_cycles (5 * timing_multiplier) ;;
  read_loop pins timing_multiplier 0 (Z.to_nat num_bytes) dst.

(** ** The program: protocol engine *)

Definition sizeof_id_data_t : Z := 5.

Definition read_id (fuel : nat) (pins : nand_pins_t) (id_bytes : list Z)
  : M (list Z) :=
  write_cmd pins 0x90 ;;
  write_addr_1 pins 0x00 ;;
  read_bytes fuel pins id_bytes sizeof_id_data_t.

(** The five bytes at the start of a buffer seen as an [id_data_t]. *)
Definition id_of_bytes (l : list Z) : option id_data_t :=
  match l with
  | b0 :: b1 :: b2 :: b3 :: b4 :: _ => Some (mk_id b0 b1 b2 b3 b4)
  | _ => None
  end.

Definition explain_id (id_bytes : id_data_t) : M unit :=
  printf "Maker: " ;;
  (if maker id_bytes =? TOSHIBA_KIOXIA then printf "Toshiba/Kioxia"
   else printf ("Unknown (" +:+ fmt_x (maker id_bytes) +:+ ")")) ;;
  printf nl ;;
  printf ("Device Code: " +:+ fmt_x (device id_bytes) +:+ nl) ;;
  printf ("Internal Chip Number: "
          +:+ fmt_d (Z.shiftl 1 (Z.land (chip_n_type id_bytes) 0x03)) +:+ nl) ;;
  printf ("Number of Cell Levels: "
          +:+ fmt_d (Z.shiftl 1 (Z.shiftr (Z.land (chip_n_type id_bytes) 0x0B) 2 + 1))
          +:+ nl) ;;
  printf ("Page Size (without redundant area): "
          +:+ fmt_d (Z.shiftl 1 (Z.land (pgsz_bksz_iow id_bytes) 0x03)) +:+ " KB" +:+ nl) ;;
  printf ("Block Size: "
          +:+ fmt_d (Z.shiftl 1 (Z.shiftr (Z.land (pgsz_bksz_iow id_bytes) 0x30) 4) * 64)
          +:+ " KB" +:+ nl) ;;
  printf ("I/O Width: x"
          +:+ fmt_d (Z.shiftl 1 (Z.shiftr (Z.land (pgsz_bksz_iow id_bytes) 0x40) 6) * 8)
          +:+ nl) ;;
  printf ("Number of Districts: "
          +:+ fmt_d (Z.shiftl 1 (Z.shiftr (Z.land (pgsz_bksz_iow id_bytes) 0x0B) 6 + 1))
          +:+ nl).

(** The out-parameter [flash_info] is returned next to the [bool]. *)
Definition get_flash_info (id_bytes : id_data_t) (flash_info : flash_info_struct)
  : bool * flash_info_struct :=
  let pg_size_kb := u32 (Z.shiftl 1 (Z.land (pgsz_bksz_iow id_bytes) 0x03)) in
  if maker id_bytes =? TOSHIBA_KIOXIA then
    let sized :=
      if pg_size_kb =? 4 then
        Some (mk_flash_info 4096 256 (flash_size_bytes flash_info))
      else if pg_size_kb =? 2 then
        Some (mk_flash_info 2048 128 (flash_size_bytes flash_info))
      else None in
    match sized with
    | None => (false, flash_info)
    | Some fi =>
        let total_pg_size := u32 (u32 (page_size_bytes fi) + u32 (oob_size_bytes fi)) in
        (true, mk_flash_info (page_size_bytes fi) (oob_size_bytes fi)
                 (u32 (64 * 2048 * total_pg_size)))
    end
  else (false, flash_info).

Definition check_supported_io_width (id_bytes : id_data_t) : bool :=
  let io_width :=
    u32 (Z.shiftl 1 (Z.shiftr (Z.land (pgsz_bksz_iow id_bytes) 0x40) 6) * 8) in
  io_width =? 8.

(** [read_onfi_id] is declared [bool] but has no [return]; nothing calls
    it.  The model runs its body and returns nothing.  [onfi_resp] is a
    local array of six bytes, [sizeof(onfi_bytes)] is 4. *)
Definition read_onfi_id (fuel : nat) (pins : nand_pins_t) : M unit :=
  let onfi_resp := replicate 6 0 in
  write_cmd pins 0x90 ;;
  write_addr_1 pins 0x20 ;;
  read_bytes fuel pins onfi_resp 4 ;;
  ret tt.

Definition read_page (fuel : nat) (pins : nand_pins_t) (page_num : Z)
    (page_buff : list Z) (page_size : Z) : M (list Z) :=
  reset_nand pins ;;
  write_cmd pins 0x00 ;;
  write_addr_5 pins page_num 0 ;;
  write_cmd pins 0x30 ;;
  sleep_us 1 ;;
  read_bytes fuel pins page_buff page_size.

(** A read past the end of [page_buff] is undefined in C. *)
Definition display_page (page_buff : list Z) (page_size : Z) : M unit :=
  for_loop (Z.to_nat page_size) (fun i =>
    match page_buff !! Z.to_nat i with
    | Some b => printf (fmt_02x true b)
    | None => stop Undefined
    end).

(** ** The program: the two cores *)

Definition load {A} (f : machine -> A) : M A := fun m => Ok (f m) m.
Definition store (f : machine -> machine) : M unit := fun m => Ok tt (f m).

Definition sizeof_shared_buffer : nat := Z.to_nat 16384.

Definition set_sz (x : Z) (r : result_t) : result_t := mk_result x (alloc r).

(** One turn of the [while (1)] of [core1_main]: take a command, execute
    it, publish the result.  [int page_num] overflowing is undefined in
    C. *)
Definition core1_iteration (fuel : nat) : M unit :=
  c <- queue_remove_blocking cmd_queue_ref ;;
  store (set_w_cmd_arg c) ;;
  match cmd c with
  | CMD_READ_ID =>
      store (fun m => set_w_result (set_sz sizeof_id_data_t (w_result m)) m) ;;
      pins <- load pins_glob ;;
      buf <- load shared_buffer ;;
      buf' <- read_id fuel pins buf ;;
      store (set_shared_buffer buf')
  | CMD_READ_PAGE =>
      fi <- load flash_info_glob ;;
      store (fun m =>
        set_w_result (set_sz (page_size_bytes fi + oob_size_bytes fi) (w_result m)) m) ;;
      store (set_shared_buffer (replicate sizeof_shared_buffer 0)) ;;
      pins <- load pins_glob ;;
      pn <- load page_num ;;
      r <- load w_result ;;
      buf <- load shared_buffer ;;
      buf' <- read_page fuel pins (u32 pn) buf (u32 (sz r)) ;;
      store (set_shared_buffer buf') ;;
      (if pn + 1 <? 2147483648 then store (set_page_num (pn + 1))
       else stop Undefined)
  | CMD_RESET_PAGE_NO =>
      store (set_w_result (mk_result 1 0)) ;;
      store (set_page_num 0)
  | CMD_SET_PAGE_NO =>
      store (set_w_result (mk_result 1 0)) ;;
      store (set_page_num (s32 (u32 (arg c))))
  | _ => ret tt
  end ;;
  r <- load w_result ;;
  queue_add_blocking results_queue_ref r.

(** [multicore_launch_core1(core1_main)]: core 1 initialises its locals
    and parks on the command queue. *)
Definition multicore_launch_core1 : M unit :=
  store (fun m =>
    set_core1_launched true
      (set_w_cmd_arg (mk_cmd CMD_READ_ID 5)
        (set_w_result (mk_result 0 0) (set_page_num 0 m)))).

(** [queue_remove_blocking(&results_queue, &res)] on core 0.  If a result
    is waiting it is taken.  Otherwise core 0 is parked and the only code
    that can run is core 1's: one turn of its loop, which either publishes
    the result core 0 is waiting for or stops, and then so does the
    system. *)
Definition await_result (fuel : nat) : M result_t :=
  fun m =>
    match q_elems (results_queue m) with
    | _ :: _ => queue_remove_blocking results_queue_ref m
    | [] =>
        if core1_launched m
        then (core1_iteration fuel ;; queue_remove_blocking results_queue_ref) m
        else Halt QueueBlocked m
    end.

(** [while (true) { tight_loop_contents(); }] *)
Fixpoint tight_loop {A} (fuel : nat) : M A :=
  match fuel with
  | O => stop TightLoop
  | S fuel' => tight_loop_contents ;; tight_loop fuel'
  end.

(** [main] up to the [while (1)]. *)
Definition main_startup (fuel : nat) : M unit :=
  queue_init results_queue_ref 20 ;;
  queue_init cmd_queue_ref 20 ;;
  store (fun m => set_pins_glob (set_gpios (pins_glob m)) m) ;;
  pins <- load pins_glob ;;
  init_gpios pins GPIO_DRIVE_STRENGTH_2MA ;;
  reset_nand pins ;;
  id_raw <- read_id fuel pins (replicate (Z.to_nat sizeof_id_data_t) 0) ;;
  match id_of_bytes id_raw with
  | None => stop Undefined
  | Some id_data =>
      if negb (check_supported_io_width id_data) then
        printf ("Unsupported I/O width!" +:+ nl) ;;
        tight_loop fuel
      else
        fi <- load flash_info_glob ;;
        let '(ok, fi') := get_flash_info id_data fi in
        store (set_flash_info_glob fi') ;;
        if negb ok then
          printf ("Unrecognized NAND flash ID bytes!" +:+ nl) ;;
          tight_loop fuel
        else
          sleep_ms 500 ;;
          multicore_launch_core1 ;;
          stdio_init_all ;;
          store (set_curr_page 0)
  end.

Section SerialCommandInterface.

(** [PICO_ERROR_TIMEOUT] of [pico/error.h], which is not part of the
    repository. *)
Variable PICO_ERROR_TIMEOUT : Z.

(** The [switch (c - 0x30)] of [main], on the value [d] of [c - 0x30]. *)
Definition main_switch (fuel : nat) (d : Z) : M unit :=
  match d with
  | 0 =>
      queue_add_blocking cmd_queue_ref (mk_cmd CMD_READ_ID 0) ;;
      res <- await_result fuel ;;
      if (sz res <=? 0) || (sizeof_id_data_t <? u32 (sz res)) then
        printf ("Error return: " +:+ fmt_d (sz res) +:+ " <shared_buffer>" +:+ nl)
      else
        printf "ID: " ;;
        buf <- load shared_buffer ;;
        for_loop (Z.to_nat (sz res)) (fun i =>
          match buf !! Z.to_nat i with
          | Some b => printf (fmt_02x false b +:+ " ")
          | None => stop Undefined
          end) ;;
        printf nl ;;
        match id_of_bytes buf with
        | Some id => explain_id id
        | None => stop Undefined
        end
  | 1 =>
      queue_add_blocking cmd_queue_ref (mk_cmd CMD_READ_PAGE 0) ;;
      res <- await_result fuel ;;
      fi <- load flash_info_glob ;;
      if (sz res <=? 0) || (page_size_bytes fi + oob_size_bytes fi <? sz res) then
        printf ("Error reading page: " +:+ fmt_d (sz res) +:+ nl)
      else
        buf <- load shared_buffer ;;
        display_page buf (u32 (sz res)) ;;
        store (fun m => set_curr_page (u32 (curr_page m + 1)) m)
  | 2 =>
      queue_add_blocking cmd_queue_ref (mk_cmd CMD_RESET_PAGE_NO 0) ;;
      res <- await_result fuel ;;
      if negb (sz res =? 1) then
        printf ("Error resetting page " +:+ fmt_d (sz res) +:+ nl)
      else ret tt
  | 3 =>
      p1 <- getchar_timeout_us PICO_ERROR_TIMEOUT 2000000 ;;
      p2 <- getchar_timeout_us PICO_ERROR_TIMEOUT 2000000 ;;
      p3 <- getchar_timeout_us PICO_ERROR_TIMEOUT 2000000 ;;
      if (PICO_ERROR_TIMEOUT =? p1) || (PICO_ERROR_TIMEOUT =? p2)
         || (PICO_ERROR_TIMEOUT =? p3) then
        printf ("Timed out reading page number" +:+ nl)
      else
        let page_no :=
          u32 (Z.lor (Z.lor (Z.land p1 0xff) (Z.shiftl (Z.land p2 0xff) 8))
                     (Z.shiftl (Z.land p3 0x1) 16)) in
        queue_add_blocking cmd_queue_ref (mk_cmd CMD_SET_PAGE_NO page_no) ;;
        res <- await_result fuel ;;
        if negb (sz res =? 1) then
          printf ("Error setting page " +:+ fmt_d (sz res) +:+ nl)
        else ret tt
  | 4 =>
      str <- gpio_get_drive_strength 1 ;;
      printf ("Drive strength is " +:+ fmt_d (drive_strength_code str) +:+ nl)
  | 5 =>
      fi <- load flash_info_glob ;;
      printf (fmt_d (page_size_bytes fi) +:+ "," +:+ fmt_d (oob_size_bytes fi)
              +:+ "," +:+ fmt_d (flash_size_bytes fi) +:+ nl)
  | _ => printf HELP_STR
  end.

(** One turn of the [while (1)] of [main].  [char] is unsigned on the
    target. *)
Definition main_iteration (fuel : nat) : M unit :=
  t <- time_us_32 ;;
  let val := negb (Z.land (Z.shiftr t 17) 0x1 =? 0) in
  gpio_put LED_PIN val ;;
  g <- getchar_timeout_us PICO_ERROR_TIMEOUT 0 ;;
  let c := u8 g in
  if (0x30 <=? c) && (c <=? 0x39) then
    gpio_put LED_PIN true ;;
    main_switch fuel (c - 0x30)
  else ret tt.

(** The first [n] turns of the loop. *)
Fixpoint main_loop (fuel : nat) (n : nat) : M unit :=
  match n with
  | O => ret tt
  | S n' => main_iteration fuel ;; main_loop fuel n'
  end.

Definition main (fuel : nat) (n : nat) : M unit :=
  main_startup fuel ;; main_loop fuel n.

End SerialCommandInterface.

(** The machine at power-on: globals zeroed, nothing logged, the RP2040's
    reset drive strength on every pad. *)
Definition power_on (w : world) (host : list (option Z)) : machine :=
  {| env := w; bus_log := []; ry_reads := 0; io_reads := 0; timer_reads := 0;
     pad_drive := fun _ => GPIO_DRIVE_STRENGTH_4MA;
     serial_in := host; stdout := [];
     cmd_queue := mk_queue 0 []; results_queue := mk_queue 0 [];
     pins_glob := mk_pins 0 0 0 0 0 0 0 0;
     shared_buffer := replicate sizeof_shared_buffer 0;
     flash_info_glob := mk_flash_info 0 0 0;
     core1_launched := false;
     w_cmd_arg := mk_cmd CMD_READ_ID 5; w_result := mk_result 0 0; page_num := 0;
     curr_page := 0 |}.

(** ** The bus as the NAND chip sees it

    From the comments at the head of [nand_dumper.c]: a command is latched
    from the I/O port on the rising edge of WE while CLE is high, an
    address on the rising edge of WE while ALE is high; data is driven out
    by the chip while RE is low; the chip goes to standby when CE goes
    high.  [observe] replays a bus log and lists what the chip saw. *)

Inductive nand_op :=
| OpCommand (b : Z)
| OpAddress (b : Z)
| OpDataOut (b : Z)
| OpStandby
| OpSleepUs (us : Z)
| OpReadyPoll (ready : bool).

Record bus_state := mk_bus {
  s_cle : bool;
  s_ale : bool;
  s_ce : bool;
  s_re : bool;
  s_we : bool;
  s_io : Z
}.

(** The levels that [init_gpios] leaves on the control lines. *)
Definition bus_idle : bus_state := mk_bus false false true true true 0.

Definition chip_step (pins : nand_pins_t) (s : bus_state) (e : bus_event)
  : bus_state * list nand_op :=
  match e with
  | EvGpioPut pin v =>
      if pin =? we pins then
        (mk_bus (s_cle s) (s_ale s) (s_ce s) (s_re s) v (s_io s),
         if v && negb (s_we s) && negb (s_ce s) then
           if s_cle s then [OpCommand (Z.land (s_io s) 0xFF)]
           else if s_ale s then [OpAddress (Z.land (s_io s) 0xFF)]
           else []
         else [])
      else if pin =? ce pins then
        (mk_bus (s_cle s) (s_ale s) v (s_re s) (s_we s) (s_io s),
         if v && negb (s_ce s) then [OpStandby] else [])
      else if pin =? cle pins then
        (mk_bus v (s_ale s) (s_ce s) (s_re s) (s_we s) (s_io s), [])
      else if pin =? ale pins then
        (mk_bus (s_cle s) v (s_ce s) (s_re s) (s_we s) (s_io s), [])
      else if pin =? re pins then
        (mk_bus (s_cle s) (s_ale s) (s_ce s) v (s_we s) (s_io s), [])
      else (s, [])
  | EvGpioPutMasked mask val =>
      (mk_bus (s_cle s) (s_ale s) (s_ce s) (s_re s) (s_we s)
         (Z.lor (Z.land (s_io s) (Z.lnot mask)) (Z.land val mask)), [])
  | EvGpioGetAll v =>
      (s, if negb (s_re s) && negb (s_ce s) then [OpDataOut (Z.land v 0xFF)] else [])
  | EvGpioGet pin v =>
      (s, if pin =? ry pins then [OpReadyPoll v] else [])
  | EvSleepUs us => (s, [OpSleepUs us])
  | _ => (s, [])
  end.

(** [log] is newest first, as [bus_log] is. *)
Fixpoint observe (pins : nand_pins_t) (s0 : bus_state) (log : list bus_event)
  : bus_state * list nand_op :=
  match log with
  | [] => (s0, [])
  | e :: older =>
      let '(s, ops) := observe pins s0 older in
      let '(s', new) := chip_step pins s e in
      (s', ops ++ new)
  end.

(** Hardware-side update of a machine: the log and the two read counters. *)
Definition hw_update (log : list bus_event) (polls bytes : nat) (m : machine)
  : machine :=
  set_bus_log log (set_ry_reads polls (set_io_reads bytes m)).

(** The machine an outcome ends in. *)
Definition final {A} (o : outcome A) : machine :=
  match o with Ok _ m => m | Halt _ m => m end.

(** The pin map every call of the program uses. *)
Definition the_pins : nand_pins_t := set_gpios (mk_pins 0 0 0 0 0 0 0 0).

(** The bytes the chip drives on the next [n] data reads, from read
    number [from] on. *)
Definition samples (w : world) (from n : nat) : list Z :=
  map (fun j => Z.land (io_line w j) 0xFF) (seq from n).

(** [c], started in [m], returns [a] having put [L] on the bus log (newest
    first) and taken [p] ready/busy samples and [b] data samples; nothing
    else changes. *)
Definition bus_runs {A} (c : M A) (m : machine) (a : A) (L : list bus_event)
    (p b : nat) : Prop :=
  c m = Ok a (hw_update (L ++ bus_log m) (p + ry_reads m) (b + io_reads m) m).

(** The ready/busy line reads low on the next [k] samples and high on the
    one after. *)
Definition ready_after (k : nat) (m : machine) : Prop :=
  (forall j, (j < k)%nat -> ry_line (env m) (j + ry_reads m) = false)
  /\ ry_line (env m) (k + ry_reads m) = true.

(** The ready/busy line never reads high again. *)
Definition never_ready (m : machine) : Prop :=
  forall j, ry_line (env m) (j + ry_reads m) = false.

(** The machine after a turn of core 1's loop that took [c] off the
    command queue, put [L] on the bus log with [p] polls and [b] data
    reads, left [buf] in the shared buffer and [pn] in [page_num], and
    published [r]. *)
Definition core1_done (c : cmd_t) (L : list bus_event) (p b : nat)
    (buf : list Z) (r : result_t) (pn : Z) (m : machine) : machine :=
  set_results_queue
    (mk_queue (q_count (results_queue m)) (q_elems (results_queue m) ++ [r]))
    (set_page_num pn
      (set_shared_buffer buf
        (set_w_result r
          (set_w_cmd_arg c
            (set_cmd_queue
               (mk_queue (q_count (cmd_queue m)) (tail (q_elems (cmd_queue m))))
               (hw_update (L ++ bus_log m) (p + ry_reads m) (b + io_reads m) m)))))).

(** Room for one more element. *)
Definition has_room {A} (q : queue_t A) : Prop :=
  (length (q_elems q) < q_count q)%nat.

(** Commands that the [switch] of [core1_main] sends to [default]. *)
Definition unrecognized (t : cmd_enum_t) : Prop :=
  t = CMD_GET_DRIVE_STRENGTH \/ t = CMD_GET_FLASH_INFO \/ t = CMD_NONE.

(** The two queue calls with which [main] hands a command to core 1 and
    collects its result. *)
Definition dispatch (fuel : nat) (c : cmd_t) : M result_t :=
  queue_add_blocking cmd_queue_ref c ;; await_result fuel.

Fixpoint dispatch_n (fuel : nat) (n : nat) (c : cmd_t) : M unit :=
  match n with
  | O => ret tt
  | S n' => dispatch fuel c ;; dispatch_n fuel n' c
  end.

(** What [main] has established when it enters its loop, and what holds
    again after every exchange with core 1: core 1 runs, both queues are
    empty, and the geometry fits the shared buffer. *)
Definition serving (m : machine) : Prop :=
  core1_launched m = true
  /\ pins_glob m = the_pins
  /\ q_elems (cmd_queue m) = [] /\ (0 < q_count (cmd_queue m))%nat
  /\ q_elems (results_queue m) = [] /\ (0 < q_count (results_queue m))%nat
  /\ 0 < page_size_bytes (flash_info_glob m) + oob_size_bytes (flash_info_glob m)
       <= 16384
  /\ length (shared_buffer m) = sizeof_shared_buffer.

(** The ready/busy line reads high again after every point in time. *)
Definition eventually_ready (w : world) : Prop :=
  forall r, exists j, ry_line w (j + r)%nat = true.

(** [holds R c]: [c] relates every machine it is started in to the machine
    it ends in, whether it returns or stops. *)
Definition holds (R : machine -> machine -> Prop) {A} (c : M A) : Prop :=
  forall m, R m (final (c m)).

(** Relations that ignore the hardware fields of the machine. *)
Class HwFrame (R : machine -> machine -> Prop) : Prop :=
  hw_frame : forall log polls bytes m, R m (hw_update log polls bytes m).

(** [f] has the same value before and after. *)
Definition keeps {X} (f : machine -> X) : machine -> machine -> Prop :=
  fun m m' => f m' = f m.

(** While core 1 has not been launched it stays so, and [page_num] keeps
    its value. *)
Definition core1_off : machine -> machine -> Prop :=
  fun m m' =>
    core1_launched m = false ->
    core1_launched m' = false /\ page_num m' = page_num m.

(** The two queues, as one value. *)
Definition queues (m : machine) : queue_t cmd_t * queue_t result_t :=
  (cmd_queue m, results_queue m).

(** A chip that is ready at once and answers the identify command with
    the bytes quoted in [nand_dumper.c], and a machine that has booted on
    it. *)
Definition example_chip : world :=
  mk_world (fun _ => true)
           (fun n => nth n [0x98; 0xDC; 0x90; 0x26; 0x76] 0xAB)
           (fun _ => 0).

Definition example_booted : machine :=
  final (main_startup 1 (power_on example_chip [])).

(** A chip that needs two polls before it is ready, and one that never
    is. *)
Definition slow_chip : world :=
  mk_world (fun n => (2 <=? n mod 3)%nat)
           (fun n => 0xA0 + Z.of_nat n)
           (fun _ => 0).

Definition dead_chip : world :=
  mk_world (fun _ => false) (fun _ => 0xFF) (fun _ => 0).

(** The level [main] puts on the LED at the start of a turn of its loop. *)
Definition heartbeat (m : machine) : bool :=
  negb (Z.land (Z.shiftr (u32 (timer (env m) (timer_reads m))) 17) 0x1 =? 0).

(** The machine after the part of a turn of [main]'s loop that comes
    before the [switch]: the timer has been read, the LED driven, one entry
    of the serial input taken, and for a digit the LED driven high. *)
Definition polled (digit : bool) (m : machine) : machine :=
  set_serial_in (tail (serial_in m))
    (set_bus_log
       ((if digit then [EvGpioPut LED_PIN true] else [])
        ++ EvGpioPut LED_PIN (heartbeat m) :: bus_log m)
       (set_timer_reads (S (timer_reads m)) m)).

(** [c], started in [m], returns having printed [lines] and changed nothing
    else. *)
Definition says_at (c : M unit) (m : machine) (lines : list string) : Prop :=
  c m = Ok tt (set_stdout (stdout m ++ lines) m).

(** What [explain_id] prints. *)
Definition explanation (id : id_data_t) : list string :=
  stdout (final (explain_id id (power_on example_chip []))).

(** The machine after [main] has queued [c] and taken a result that was
    already waiting. *)
Definition preloaded (c : cmd_t) (m : machine) : machine :=
  set_results_queue
    (mk_queue (q_count (results_queue m)) (tail (q_elems (results_queue m))))
    (set_cmd_queue
       (mk_queue (q_count (cmd_queue m)) (q_elems (cmd_queue m) ++ [c])) m).

(** What [main] prints for an identification of [n] bytes found in [buf],
    and for a page of [n] bytes. *)
Definition id_report (buf : list Z) (n : Z) : list string :=
  ["ID: "] ++ map (fun b => fmt_02x false b +:+ " ") (take (Z.to_nat n) buf)
  ++ [nl]
  ++ match id_of_bytes buf with Some id => explanation id | None => [] end.

Definition page_report (buf : list Z) (n : Z) : list string :=
  map (fmt_02x true) (take (Z.to_nat n) buf).

(** The values of an [int]. *)
Definition is_int (z : Z) : Prop := -2147483648 <= z < 2147483648.

(** The page number [main] assembles from the three argument bytes. *)
Definition page_no (b0 b1 b2 : Z) : Z :=
  Z.lor (Z.lor (Z.land b0 0xff) (Z.shiftl (Z.land b1 0xff) 8))
        (Z.shiftl (Z.land b2 0x1) 16).

(** What [getchar_timeout_us] returns for an entry of the serial input,
    or for none when the input is exhausted. *)
Definition arrived (T : Z) (a : option (option Z)) : Z :=
  match a with
  | Some (Some b) => u8 b
  | _ => T
  end.

(** The machine after an exchange with core 1, as in [dispatch_run]. *)
Definition exchanged (c : cmd_t) (L : list bus_event) (p b : nat)
    (buf : list Z) (r : result_t) (pn : Z) (m : machine) : machine :=
  set_results_queue (mk_queue (q_count (results_queue m)) [])
    (core1_done c L p b buf r pn
       (set_cmd_queue (mk_queue (q_count (cmd_queue m)) [c]) m)).

(** The identification that [read_id] will find in [m]. *)
Definition identified (m : machine) : option id_data_t :=
  id_of_bytes (samples (env m) (io_reads m) 5).

(** A chip that identifies as sixteen bits wide. *)
Definition wide_chip : world :=
  mk_world (fun _ => true)
           (fun n => nth n [0x98; 0xDC; 0x90; 0x66; 0x76] 0xAB)
           (fun _ => 0).

(** Whether a computation returned. *)
Definition returned {A} (o : outcome A) : bool :=
  match o with
  | Ok _ _ => true
  | Halt _ _ => false
  end.

(** A booted machine to which a result of size [n] has been handed while
    the host sends [host]. *)
Definition handed (n : Z) (host : list (option Z)) : machine :=
  set_results_queue (mk_queue 20 [mk_result n 0])
    (set_serial_in host example_booted).

(** The pads whose drive strength [set_drive_strengths] writes. *)
Definition driven_pins (pins : nand_pins_t) : list Z :=
  map (fun i => io_start pins + i) [0; 1; 2; 3; 4; 5; 6; 7]
  ++ [ale pins; cle pins; ce pins; re pins; we pins; wp pins].

(** The value of a hexadecimal digit, and of a string of them read as a
    number. *)
Definition hex_value (c : ascii) : option Z :=
  let n := Z.of_N (N_of_ascii c) in
  if (48 <=? n) && (n <=? 57) then Some (n - 48)
  else if (65 <=? n) && (n <=? 70) then Some (n - 55)
  else if (97 <=? n) && (n <=? 102) then Some (n - 87)
  else None.

Fixpoint hex_number (acc : Z) (s : string) : option Z :=
  match s with
  | EmptyString => Some acc
  | String c s' =>
      match hex_value c with
      | Some d => hex_number (16 * acc + d) s'
      | None => None
      end
  end.

(** [s] is exactly two hexadecimal digits that read as [b]. *)
Definition two_digits_of (b : Z) (s : string) : bool :=
  (String.length s =? 2)%nat
  && match hex_number 0 s with Some v => v =? b | None => false end.

(** The line [main] prints for the command '5'. *)
Definition geometry_line (fi : flash_info_struct) : string :=
  fmt_d (page_size_bytes fi) +:+ "," +:+ fmt_d (oob_size_bytes fi)
  +:+ "," +:+ fmt_d (flash_size_bytes fi) +:+ nl.

(** The line [main] prints for the command '4'. *)
Definition drive_line (s : gpio_drive_strength) : string :=
  "Drive strength is " +:+ fmt_d (drive_strength_code s) +:+ nl.

(** What a turn of [main]'s loop keeps, from [m] to [m']. *)
Definition turn_keeps (m m' : machine) : Prop :=
  serving m'
  /\ env m' = env m
  /\ flash_info_glob m' = flash_info_glob m
  /\ 0 <= page_num m' <= Z.max (page_num m) 131071 + 1
  /\ (exists j, serial_in m' = drop j (serial_in m))
  /\ (exists lines, stdout m' = stdout m ++ lines).

(** The example machine with [host] waiting on the serial link. *)
Definition example_with (host : list (option Z)) : machine :=
  set_serial_in host example_booted.

(** A chip that answers the identification and then stays busy, and the
    machine booted on it. *)
Definition fading_chip : world :=
  mk_world (fun n => match n with O => true | S _ => false end)
           (fun n => nth n [0x98; 0xDC; 0x90; 0x26; 0x76] 0xAB)
           (fun _ => 0).

Definition stalled (host : list (option Z)) : machine :=
  set_serial_in host (final (main_startup 1 (power_on fading_chip []))).

(** * Properties *)

(** ** Bus traces *)

Lemma observe_app pins s0 newer older :
  observe pins s0 (newer ++ older) =
  let '(s, ops) := observe pins s0 older in
  let '(s', ops') := observe pins s newer in
  (s', ops ++ ops').
Proof.
  induction newer as [|e newer IH]; simpl.
  - destruct (observe pins s0 older) as [s ops]. by rewrite app_nil_r.
  - rewrite IH. destruct (observe pins s0 older) as [s ops].
    destruct (observe pins s newer) as [s1 ops1].
    destruct (chip_step pins s1 e) as [s2 new]. by rewrite app_assoc.
Qed.

Lemma u8_land_255 v : u8 (Z.land v 0xFF) = Z.land v 0xFF.
Proof.
  unfold u8. change 0xFF with (Z.ones 8). rewrite Z.land_ones by lia.
  change (2 ^ 8) with 256. apply Z.mod_mod. lia.
Qed.

Lemma land_255_u8 v : Z.land v 0xFF = u8 v.
Proof. unfold u8. change 0xFF with (Z.ones 8). by rewrite Z.land_ones by lia. Qed.

Lemma io_low8 io v :
  Z.land (Z.lor (Z.land io (Z.lnot 0xFF)) (Z.land v 0xFF)) 0xFF = u8 v.
Proof.
  rewrite <- land_255_u8.
  rewrite Z.land_lor_distr_l, <- !Z.land_assoc.
  change (Z.land (Z.lnot 255) 255) with 0. change (Z.land 255 255) with 255.
  by rewrite Z.land_0_r, Z.lor_0_l.
Qed.


Lemma u8_idem x : u8 (u8 x) = u8 x.
Proof. unfold u8. apply Z.mod_mod. lia. Qed.

Ltac split_log t l :=
  lazymatch l with
  | ?e :: ?l' => let p := split_log t l' in constr:(e :: p)
  | ?a ++ ?l' => let p := split_log t l' in constr:(a ++ p)
  | _ => let _ := lazymatch goal with _ => constr_eq l t end in
         constr:(@nil bus_event)
  end.

(** Symbolic execution of straight-line bus code on a machine given by
    its fields. *)
Tactic Notation "run_bus" :=
  cbv -[Z.land Z.lor Z.lnot Z.shiftl Z.shiftr Z.modulo Z.div u8 u32
        wait_ready read_loop Init.Nat.add app ry_line io_line timer].
Tactic Notation "run_bus" "in" hyp(H) :=
  cbv -[Z.land Z.lor Z.lnot Z.shiftl Z.shiftr Z.modulo Z.div u8 u32
        wait_ready read_loop Init.Nat.add app ry_line io_line timer] in H.

Tactic Notation "step_bus" :=
  cbv beta iota zeta delta
    [bind ret stop emit load store gpio_put gpio_get gpio_get_all gpio_put_masked
     gpio_set_dir_out_masked gpio_set_dir_in_masked busy_wait_at_least_cycles
     sleep_us set_io_dir set_io_val get_io_val
     hw_update set_bus_log set_ry_reads set_io_reads set_timer_reads
     set_pad_drive set_serial_in set_stdout set_cmd_queue set_results_queue
     set_pins_glob set_shared_buffer set_flash_info_glob set_core1_launched
     set_w_cmd_arg set_w_result set_page_num set_curr_page
     env bus_log ry_reads io_reads timer_reads pad_drive serial_in stdout
     cmd_queue results_queue pins_glob shared_buffer flash_info_glob
     core1_launched w_cmd_arg w_result page_num curr_page
     the_pins set_gpios io_start ale cle ce re we wp ry
     Z.mul Pos.mul Pos.add Pos.succ].
Tactic Notation "step_bus" "in" hyp(H) :=
  cbv beta iota zeta delta
    [bind ret stop emit load store gpio_put gpio_get gpio_get_all gpio_put_masked
     gpio_set_dir_out_masked gpio_set_dir_in_masked busy_wait_at_least_cycles
     sleep_us set_io_dir set_io_val get_io_val
     hw_update set_bus_log set_ry_reads set_io_reads set_timer_reads
     set_pad_drive set_serial_in set_stdout set_cmd_queue set_results_queue
     set_pins_glob set_shared_buffer set_flash_info_glob set_core1_launched
     set_w_cmd_arg set_w_result set_page_num set_curr_page
     env bus_log ry_reads io_reads timer_reads pad_drive serial_in stdout
     cmd_queue results_queue pins_glob shared_buffer flash_info_glob
     core1_launched w_cmd_arg w_result page_num curr_page
     the_pins set_gpios io_start ale cle ce re we wp ry
     Z.mul Pos.mul Pos.add Pos.succ] in H.

Ltac destruct_machine m :=
  destruct m as [m_w m_bl m_rr m_ir m_tr m_pd m_si m_so m_cq m_rq m_pg m_sb m_fi m_cl m_wc m_wr m_pn m_cp].

Ltac name_log :=
  lazymatch goal with
  | |- Ok _ (mk_machine _ ?l _ _ _ _ _ _ _ _ _ _ _ _ _ _ _ _) =
       Ok _ (mk_machine _ (?L ++ ?t) _ _ _ _ _ _ _ _ _ _ _ _ _ _ _ _) =>
      let p := split_log t l in unify L p
  end.

Lemma write_cmd_run c m :
  exists L,
    write_cmd the_pins c m = Ok tt (hw_update (L ++ bus_log m) (ry_reads m) (io_reads m) m)
    /\ forall cl al e r io, exists io',
         observe the_pins (mk_bus cl al e r true io) L =
           (mk_bus false false false true true io', [OpCommand (u8 c)]).
Proof.
  destruct_machine m. eexists. split.
  - run_bus. name_log. reflexivity.
  - intros. cbn. rewrite io_low8, u8_idem. eauto.
Qed.

Lemma reset_nand_run m :
  exists L,
    reset_nand the_pins m = Ok tt (hw_update (L ++ bus_log m) (ry_reads m) (io_reads m) m)
    /\ forall cl al e r io, exists io',
         observe the_pins (mk_bus cl al e r true io) L =
           (mk_bus false false true true true io',
            [OpCommand 0xFF; OpStandby; OpSleepUs 600]).
Proof.
  destruct_machine m. eexists. split.
  - run_bus. name_log. reflexivity.
  - intros. cbn. rewrite io_low8. eauto.
Qed.

Lemma write_addr_1_run a m :
  exists L,
    write_addr_1 the_pins a m = Ok tt (hw_update (L ++ bus_log m) (ry_reads m) (io_reads m) m)
    /\ forall cl al e r io, exists io',
         observe the_pins (mk_bus cl al e r true io) L =
           (mk_bus false false false true true io', [OpAddress (u8 a)]).
Proof.
  destruct_machine m. eexists. split.
  - run_bus. name_log. reflexivity.
  - intros. cbn. rewrite io_low8, u8_idem. eauto.
Qed.

Lemma write_addr_5_run pn col m :
  exists L,
    write_addr_5 the_pins pn col m = Ok tt (hw_update (L ++ bus_log m) (ry_reads m) (io_reads m) m)
    /\ forall cl al e r io, exists io',
         observe the_pins (mk_bus cl al e r true io) L =
           (mk_bus false false false true true io',
            map OpAddress (addr_bytes pn col)).
Proof.
  destruct_machine m. eexists. split.
  - run_bus. name_log. reflexivity.
  - intros. cbn. rewrite !io_low8, !u8_idem. eauto.
Qed.

(** *** The ready/busy poll *)

Lemma wait_ready_run k : forall m,
  ready_after k m ->
  exists L,
    (forall fuel, (k < fuel)%nat ->
       wait_ready fuel the_pins 2 m =
         Ok tt (hw_update (L ++ bus_log m) (S k + ry_reads m) (io_reads m) m))
    /\ forall s, observe the_pins s L =
                   (s, replicate k (OpReadyPoll false) ++ [OpReadyPoll true]).
Proof.
  induction k as [|k IH]; intros m [Hlow Hhigh].
  - exists [EvGpioGet 16 true]. split.
    + intros [|fuel] Hk; [lia|].
      destruct_machine m. cbn in Hhigh. cbn [wait_ready]. run_bus.
      rewrite Hhigh. reflexivity.
    + intros s. cbn. by destruct s.
  - assert (H0 : ry_line (env m) (ry_reads m) = false) by (apply (Hlow 0%nat); lia).
    destruct (IH (hw_update (EvBusyWait 40 :: EvGpioGet 16 false :: bus_log m)
                    (S (ry_reads m)) (io_reads m) m)) as (L & Hrun & Hobs).
    { split.
      - intros j Hj. cbn. rewrite <- Nat.add_succ_comm. apply Hlow. lia.
      - cbn. rewrite <- Nat.add_succ_comm. exact Hhigh. }
    exists (L ++ [EvBusyWait 40; EvGpioGet 16 false]). split.
    + intros [|fuel] Hk; [lia|]. specialize (Hrun fuel ltac:(lia)).
      destruct_machine m. cbn in H0. cbn [wait_ready]. run_bus. rewrite H0.
      run_bus in Hrun. rewrite Hrun.
      rewrite <- app_assoc, Nat.add_succ_r. reflexivity.
    + intros s. rewrite observe_app. cbn. rewrite Hobs. by destruct s.
Qed.

Lemma wait_ready_spin fuel : forall m,
  (forall j, (j < fuel)%nat -> ry_line (env m) (j + ry_reads m) = false) ->
  exists L,
    wait_ready fuel the_pins 2 m =
      Halt PollReady (hw_update (L ++ bus_log m) (fuel + ry_reads m) (io_reads m) m)
    /\ forall s, observe the_pins s L = (s, replicate fuel (OpReadyPoll false)).
Proof.
  induction fuel as [|fuel IH]; intros m Hlow.
  - exists []. split; [|done]. by destruct m.
  - assert (H0 : ry_line (env m) (ry_reads m) = false) by (apply (Hlow 0%nat); lia).
    destruct (IH (hw_update (EvBusyWait 40 :: EvGpioGet 16 false :: bus_log m)
                    (S (ry_reads m)) (io_reads m) m)) as (L & Hrun & Hobs).
    + intros j Hj. cbn. rewrite <- Nat.add_succ_comm. apply Hlow. lia.
    + exists (L ++ [EvBusyWait 40; EvGpioGet 16 false]). split.
      * destruct_machine m. cbn in H0. cbn [wait_ready]. run_bus. rewrite H0.
        run_bus in Hrun. rewrite Hrun.
        rewrite <- app_assoc, Nat.add_succ_r. reflexivity.
      * intros s. rewrite observe_app. cbn. rewrite Hobs. by destruct s.
Qed.

Lemma wait_ready_returns fuel : forall pins tm m m',
  wait_ready fuel pins tm m = Ok tt m' ->
  exists j, (j < fuel)%nat /\ ry_line (env m) (j + ry_reads m) = true.
Proof.
  induction fuel as [|fuel IH]; intros pins tm m m' H; [discriminate|].
  cbn in H. unfold bind, gpio_get in H. cbn in H.
  destruct (ry_line (env m) (ry_reads m)) eqn:E.
  - exists 0%nat. split; [lia|exact E].
  - apply IH in H. destruct H as (j & Hj & Hr). cbn in Hr.
    exists (S j). split; [lia|]. by rewrite Nat.add_succ_comm.
Qed.

(** The first sample at which a line that is eventually high reads high. *)
Lemma first_ready_below (f : nat -> bool) (n : nat) :
  (forall j, (j < n)%nat -> f j = false) \/
  exists k, (k < n)%nat /\ f k = true /\ forall j, (j < k)%nat -> f j = false.
Proof.
  induction n as [|n [IH|(k & Hk & Hf & Hmin)]].
  - left. intros j Hj. lia.
  - destruct (f n) eqn:E.
    + right. exists n. split; [lia|done].
    + left. intros j Hj. destruct (decide (j = n)) as [->|]; [done|].
      apply IH. lia.
  - right. exists k. split; [lia|done].
Qed.

Lemma first_ready (f : nat -> bool) (n : nat) :
  f n = true ->
  exists k, f k = true /\ forall j, (j < k)%nat -> f j = false.
Proof.
  intros Hn. destruct (first_ready_below f (S n)) as [H|(k & _ & Hf & Hmin)].
  - rewrite H in Hn by lia. discriminate.
  - eauto.
Qed.

(** *** The read loop *)

Lemma samples_S w from n :
  samples w from (S n) = Z.land (io_line w from) 0xFF :: samples w (S from) n.
Proof. reflexivity. Qed.

Lemma read_loop_run n : forall i dst m,
  (i + n <= length dst)%nat ->
  exists L,
    read_loop the_pins 2 i n dst m =
      Ok (take i dst ++ samples (env m) (io_reads m) n ++ drop (i + n) dst)
         (hw_update (L ++ bus_log m) (ry_reads m) (n + io_reads m) m)
    /\ forall c a w io,
         observe the_pins (mk_bus c a false true w io) L =
           (mk_bus c a false true w io, map OpDataOut (samples (env m) (io_reads m) n)).
Proof.
  induction n as [|n IH]; intros i dst m Hlen.
  - exists []. split; [|done].
    cbn. rewrite Nat.add_0_r, take_drop. by destruct m.
  - assert (Hi : (i <? length dst)%nat = true) by (apply Nat.ltb_lt; lia).
    set (v := Z.land (io_line (env m) (io_reads m)) 0xFF).
    destruct (IH (S i) (<[i:=v]> dst)
                (hw_update
                   (EvBusyWait 6 :: EvGpioPut 19 true :: EvBusyWait 6
                    :: EvGpioGetAll (io_line (env m) (io_reads m))
                    :: EvBusyWait 10 :: EvGpioPut 19 false :: bus_log m)
                   (ry_reads m) (S (io_reads m)) m)) as (L & Hrun & Hobs).
    { rewrite length_insert. lia. }
    exists (L ++ [EvBusyWait 6; EvGpioPut 19 true; EvBusyWait 6;
                  EvGpioGetAll (io_line (env m) (io_reads m));
                  EvBusyWait 10; EvGpioPut 19 false]).
    split.
    + rewrite samples_S. fold v.
      assert (Hbuf : take (S i) (<[i:=v]> dst) ++ samples (env m) (S (io_reads m)) n
                       ++ drop (S i + n) (<[i:=v]> dst)
                     = take i dst ++ (v :: samples (env m) (S (io_reads m)) n)
                       ++ drop (i + S n) dst).
      { rewrite (take_S_r _ _ v) by (apply list_lookup_insert_eq; lia).
        rewrite take_insert_ge by lia. rewrite drop_insert_lt by lia.
        rewrite <- app_assoc. cbn. by rewrite Nat.add_succ_r. }
      rewrite <- Hbuf. clear Hbuf.
      destruct_machine m. subst v. cbn [read_loop]. step_bus. rewrite Hi.
      step_bus. rewrite u8_land_255. step_bus in Hrun. rewrite Hrun.
      rewrite <- app_assoc, Nat.add_succ_r. reflexivity.
    + intros c a w io. rewrite observe_app. cbn -[samples]. rewrite Hobs.
      rewrite samples_S. reflexivity.
Qed.

(** *** Reading bytes *)

Lemma read_bytes_run k m dst num_bytes :
  ready_after k m ->
  (Z.to_nat num_bytes <= length dst)%nat ->
  let got := samples (env m) (io_reads m) (Z.to_nat num_bytes) in
  exists L,
    (forall fuel, (k < fuel)%nat ->
       bus_runs (read_bytes fuel the_pins dst num_bytes) m
         (got ++ drop (Z.to_nat num_bytes) dst) L (S k) (Z.to_nat num_bytes))
    /\ forall s, exists s',
         observe the_pins s L =
           (s', replicate k (OpReadyPoll false) ++ [OpReadyPoll true]
                ++ map OpDataOut got).
Proof.
  intros Hready Hlen got. unfold read_bytes.
  set (m1 := hw_update
     (EvBusyWait 40 :: EvGpioPut 19 true :: EvGpioPut 18 true :: EvGpioPut 21 false
      :: EvGpioPut 22 false :: EvGpioPut 20 false :: EvGpioSetDirInMasked 255
      :: bus_log m) (ry_reads m) (io_reads m) m).
  destruct (wait_ready_run k m1) as (Lw & Hw & Hwo); [exact Hready|].
  set (m2 := hw_update (EvBusyWait 10 :: Lw ++ bus_log m1) (S k + ry_reads m1)
               (io_reads m1) m1).
  destruct (read_loop_run (Z.to_nat num_bytes) 0%nat dst m2) as (Lr & Hr & Hro);
    [simpl; lia|].
  exists (Lr ++ [EvBusyWait 10] ++ Lw ++
          [EvBusyWait 40; EvGpioPut 19 true; EvGpioPut 18 true; EvGpioPut 21 false;
           EvGpioPut 22 false; EvGpioPut 20 false; EvGpioSetDirInMasked 255]).
  split.
  - intros fuel Hk. specialize (Hw fuel Hk).
    unfold bus_runs. subst m1 m2 got. destruct_machine m.
    step_bus. step_bus in Hw. rewrite Hw. step_bus in Hr. rewrite Hr.
    rewrite take_0. repeat first [rewrite <- app_assoc | progress cbn [app Nat.add]].
    reflexivity.
  - intros s. rewrite !observe_app.
    subst m1 m2. cbn -[samples replicate observe] in Hro.
    destruct s as [[] [] [] [] [] io]; cbn -[samples replicate];
      rewrite Hwo; cbn -[samples replicate]; rewrite Hro; eexists;
      (f_equal; subst got; rewrite <- !app_assoc; reflexivity).
Qed.

Ltac next_machine H k :=
  lazymatch type of H with
  | _ = Ok _ ?m1 => k m1
  end.

Lemma read_id_run k m dst :
  ready_after k m ->
  (5 <= length dst)%nat ->
  let got := samples (env m) (io_reads m) 5 in
  exists L,
    (forall fuel, (k < fuel)%nat ->
       bus_runs (read_id fuel the_pins dst) m (got ++ drop 5 dst) L (S k) 5)
    /\ forall cl al e r io, exists s',
         observe the_pins (mk_bus cl al e r true io) L =
           (s', [OpCommand 0x90; OpAddress 0x00]
                ++ replicate k (OpReadyPoll false) ++ [OpReadyPoll true]
                ++ map OpDataOut got).
Proof.
  intros Hready Hlen got. unfold bus_runs, read_id. subst got.
  destruct_machine m. unfold ready_after in Hready. step_bus in Hready.
  destruct (write_cmd_run 0x90 (mk_machine m_w m_bl m_rr m_ir m_tr m_pd m_si m_so
              m_cq m_rq m_pg m_sb m_fi m_cl m_wc m_wr m_pn m_cp)) as (L1 & H1 & O1).
  step_bus in H1.
  next_machine H1 ltac:(fun m1 =>
    destruct (write_addr_1_run 0x00 m1) as (L2 & H2 & O2)).
  step_bus in H2.
  next_machine H2 ltac:(fun m2 =>
    destruct (read_bytes_run k m2 dst sizeof_id_data_t) as (L3 & H3 & O3);
    [exact Hready|exact Hlen|]).
  exists ((L3 ++ L2) ++ L1). split.
  - intros fuel Hk. specialize (H3 fuel Hk). unfold bus_runs in H3. step_bus in H3.
    step_bus. rewrite H1, H2, H3. by rewrite <- !app_assoc.
  - intros cl al e r io. rewrite observe_app.
    destruct (O1 cl al e r io) as (io1 & ->); cbv beta iota.
    rewrite observe_app.
    destruct (O2 false false false true io1) as (io2 & ->); cbv beta iota.
    destruct (O3 (mk_bus false false false true true io2)) as (s3 & ->); cbv beta iota.
    exists s3. by rewrite <- ?app_assoc.
Qed.

Lemma read_page_run k m pn dst page_size :
  ready_after k m ->
  (Z.to_nat page_size <= length dst)%nat ->
  let got := samples (env m) (io_reads m) (Z.to_nat page_size) in
  exists L,
    (forall fuel, (k < fuel)%nat ->
       bus_runs (read_page fuel the_pins pn dst page_size) m
         (got ++ drop (Z.to_nat page_size) dst) L (S k) (Z.to_nat page_size))
    /\ forall cl al e r io, exists s',
         observe the_pins (mk_bus cl al e r true io) L =
           (s', [OpCommand 0xFF; OpStandby; OpSleepUs 600; OpCommand 0x00]
                ++ map OpAddress (addr_bytes pn 0)
                ++ [OpCommand 0x30; OpSleepUs 1]
                ++ replicate k (OpReadyPoll false) ++ [OpReadyPoll true]
                ++ map OpDataOut got).
Proof.
  intros Hready Hlen got. unfold bus_runs, read_page. subst got.
  destruct_machine m. unfold ready_after in Hready. step_bus in Hready.
  destruct (reset_nand_run (mk_machine m_w m_bl m_rr m_ir m_tr m_pd m_si m_so
              m_cq m_rq m_pg m_sb m_fi m_cl m_wc m_wr m_pn m_cp)) as (L1 & H1 & O1).
  step_bus in H1.
  next_machine H1 ltac:(fun m1 =>
    destruct (write_cmd_run 0x00 m1) as (L2 & H2 & O2)).
  step_bus in H2.
  next_machine H2 ltac:(fun m2 =>
    destruct (write_addr_5_run pn 0 m2) as (L3 & H3 & O3)).
  step_bus in H3.
  next_machine H3 ltac:(fun m3 =>
    destruct (write_cmd_run 0x30 m3) as (L4 & H4 & O4)).
  step_bus in H4.
  next_machine H4 ltac:(fun m4 =>
    destruct (read_bytes_run k (set_bus_log (EvSleepUs 1 :: bus_log m4) m4)
                dst page_size) as (L6 & H6 & O6);
    [exact Hready|exact Hlen|]).
  exists (((((L6 ++ [EvSleepUs 1]) ++ L4) ++ L3) ++ L2) ++ L1). split.
  - intros fuel Hk. specialize (H6 fuel Hk). unfold bus_runs in H6. step_bus in H6.
    step_bus. rewrite H1, H2, H3, H4. step_bus. rewrite H6.
    by rewrite <- !app_assoc.
  - intros cl al e r io. rewrite observe_app.
    destruct (O1 cl al e r io) as (io1 & ->); cbv beta iota.
    rewrite observe_app.
    destruct (O2 false false true true io1) as (io2 & ->); cbv beta iota.
    rewrite observe_app.
    destruct (O3 false false false true io2) as (io3 & ->); cbv beta iota.
    rewrite observe_app.
    destruct (O4 false false false true io3) as (io4 & ->); cbv beta iota.
    rewrite observe_app. cbn [observe chip_step app].
    destruct (O6 (mk_bus false false false true true io4)) as (s6 & ->); cbv beta iota.
    exists s6. by rewrite <- ?app_assoc.
Qed.

(** ** Core 1 *)

Tactic Notation "step_core" :=
  cbv beta iota zeta delta
    [bind ret stop emit load store gpio_put gpio_get gpio_get_all gpio_put_masked
     gpio_set_dir_out_masked gpio_set_dir_in_masked busy_wait_at_least_cycles
     sleep_us set_io_dir set_io_val get_io_val
     hw_update set_bus_log set_ry_reads set_io_reads set_timer_reads
     set_pad_drive set_serial_in set_stdout set_cmd_queue set_results_queue
     set_pins_glob set_shared_buffer set_flash_info_glob set_core1_launched
     set_w_cmd_arg set_w_result set_page_num set_curr_page
     env bus_log ry_reads io_reads timer_reads pad_drive serial_in stdout
     cmd_queue results_queue pins_glob shared_buffer flash_info_glob
     core1_launched w_cmd_arg w_result page_num curr_page
     core1_iteration core1_done queue_remove_blocking queue_add_blocking
     cmd_queue_ref results_queue_ref q_load q_store q_elems q_count
     cmd arg sz alloc set_sz tail final has_room
     page_size_bytes oob_size_bytes flash_size_bytes].
Tactic Notation "step_core" "in" hyp(H) :=
  cbv beta iota zeta delta
    [bind ret stop emit load store gpio_put gpio_get gpio_get_all gpio_put_masked
     gpio_set_dir_out_masked gpio_set_dir_in_masked busy_wait_at_least_cycles
     sleep_us set_io_dir set_io_val get_io_val
     hw_update set_bus_log set_ry_reads set_io_reads set_timer_reads
     set_pad_drive set_serial_in set_stdout set_cmd_queue set_results_queue
     set_pins_glob set_shared_buffer set_flash_info_glob set_core1_launched
     set_w_cmd_arg set_w_result set_page_num set_curr_page
     env bus_log ry_reads io_reads timer_reads pad_drive serial_in stdout
     cmd_queue results_queue pins_glob shared_buffer flash_info_glob
     core1_launched w_cmd_arg w_result page_num curr_page
     core1_iteration core1_done queue_remove_blocking queue_add_blocking
     cmd_queue_ref results_queue_ref q_load q_store q_elems q_count
     cmd arg sz alloc set_sz tail final has_room
     page_size_bytes oob_size_bytes flash_size_bytes] in H.

Lemma u32_small z : 0 <= z < 4294967296 -> u32 z = z.
Proof. intros H. unfold u32. by apply Z.mod_small. Qed.

Lemma core1_quiet_run fuel m c rest :
  q_elems (cmd_queue m) = c :: rest ->
  has_room (results_queue m) ->
  (cmd c = CMD_RESET_PAGE_NO ->
     core1_iteration fuel m =
       Ok tt (core1_done c [] 0 0 (shared_buffer m) (mk_result 1 0) 0 m))
  /\ (cmd c = CMD_SET_PAGE_NO ->
     core1_iteration fuel m =
       Ok tt (core1_done c [] 0 0 (shared_buffer m) (mk_result 1 0)
                (s32 (u32 (arg c))) m))
  /\ (unrecognized (cmd c) ->
     core1_iteration fuel m =
       Ok tt (core1_done c [] 0 0 (shared_buffer m) (w_result m) (page_num m) m)).
Proof.
  intros Hq Hroom. destruct_machine m. destruct m_cq as [ccap celems].
  destruct m_rq as [rcap relems]. destruct c as [tag a].
  step_core in Hq. step_core in Hroom. subst celems.
  apply Nat.ltb_lt in Hroom.
  repeat split; intros Ht; unfold unrecognized in Ht; step_core in Ht;
    [subst tag|subst tag|destruct Ht as [->|[->| ->]]];
    step_core; rewrite Hroom; reflexivity.
Qed.

(** *** When the chip never becomes ready *)

Lemma read_bytes_spin fuel m dst num_bytes :
  never_ready m ->
  exists L,
    read_bytes fuel the_pins dst num_bytes m =
      Halt PollReady (hw_update (L ++ bus_log m) (fuel + ry_reads m) (io_reads m) m).
Proof.
  intros Hnever. unfold read_bytes. destruct_machine m.
  unfold never_ready in Hnever. step_bus in Hnever.
  destruct (wait_ready_spin fuel
              (mk_machine m_w
                 (EvBusyWait 40 :: EvGpioPut 19 true :: EvGpioPut 18 true
                  :: EvGpioPut 21 false :: EvGpioPut 22 false
                  :: EvGpioPut 20 false :: EvGpioSetDirInMasked 255 :: m_bl)
                 m_rr m_ir m_tr m_pd m_si m_so m_cq m_rq m_pg m_sb m_fi m_cl m_wc
                 m_wr m_pn m_cp))
    as (Lw & Hw & _); [intros j _; apply Hnever|].
  step_bus in Hw.
  exists (Lw ++ [EvBusyWait 40; EvGpioPut 19 true; EvGpioPut 18 true;
                 EvGpioPut 21 false; EvGpioPut 22 false; EvGpioPut 20 false;
                 EvGpioSetDirInMasked 255]).
  step_bus. rewrite Hw. by rewrite <- app_assoc.
Qed.

Lemma read_id_spin fuel m dst :
  never_ready m ->
  exists L,
    read_id fuel the_pins dst m =
      Halt PollReady (hw_update (L ++ bus_log m) (fuel + ry_reads m) (io_reads m) m).
Proof.
  intros Hnever. unfold read_id. destruct_machine m.
  unfold never_ready in Hnever. step_bus in Hnever.
  destruct (write_cmd_run 0x90 (mk_machine m_w m_bl m_rr m_ir m_tr m_pd m_si m_so
              m_cq m_rq m_pg m_sb m_fi m_cl m_wc m_wr m_pn m_cp)) as (L1 & H1 & _).
  step_bus in H1.
  next_machine H1 ltac:(fun m1 =>
    destruct (write_addr_1_run 0x00 m1) as (L2 & H2 & _)).
  step_bus in H2.
  next_machine H2 ltac:(fun m2 =>
    destruct (read_bytes_spin fuel m2 dst sizeof_id_data_t) as (L3 & H3);
    [exact Hnever|]).
  step_bus in H3.
  exists ((L3 ++ L2) ++ L1).
  step_bus. rewrite H1, H2, H3. by rewrite <- !app_assoc.
Qed.

Lemma read_page_spin fuel m pn dst page_size :
  never_ready m ->
  exists L,
    read_page fuel the_pins pn dst page_size m =
      Halt PollReady (hw_update (L ++ bus_log m) (fuel + ry_reads m) (io_reads m) m).
Proof.
  intros Hnever. unfold read_page. destruct_machine m.
  unfold never_ready in Hnever. step_bus in Hnever.
  destruct (reset_nand_run (mk_machine m_w m_bl m_rr m_ir m_tr m_pd m_si m_so
              m_cq m_rq m_pg m_sb m_fi m_cl m_wc m_wr m_pn m_cp)) as (L1 & H1 & _).
  step_bus in H1.
  next_machine H1 ltac:(fun m1 =>
    destruct (write_cmd_run 0x00 m1) as (L2 & H2 & _)).
  step_bus in H2.
  next_machine H2 ltac:(fun m2 =>
    destruct (write_addr_5_run pn 0 m2) as (L3 & H3 & _)).
  step_bus in H3.
  next_machine H3 ltac:(fun m3 =>
    destruct (write_cmd_run 0x30 m3) as (L4 & H4 & _)).
  step_bus in H4.
  next_machine H4 ltac:(fun m4 =>
    destruct (read_bytes_spin fuel (set_bus_log (EvSleepUs 1 :: bus_log m4) m4)
                dst page_size) as (L6 & H6); [exact Hnever|]).
  step_bus in H6.
  exists (((((L6 ++ [EvSleepUs 1]) ++ L4) ++ L3) ++ L2) ++ L1).
  step_bus. rewrite H1, H2, H3, H4. step_bus. rewrite H6.
  by rewrite <- !app_assoc.
Qed.

(** *** Core 1: commands that use the bus *)

Lemma core1_read_id_run k m c rest :
  q_elems (cmd_queue m) = c :: rest ->
  cmd c = CMD_READ_ID ->
  pins_glob m = the_pins ->
  ready_after k m ->
  (5 <= length (shared_buffer m))%nat ->
  has_room (results_queue m) ->
  exists L, forall fuel, (k < fuel)%nat ->
    core1_iteration fuel m =
      Ok tt (core1_done c L (S k) 5
               (samples (env m) (io_reads m) 5 ++ drop 5 (shared_buffer m))
               (set_sz 5 (w_result m)) (page_num m) m).
Proof.
  intros Hq Ht Hpins Hready Hlen Hroom. destruct_machine m.
  destruct m_cq as [ccap celems]. destruct m_rq as [rcap relems].
  destruct c as [tag a].
  step_core in Hq. step_core in Hroom. step_core in Ht. step_core in Hpins.
  unfold ready_after in Hready. step_core in Hready. step_core in Hlen.
  subst celems tag m_pg. apply Nat.ltb_lt in Hroom.
  destruct (read_id_run k
              (mk_machine m_w m_bl m_rr m_ir m_tr m_pd m_si m_so
                 (mk_queue ccap rest) (mk_queue rcap relems) the_pins m_sb m_fi
                 m_cl (mk_cmd CMD_READ_ID a) (mk_result sizeof_id_data_t (alloc m_wr))
                 m_pn m_cp)
              m_sb) as (L & Hrun & _); [exact Hready|exact Hlen|].
  exists L. intros fuel Hk. specialize (Hrun fuel Hk).
  unfold bus_runs in Hrun. step_core in Hrun.
  step_core. rewrite Hrun. step_core. rewrite Hroom. reflexivity.
Qed.

Lemma core1_read_id_spin fuel m c rest :
  q_elems (cmd_queue m) = c :: rest ->
  cmd c = CMD_READ_ID ->
  pins_glob m = the_pins ->
  never_ready m ->
  exists m',
    core1_iteration fuel m = Halt PollReady m'
    /\ results_queue m' = results_queue m /\ page_num m' = page_num m.
Proof.
  intros Hq Ht Hpins Hnever. destruct_machine m.
  destruct m_cq as [ccap celems]. destruct c as [tag a].
  step_core in Hq. step_core in Ht. step_core in Hpins.
  unfold never_ready in Hnever. step_core in Hnever.
  subst celems tag m_pg. step_core.
  match goal with
  | |- context [read_id fuel the_pins m_sb ?m1] =>
      destruct (read_id_spin fuel m1 m_sb) as (L & Hrun); [exact Hnever|]
  end.
  step_core in Hrun. rewrite Hrun. eexists. split; [reflexivity|]. by split.
Qed.

Lemma core1_read_page_run k m c rest :
  q_elems (cmd_queue m) = c :: rest ->
  cmd c = CMD_READ_PAGE ->
  pins_glob m = the_pins ->
  ready_after k m ->
  let n := page_size_bytes (flash_info_glob m) + oob_size_bytes (flash_info_glob m) in
  0 <= n <= 16384 ->
  page_num m + 1 < 2147483648 ->
  has_room (results_queue m) ->
  exists L, forall fuel, (k < fuel)%nat ->
    core1_iteration fuel m =
      Ok tt (core1_done c L (S k) (Z.to_nat n)
               (samples (env m) (io_reads m) (Z.to_nat n)
                ++ drop (Z.to_nat n) (replicate sizeof_shared_buffer 0))
               (set_sz n (w_result m)) (page_num m + 1) m).
Proof.
  intros Hq Ht Hpins Hready n Hn Hpn Hroom. subst n. destruct_machine m.
  destruct m_cq as [ccap celems]. destruct m_rq as [rcap relems].
  destruct c as [tag a]. destruct m_fi as [ps os fs].
  step_core in Hq. step_core in Hroom. step_core in Ht. step_core in Hpins.
  unfold ready_after in Hready. step_core in Hready.
  step_core in Hn. step_core in Hpn.
  subst celems tag m_pg. apply Nat.ltb_lt in Hroom. apply Z.ltb_lt in Hpn.
  destruct (read_page_run k
              (mk_machine m_w m_bl m_rr m_ir m_tr m_pd m_si m_so
                 (mk_queue ccap rest) (mk_queue rcap relems) the_pins
                 (replicate sizeof_shared_buffer 0) (mk_flash_info ps os fs)
                 m_cl (mk_cmd CMD_READ_PAGE a) (mk_result (ps + os) (alloc m_wr))
                 m_pn m_cp)
              (u32 m_pn) (replicate sizeof_shared_buffer 0) (ps + os))
    as (L & Hrun & _);
    [exact Hready|rewrite length_replicate; unfold sizeof_shared_buffer; lia|].
  exists L. intros fuel Hk. specialize (Hrun fuel Hk).
  unfold bus_runs in Hrun. step_core in Hrun.
  step_core. rewrite (u32_small (ps + os)) by lia. rewrite Hrun.
  step_core. rewrite Hpn. step_core. rewrite Hroom. reflexivity.
Qed.

Lemma core1_read_page_spin fuel m c rest :
  q_elems (cmd_queue m) = c :: rest ->
  cmd c = CMD_READ_PAGE ->
  pins_glob m = the_pins ->
  never_ready m ->
  exists m',
    core1_iteration fuel m = Halt PollReady m'
    /\ results_queue m' = results_queue m /\ page_num m' = page_num m.
Proof.
  intros Hq Ht Hpins Hnever. destruct_machine m.
  destruct m_cq as [ccap celems]. destruct c as [tag a].
  step_core in Hq. step_core in Ht. step_core in Hpins.
  unfold never_ready in Hnever. step_core in Hnever.
  subst celems tag m_pg. step_core.
  match goal with
  | |- context [read_page fuel the_pins ?p ?buf ?n ?m1] =>
      destruct (read_page_spin fuel m1 p buf n) as (L & Hrun); [exact Hnever|]
  end.
  step_core in Hrun. rewrite Hrun. eexists. split; [reflexivity|]. by split.
Qed.

(** ** Exchanges between the cores *)

Tactic Notation "step_main" :=
  cbv beta iota zeta delta
    [bind ret stop emit load store
     hw_update set_bus_log set_ry_reads set_io_reads set_timer_reads
     set_pad_drive set_serial_in set_stdout set_cmd_queue set_results_queue
     set_pins_glob set_shared_buffer set_flash_info_glob set_core1_launched
     set_w_cmd_arg set_w_result set_page_num set_curr_page
     env bus_log ry_reads io_reads timer_reads pad_drive serial_in stdout
     cmd_queue results_queue pins_glob shared_buffer flash_info_glob
     core1_launched w_cmd_arg w_result page_num curr_page
     core1_done queue_remove_blocking queue_add_blocking
     cmd_queue_ref results_queue_ref q_load q_store q_elems q_count
     cmd arg sz alloc set_sz tail final has_room
     page_size_bytes oob_size_bytes flash_size_bytes
     dispatch await_result serving].
Tactic Notation "step_main" "in" hyp(H) :=
  cbv beta iota zeta delta
    [bind ret stop emit load store
     hw_update set_bus_log set_ry_reads set_io_reads set_timer_reads
     set_pad_drive set_serial_in set_stdout set_cmd_queue set_results_queue
     set_pins_glob set_shared_buffer set_flash_info_glob set_core1_launched
     set_w_cmd_arg set_w_result set_page_num set_curr_page
     env bus_log ry_reads io_reads timer_reads pad_drive serial_in stdout
     cmd_queue results_queue pins_glob shared_buffer flash_info_glob
     core1_launched w_cmd_arg w_result page_num curr_page
     core1_done queue_remove_blocking queue_add_blocking
     cmd_queue_ref results_queue_ref q_load q_store q_elems q_count
     cmd arg sz alloc set_sz tail final has_room
     page_size_bytes oob_size_bytes flash_size_bytes
     dispatch await_result serving] in H.

(** One exchange, seen from core 0: if core 1's turn on [c] ends in
    [core1_done ...], the exchange returns the published result and leaves
    both queues empty again. *)
Lemma dispatch_run fuel m c L p b buf r pn :
  serving m ->
  core1_iteration fuel (set_cmd_queue (mk_queue (q_count (cmd_queue m)) [c]) m)
    = Ok tt (core1_done c L p b buf r pn
               (set_cmd_queue (mk_queue (q_count (cmd_queue m)) [c]) m)) ->
  dispatch fuel c m =
    Ok r (set_results_queue (mk_queue (q_count (results_queue m)) [])
            (core1_done c L p b buf r pn
               (set_cmd_queue (mk_queue (q_count (cmd_queue m)) [c]) m))).
Proof.
  intros (Hl & Hp & Hcq & Hcc & Hrq & Hrc & Hgeo & Hbuf) Hrun.
  destruct_machine m. destruct m_cq as [ccap celems]. destruct m_rq as [rcap relems].
  step_main in Hl. step_main in Hcq. step_main in Hcc. step_main in Hrq.
  step_main in Hrc. subst m_cl celems relems.
  step_main in Hrun. step_main.
  destruct ccap as [|ccap]; [lia|]. cbn [length Nat.ltb Nat.leb app].
  step_main. rewrite Hrun. reflexivity.
Qed.

Lemma serving_after_dispatch m c L p b buf r pn :
  serving m ->
  length buf = sizeof_shared_buffer ->
  serving (set_results_queue (mk_queue (q_count (results_queue m)) [])
            (core1_done c L p b buf r pn
               (set_cmd_queue (mk_queue (q_count (cmd_queue m)) [c]) m))).
Proof.
  intros (Hl & Hp & Hcq & Hcc & Hrq & Hrc & Hgeo & Hbuf) Hlen.
  destruct_machine m. destruct m_cq as [ccap celems]. destruct m_rq as [rcap relems].
  step_main in Hl. step_main in Hp. step_main in Hcc. step_main in Hrc.
  step_main in Hgeo. step_main.
  repeat split; first [assumption | apply Hgeo].
Qed.

Lemma dispatch_read_page k m a :
  serving m ->
  ready_after k m ->
  page_num m + 1 < 2147483648 ->
  exists m',
    (forall fuel, (k < fuel)%nat ->
       dispatch fuel (mk_cmd CMD_READ_PAGE a) m =
         Ok (set_sz (page_size_bytes (flash_info_glob m)
                     + oob_size_bytes (flash_info_glob m)) (w_result m)) m')
    /\ serving m' /\ env m' = env m /\ ry_reads m' = (S k + ry_reads m)%nat
    /\ page_num m' = page_num m + 1.
Proof.
  intros Hs Hready Hpn.
  pose proof Hs as (Hl & Hp & Hcq & Hcc & Hrq & Hrc & Hgeo & Hbuf).
  set (m1 := set_cmd_queue (mk_queue (q_count (cmd_queue m))
                              [mk_cmd CMD_READ_PAGE a]) m).
  destruct (core1_read_page_run k m1 (mk_cmd CMD_READ_PAGE a) []) as (L & Hrun);
    try done.
  { cbn. lia. }
  { unfold has_room. simpl. rewrite Hrq. simpl. lia. }
  eexists. split; [|split; [|split; [|split]]].
  - intros fuel Hk. apply dispatch_run; [exact Hs|]. exact (Hrun fuel Hk).
  - apply serving_after_dispatch; [exact Hs|].
    rewrite length_app, length_drop, length_replicate.
    unfold samples. rewrite length_map, length_seq. simpl.
    unfold sizeof_shared_buffer. lia.
  - reflexivity.
  - reflexivity.
  - reflexivity.
Qed.

(** ** Frames *)

#[local] Instance keeps_preorder {X} (f : machine -> X) : PreOrder (keeps f).
Proof.
  split.
  - intros m. reflexivity.
  - intros m1 m2 m3 H12 H23. unfold keeps in *. congruence.
Qed.

Section Frame.
Context (R : machine -> machine -> Prop) `{!PreOrder R} `{!HwFrame R}.

Lemma holds_ret {A} (a : A) : holds R (ret a).
Proof. intros m. simpl. reflexivity. Qed.

Lemma holds_stop {A} h : holds R (@stop A h).
Proof. intros m. simpl. reflexivity. Qed.

Lemma holds_load {A} (f : machine -> A) : holds R (load f).
Proof. intros m. simpl. reflexivity. Qed.

Lemma holds_bind {A B} (c : M A) (k : A -> M B) :
  holds R c -> (forall a, holds R (k a)) -> holds R (bind c k).
Proof.
  intros Hc Hk m. unfold bind. specialize (Hc m).
  destruct (c m) as [a m1|h m1]; simpl in *; [|exact Hc].
  transitivity m1; [exact Hc|apply Hk].
Qed.

Lemma holds_for_loop_from n : forall i (body : Z -> M unit),
  (forall j, holds R (body j)) -> holds R (for_loop_from i n body).
Proof.
  induction n as [|n IH]; intros i body Hb; simpl.
  - apply holds_ret.
  - apply holds_bind; [apply Hb|]. intros _. by apply IH.
Qed.

Lemma holds_for_loop n (body : Z -> M unit) :
  (forall j, holds R (body j)) -> holds R (for_loop n body).
Proof. apply holds_for_loop_from. Qed.

Lemma holds_tight_loop {A} fuel : holds R (@tight_loop A fuel).
Proof.
  induction fuel as [|fuel IH]; simpl.
  - apply holds_stop.
  - apply holds_bind; [apply holds_ret|]. intros _. exact IH.
Qed.

Lemma holds_emit e : holds R (emit e).
Proof.
  intros m. simpl.
  exact (hw_frame (e :: bus_log m) (ry_reads m) (io_reads m) m).
Qed.

Lemma holds_gpio_get pin : holds R (gpio_get pin).
Proof.
  intros m. simpl.
  exact (hw_frame (EvGpioGet pin (ry_line (env m) (ry_reads m)) :: bus_log m)
                  (S (ry_reads m)) (io_reads m) m).
Qed.

Lemma holds_get_io_val pins : holds R (get_io_val pins).
Proof.
  intros m. simpl.
  exact (hw_frame (EvGpioGetAll (io_line (env m) (io_reads m)) :: bus_log m)
                  (ry_reads m) (S (io_reads m)) m).
Qed.

Lemma holds_wait_ready fuel pins tm : holds R (wait_ready fuel pins tm).
Proof.
  induction fuel as [|fuel IH]; simpl.
  - apply holds_stop.
  - apply holds_bind; [apply holds_gpio_get|]. intros [].
    + apply holds_ret.
    + apply holds_bind; [apply holds_emit|]. intros _. exact IH.
Qed.

Lemma holds_read_loop pins tm n : forall i dst,
  holds R (read_loop pins tm i n dst).
Proof.
  induction n as [|n IH]; intros i dst; simpl.
  - apply holds_ret.
  - apply holds_bind; [apply holds_emit|]. intros _.
    apply holds_bind; [apply holds_emit|]. intros _.
    apply holds_bind; [apply holds_get_io_val|].
    intros v. destruct (i <? length dst)%nat; [|apply holds_stop].
    apply holds_bind; [apply holds_emit|]. intros _.
    apply holds_bind; [apply holds_emit|]. intros _.
    apply holds_bind; [apply holds_emit|]. intros _. apply IH.
Qed.
End Frame.

(** One step of a structural proof of [holds R c]. *)
Ltac holds_by lem := apply lem; try solve [typeclasses eauto].

Ltac holds_step :=
  lazymatch goal with
  | |- holds _ (bind _ _) => holds_by @holds_bind; [|intros ?]
  | |- holds _ (ret _) => holds_by @holds_ret
  | |- holds _ (stop _) => holds_by @holds_stop
  | |- holds _ (load _) => holds_by @holds_load
  | |- holds _ (for_loop _ _) => holds_by @holds_for_loop; intros ?
  | |- holds _ (tight_loop _) => holds_by @holds_tight_loop
  | |- holds _ (wait_ready _ _ _) => holds_by @holds_wait_ready
  | |- holds _ (read_loop _ _ _ _ _) => holds_by @holds_read_loop
  | |- holds _ (get_io_val _) => holds_by @holds_get_io_val
  | |- holds _ (gpio_get _) => holds_by @holds_gpio_get
  | |- holds _ (emit _) => holds_by @holds_emit
  | |- holds _ (gpio_init _) => holds_by @holds_emit
  | |- holds _ (gpio_set_pulls _ _ _) => holds_by @holds_emit
  | |- holds _ (gpio_set_dir _ _) => holds_by @holds_emit
  | |- holds _ (gpio_put _ _) => holds_by @holds_emit
  | |- holds _ (gpio_put_masked _ _) => holds_by @holds_emit
  | |- holds _ (gpio_set_dir_out_masked _) => holds_by @holds_emit
  | |- holds _ (gpio_set_dir_in_masked _) => holds_by @holds_emit
  | |- holds _ (busy_wait_at_least_cycles _) => holds_by @holds_emit
  | |- holds _ (sleep_us _) => holds_by @holds_emit
  | |- holds _ (sleep_ms _) => holds_by @holds_emit
  | |- holds _ stdio_init_all => holds_by @holds_emit
  | |- holds _ (if ?b then _ else _) => destruct b
  | |- holds _ (match ?x with _ => _ end) => destruct x
  end.

Ltac holds_auto := repeat holds_step.

Section BusFrame.
Context (R : machine -> machine -> Prop) `{!PreOrder R} `{!HwFrame R}.

Lemma holds_write_cmd pins c : holds R (write_cmd pins c).
Proof. unfold write_cmd, set_io_dir, set_io_val. holds_auto. Qed.

Lemma holds_reset_nand pins : holds R (reset_nand pins).
Proof.
  unfold reset_nand. holds_by @holds_bind; [apply holds_write_cmd|intros _].
  holds_auto.
Qed.

Lemma holds_write_addr_1 pins a : holds R (write_addr_1 pins a).
Proof. unfold write_addr_1, set_io_dir, set_io_val. holds_auto. Qed.

Lemma holds_write_addr_5 pins pn col : holds R (write_addr_5 pins pn col).
Proof. unfold write_addr_5, set_io_dir, set_io_val. cbv zeta. holds_auto. Qed.

Lemma holds_read_bytes fuel pins dst n : holds R (read_bytes fuel pins dst n).
Proof. unfold read_bytes, set_io_dir. cbv zeta. holds_auto. Qed.

Lemma holds_read_id fuel pins dst : holds R (read_id fuel pins dst).
Proof.
  unfold read_id.
  holds_by @holds_bind; [apply holds_write_cmd|intros _].
  holds_by @holds_bind; [apply holds_write_addr_1|intros _].
  apply holds_read_bytes.
Qed.

Lemma holds_read_page fuel pins pn dst n : holds R (read_page fuel pins pn dst n).
Proof.
  unfold read_page.
  holds_by @holds_bind; [apply holds_reset_nand|intros _].
  holds_by @holds_bind; [apply holds_write_cmd|intros _].
  holds_by @holds_bind; [apply holds_write_addr_5|intros _].
  holds_by @holds_bind; [apply holds_write_cmd|intros _].
  holds_by @holds_bind; [holds_by @holds_emit|intros _].
  apply holds_read_bytes.
Qed.
End BusFrame.

Ltac holds_bus_step :=
  lazymatch goal with
  | |- holds _ (write_cmd _ _) => holds_by @holds_write_cmd
  | |- holds _ (reset_nand _) => holds_by @holds_reset_nand
  | |- holds _ (write_addr_1 _ _) => holds_by @holds_write_addr_1
  | |- holds _ (write_addr_5 _ _ _) => holds_by @holds_write_addr_5
  | |- holds _ (read_bytes _ _ _ _) => holds_by @holds_read_bytes
  | |- holds _ (read_id _ _ _) => holds_by @holds_read_id
  | |- holds _ (read_page _ _ _ _ _) => holds_by @holds_read_page
  | |- _ => holds_step
  end.

Tactic Notation "unfold_soft" :=
  cbv beta iota zeta delta
    [keeps store load ret stop printf getchar_timeout_us time_us_32
     gpio_get_drive_strength multicore_launch_core1
     queue_init queue_add_blocking queue_remove_blocking
     cmd_queue_ref results_queue_ref q_load q_store
     set_bus_log set_ry_reads set_io_reads set_timer_reads
     set_pad_drive set_serial_in set_stdout set_cmd_queue set_results_queue
     set_pins_glob set_shared_buffer set_flash_info_glob set_core1_launched
     set_w_cmd_arg set_w_result set_page_num set_curr_page];
  cbn [env bus_log ry_reads io_reads timer_reads pad_drive serial_in stdout
       cmd_queue results_queue pins_glob shared_buffer flash_info_glob
       core1_launched w_cmd_arg w_result page_num curr_page].

(** Leaves that touch only the software state, for a relation [keeps f]. *)
Ltac keeps_leaf :=
  solve [ let m := fresh "m" in
          intros m; destruct m; unfold_soft; repeat case_match; reflexivity ].

Ltac keeps_auto := repeat first [holds_bus_step | keeps_leaf].

#[local] Instance stdout_hw_frame : HwFrame (keeps stdout).
Proof. intros log polls bytes m. reflexivity. Qed.

#[local] Instance page_num_hw_frame : HwFrame (keeps page_num).
Proof. intros log polls bytes m. reflexivity. Qed.

(** Core 1 prints nothing. *)
Lemma core1_keeps_stdout fuel : holds (keeps stdout) (core1_iteration fuel).
Proof. unfold core1_iteration. keeps_auto. Qed.

(** Outside the three page-counter commands, a turn of core 1's loop
    leaves [page_num] alone. *)
Lemma core1_keeps_page_num fuel m :
  (forall c rest, q_elems (cmd_queue m) = c :: rest ->
                  cmd c = CMD_READ_ID \/ unrecognized (cmd c)) ->
  page_num (final (core1_iteration fuel m)) = page_num m.
Proof.
  intros Hhead. unfold core1_iteration, bind at 1.
  destruct (queue_remove_blocking cmd_queue_ref m) as [c m1|h m1] eqn:E.
  - assert (Hc : cmd c = CMD_READ_ID \/ unrecognized (cmd c)).
    { unfold queue_remove_blocking in E. simpl in E.
      destruct (q_elems (cmd_queue m)) as [|c' rest] eqn:Eq; [discriminate|].
      injection E as -> _. by eapply Hhead. }
    assert (H1 : page_num m1 = page_num m).
    { unfold queue_remove_blocking in E. simpl in E.
      destruct (q_elems (cmd_queue m)); [discriminate|]. by injection E as _ <-. }
    rewrite <- H1.
    match goal with
    | |- page_num (final (?K m1)) = _ =>
        change (keeps page_num m1 (final (K m1))); revert m1 H1 E;
        change (forall m1, page_num m1 = page_num m ->
                  queue_remove_blocking cmd_queue_ref m = Ok c m1 ->
                  keeps page_num m1 (final (K m1)))
    end.
    intros m1 _ _. revert m1. 
    match goal with |- forall m1, keeps page_num m1 (final (?K m1)) =>
      change (holds (keeps page_num) K) end.
    destruct Hc as [Hc|[Hc|[Hc|Hc]]]; rewrite Hc; keeps_auto.
  - unfold queue_remove_blocking in E. simpl in E.
    destruct (q_elems (cmd_queue m)); [|discriminate]. by injection E as _ <-.
Qed.

#[local] Instance core1_off_preorder : PreOrder core1_off.
Proof.
  split.
  - intros m H. by split.
  - intros m1 m2 m3 H12 H23 H. destruct (H12 H) as [H2 E2].
    destruct (H23 H2) as [H3 E3]. split; congruence.
Qed.

#[local] Instance core1_off_hw_frame : HwFrame core1_off.
Proof. intros log polls bytes m H. by split. Qed.

Ltac off_leaf :=
  solve [ let m := fresh "m" in
          let Hoff := fresh "Hoff" in
          intros m Hoff; destruct m; unfold_soft; repeat case_match;
          split; first [exact Hoff | reflexivity] ].

Lemma await_result_off fuel : holds core1_off (await_result fuel).
Proof.
  intros m Hoff. unfold await_result.
  destruct (q_elems (results_queue m)) as [|r rest] eqn:E.
  - rewrite Hoff. by split.
  - unfold queue_remove_blocking. simpl. rewrite E. by split.
Qed.

Ltac off_auto :=
  repeat first
    [ holds_bus_step
    | lazymatch goal with
      | |- holds _ (await_result _) => apply await_result_off
      | |- holds _ (display_page _ _) => unfold display_page
      | |- holds _ (explain_id _) => unfold explain_id
      end
    | off_leaf ].

(** What core 0 does by itself never changes [page_num]. *)
Lemma main_iteration_off T fuel : holds core1_off (main_iteration T fuel).
Proof. unfold main_iteration, main_switch. off_auto. Qed.

(** ** The page counter *)

Lemma ready_after_first m :
  eventually_ready (env m) -> exists k, ready_after k m.
Proof.
  intros Hev. destruct (Hev (ry_reads m)) as (j & Hj).
  destruct (first_ready (fun j => ry_line (env m) (j + ry_reads m)) j Hj)
    as (k & Hk & Hmin).
  exists k. split; assumption.
Qed.

Lemma dispatch_n_read_page N : forall m,
  serving m ->
  eventually_ready (env m) ->
  page_num m + Z.of_nat N < 2147483648 ->
  exists fuel0 m',
    (forall fuel, (fuel0 <= fuel)%nat ->
       dispatch_n fuel N (mk_cmd CMD_READ_PAGE 0) m = Ok tt m')
    /\ page_num m' = page_num m + Z.of_nat N.
Proof.
  induction N as [|N IH]; intros m Hs Hev Hpn.
  - exists 0%nat, m. split; [reflexivity|]. simpl. lia.
  - destruct (ready_after_first m Hev) as (k & Hk).
    destruct (dispatch_read_page k m 0 Hs Hk) as (m1 & Hd & Hs1 & He1 & _ & Hp1);
      [lia|].
    destruct (IH m1 Hs1) as (fuel1 & m' & Hrun & Hp'); [by rewrite He1|lia|].
    exists (Nat.max (S k) fuel1), m'. split.
    + intros fuel Hf. cbn [dispatch_n]. unfold bind.
      rewrite Hd by lia. apply Hrun. lia.
    + lia.
Qed.

Lemma s32_u32_small k : 0 <= k < 2147483648 -> s32 (u32 k) = k.
Proof.
  intros H. unfold s32, u32. rewrite Z.mod_mod by lia.
  rewrite Z.mod_small by lia.
  destruct (k <? 2147483648) eqn:E; [done|]. apply Z.ltb_ge in E. lia.
Qed.

Lemma dispatch_quiet fuel m c :
  serving m ->
  (cmd c = CMD_RESET_PAGE_NO ->
     exists m', dispatch fuel c m = Ok (mk_result 1 0) m' /\ page_num m' = 0)
  /\ (cmd c = CMD_SET_PAGE_NO ->
     exists m', dispatch fuel c m = Ok (mk_result 1 0) m'
                /\ page_num m' = s32 (u32 (arg c))).
Proof.
  intros Hs. pose proof Hs as (Hl & Hp & Hcq & Hcc & Hrq & Hrc & Hgeo & Hbuf).
  set (m1 := set_cmd_queue (mk_queue (q_count (cmd_queue m)) [c]) m).
  destruct (core1_quiet_run fuel m1 c []) as (Hreset & Hset & _).
  { reflexivity. }
  { unfold has_room. simpl. rewrite Hrq. simpl. lia. }
  split; intros Ht.
  - eexists. split; [apply dispatch_run; [exact Hs|exact (Hreset Ht)]|reflexivity].
  - eexists. split; [apply dispatch_run; [exact Hs|exact (Hset Ht)]|reflexivity].
Qed.

(** C3.  Core 1's page counter.  From a machine in which [main] has
    entered its loop: starting at 0, [N] exchanges of a read-page command
    leave the counter at [N] (on a chip that always becomes ready again,
    and while [N] fits the counter's type); an exchange of set-page-number
    with argument [k] leaves it at [k]; an exchange of reset-page-number
    leaves it at 0.  On any machine, a turn of core 1's loop on any other
    command leaves the counter as it was, and so does every turn of core
    0's loop that runs without core 1. *)
Theorem C3_page_counter (m : machine) :
  serving m ->
  (forall N, page_num m = 0 -> eventually_ready (env m) ->
     Z.of_nat N < 2147483648 ->
     exists fuel0 m',
       (forall fuel, (fuel0 <= fuel)%nat ->
          dispatch_n fuel N (mk_cmd CMD_READ_PAGE 0) m = Ok tt m')
       /\ page_num m' = Z.of_nat N)
  /\ (forall fuel k, 0 <= k < 2147483648 ->
        exists r m',
          dispatch fuel (mk_cmd CMD_SET_PAGE_NO k) m = Ok r m' /\ page_num m' = k)
  /\ (forall fuel a,
        exists r m',
          dispatch fuel (mk_cmd CMD_RESET_PAGE_NO a) m = Ok r m' /\ page_num m' = 0)
  /\ (forall fuel m0,
        (forall c rest, q_elems (cmd_queue m0) = c :: rest ->
                        cmd c = CMD_READ_ID \/ unrecognized (cmd c)) ->
        page_num (final (core1_iteration fuel m0)) = page_num m0)
  /\ (forall T fuel m0,
        core1_launched m0 = false ->
        page_num (final (main_iteration T fuel m0)) = page_num m0).
Proof.
  intros Hs. repeat split.
  - intros N H0 Hev HN.
    destruct (dispatch_n_read_page N m Hs Hev) as (fuel0 & m' & Hrun & Hp); [lia|].
    exists fuel0, m'. split; [exact Hrun|]. lia.
  - intros fuel k Hk.
    destruct (dispatch_quiet fuel m (mk_cmd CMD_SET_PAGE_NO k) Hs) as (_ & Hset).
    destruct (Hset eq_refl) as (m' & Hrun & Hp).
    exists (mk_result 1 0), m'. split; [exact Hrun|].
    rewrite Hp. apply s32_u32_small. exact Hk.
  - intros fuel a.
    destruct (dispatch_quiet fuel m (mk_cmd CMD_RESET_PAGE_NO a) Hs) as (Hreset & _).
    destruct (Hreset eq_refl) as (m' & Hrun & Hp). eauto.
  - intros fuel m0. apply core1_keeps_page_num.
  - intros T fuel m0 Hoff. by apply (main_iteration_off T fuel m0).
Qed.


(** ** Results *)

#[local] Instance queues_hw_frame : HwFrame (keeps queues).
Proof. intros log polls bytes m. reflexivity. Qed.

(** A completed turn of core 1's loop has taken the command at the head of
    the command queue and appended one result, the final [result], to the
    result queue. *)
Lemma core1_iteration_queues fuel m m' c rest :
  q_elems (cmd_queue m) = c :: rest ->
  core1_iteration fuel m = Ok tt m' ->
  q_elems (cmd_queue m') = rest
  /\ q_elems (results_queue m') = q_elems (results_queue m) ++ [w_result m'].
Proof.
  intros Hq. unfold core1_iteration, bind at 1.
  unfold queue_remove_blocking at 1. cbn [q_load cmd_queue_ref]. rewrite Hq.
  cbn [q_store cmd_queue_ref]. unfold bind at 1, store at 1.
  set (m1 := set_w_cmd_arg c _). unfold bind at 1.
  match goal with
  | |- context [match ?body m1 with _ => _ end] =>
      assert (Hbody : holds (keeps queues) body)
        by (destruct (cmd c); keeps_auto);
      specialize (Hbody m1); destruct (body m1) as [[] m2|h m2]; [|discriminate]
  end.
  unfold keeps, queues in Hbody. simpl in Hbody. injection Hbody as Hc Hr.
  unfold bind, load, queue_add_blocking. cbn [q_load q_store results_queue_ref].
  destruct (_ <? _)%nat; [|discriminate]. intros [= <-].
  destruct m2. simpl in *. subst. destruct m. simpl in *. by subst.
Qed.

(** C10.  A turn of core 1's loop that has a command to take and room to
    publish takes exactly that command and, when it completes, has
    appended exactly one result; it completes whenever the chip becomes
    ready, and for a tag the [switch] does not know it completes always,
    with the page counter, the shared buffer and the bus untouched and the
    result as the previous turn left it, which on the first turn has size
    0. *)
Theorem C10_one_result_per_command (m : machine) (c : cmd_t) (rest : list cmd_t) :
  q_elems (cmd_queue m) = c :: rest ->
  has_room (results_queue m) ->
  (forall fuel m',
     core1_iteration fuel m = Ok tt m' ->
     q_elems (cmd_queue m') = rest
     /\ q_elems (results_queue m') = q_elems (results_queue m) ++ [w_result m'])
  /\ (pins_glob m = the_pins ->
      length (shared_buffer m) = sizeof_shared_buffer ->
      0 <= page_size_bytes (flash_info_glob m) + oob_size_bytes (flash_info_glob m)
        <= 16384 ->
      page_num m + 1 < 2147483648 ->
      forall k, ready_after k m ->
      forall fuel, (k < fuel)%nat ->
      exists m', core1_iteration fuel m = Ok tt m')
  /\ (unrecognized (cmd c) ->
      forall fuel, exists m',
        core1_iteration fuel m = Ok tt m'
        /\ page_num m' = page_num m
        /\ shared_buffer m' = shared_buffer m
        /\ bus_log m' = bus_log m
        /\ q_elems (results_queue m') = q_elems (results_queue m) ++ [w_result m]
        /\ sz (w_result m') = sz (w_result m))
  /\ sz (w_result (final (multicore_launch_core1 m))) = 0.
Proof.
  intros Hq Hroom. repeat split.
  - eapply core1_iteration_queues; eassumption.
  - eapply core1_iteration_queues; eassumption.
  - intros Hpins Hbuf Hgeo Hpn k Hready fuel Hk.
    destruct (core1_quiet_run fuel m c rest Hq Hroom) as (Hreset & Hset & Hother).
    destruct (cmd c) eqn:Ht.
    + destruct (core1_read_id_run k m c rest Hq Ht Hpins Hready) as (L & Hrun);
        [rewrite Hbuf; unfold sizeof_shared_buffer; lia|exact Hroom|].
      eexists. exact (Hrun fuel Hk).
    + destruct (core1_read_page_run k m c rest Hq Ht Hpins Hready Hgeo Hpn Hroom)
        as (L & Hrun).
      eexists. exact (Hrun fuel Hk).
    + eexists. by apply Hreset.
    + eexists. by apply Hset.
    + eexists. apply Hother. unfold unrecognized. auto.
    + eexists. apply Hother. unfold unrecognized. auto.
    + eexists. apply Hother. unfold unrecognized. auto.
  - intros Hu fuel.
    destruct (core1_quiet_run fuel m c rest Hq Hroom) as (_ & _ & Hother).
    eexists. split; [exact (Hother Hu)|]. by repeat split.
Qed.

(** ** Page read *)

Lemma row_address_17_bits (pn : Z) :
  Z.land pn 0xFF + 256 * Z.land (Z.shiftr pn 8) 0xFF
    + 65536 * Z.land (Z.shiftr pn 16) 0x01 = pn mod 2 ^ 17.
Proof.
  change 0xFF with (Z.ones 8). change 0x01 with (Z.ones 1).
  rewrite !Z.land_ones, !Z.shiftr_div_pow2 by lia.
  change (2 ^ 8) with 256. change (2 ^ 16) with 65536. change (2 ^ 1) with 2.
  change (2 ^ 17) with 131072.
  Z.div_mod_to_equations. lia.
Qed.

Lemma addr_bytes_column_0 (pn : Z) :
  addr_bytes pn 0 =
    [0; 0; Z.land pn 0xFF; Z.land (Z.shiftr pn 8) 0xFF; Z.land (Z.shiftr pn 16) 0x01].
Proof.
  unfold addr_bytes. rewrite !u8_land_255.
  replace (u8 (Z.land (Z.shiftr pn 16) 1)) with (Z.land (Z.shiftr pn 16) 1); [done|].
  unfold u8. symmetry. apply Z.mod_small.
  change 1 with (Z.ones 1). rewrite Z.land_ones by lia.
  pose proof (Z.mod_pos_bound (Z.shiftr pn 16) (2 ^ 1)). lia.
Qed.

(** C2.  Whatever the page number, [read_page] puts on the bus, in this
    order: the reset (command 0xFF, chip-enable de-asserted, a 600 us
    sleep), command 0x00, five address bytes (column low and column high of
    column 0, then bits 0-7, bits 8-15 and bit 16 of the page number, so
    that the row address is the page number modulo 2^17), command 0x30, a
    1 us sleep, the polls of the ready/busy line, and one data read per
    byte of the payload, which ends up at the start of the buffer. *)
Theorem C2_read_page_bus_sequence
    (fuel k : nat) (m : machine) (page_number : Z) (buffer : list Z)
    (payload_size : Z) :
  ready_after k m ->
  (k < fuel)%nat ->
  (Z.to_nat payload_size <= length buffer)%nat ->
  let data := samples (env m) (io_reads m) (Z.to_nat payload_size) in
  let row_low := Z.land page_number 0xFF in
  let row_mid := Z.land (Z.shiftr page_number 8) 0xFF in
  let row_high := Z.land (Z.shiftr page_number 16) 0x01 in
  exists L m',
    read_page fuel the_pins page_number buffer payload_size m
      = Ok (data ++ drop (Z.to_nat payload_size) buffer) m'
    /\ bus_log m' = L ++ bus_log m
    /\ (forall s, s_we s = true ->
          snd (observe the_pins s L) =
            [OpCommand 0xFF; OpStandby; OpSleepUs 600;
             OpCommand 0x00;
             OpAddress 0; OpAddress 0;
             OpAddress row_low; OpAddress row_mid; OpAddress row_high;
             OpCommand 0x30;
             OpSleepUs 1]
            ++ replicate k (OpReadyPoll false) ++ [OpReadyPoll true]
            ++ map OpDataOut data)
    /\ row_low + 256 * row_mid + 65536 * row_high = page_number mod 2 ^ 17.
Proof.
  intros Hready Hk Hlen data row_low row_mid row_high.
  destruct (read_page_run k m page_number buffer payload_size Hready Hlen)
    as (L & Hrun & Hobs).
  exists L. eexists. split; [exact (Hrun fuel Hk)|]. split; [reflexivity|]. split.
  - intros [cl al e r w io] Hw. simpl in Hw. subst w.
    destruct (Hobs cl al e r io) as (s' & ->).
    cbn [snd]. rewrite addr_bytes_column_0. reflexivity.
  - apply row_address_17_bits.
Qed.

(** ** Reading bytes *)

Lemma read_bytes_returns fuel pins dst num_bytes m buf m' :
  read_bytes fuel pins dst num_bytes m = Ok buf m' ->
  exists j, (j < fuel)%nat /\ ry_line (env m) (j + ry_reads m) = true.
Proof.
  unfold read_bytes. destruct_machine m. step_bus.
  match goal with
  | |- context [wait_ready fuel pins 2 ?m1] =>
      destruct (wait_ready fuel pins 2 m1) as [[] m2|h m2] eqn:E; [|discriminate]
  end.
  intros _. apply wait_ready_returns in E. exact E.
Qed.

(** C7.  [read_bytes] polls the ready/busy line with no bound on the
    number of polls: whatever [k], if the line reads low [k] times and then
    high, the call returns after [k + 1] polls with exactly [num_bytes]
    sampled bytes at the start of the destination.  It returns only if some
    sample of the line is high; if the line never reads high it never
    returns however long it runs, and a turn of core 1's loop that executes
    a read-id or read-page command then never publishes a result. *)
Theorem C7_read_bytes_waits_without_bound
    (m : machine) (dst : list Z) (num_bytes : Z) :
  (Z.to_nat num_bytes <= length dst)%nat ->
  (forall k fuel, ready_after k m -> (k < fuel)%nat ->
     exists m',
       read_bytes fuel the_pins dst num_bytes m =
         Ok (samples (env m) (io_reads m) (Z.to_nat num_bytes)
             ++ drop (Z.to_nat num_bytes) dst) m'
       /\ ry_reads m' = (S k + ry_reads m)%nat
       /\ io_reads m' = (Z.to_nat num_bytes + io_reads m)%nat)
  /\ (forall fuel buf m',
        read_bytes fuel the_pins dst num_bytes m = Ok buf m' ->
        exists j, (j < fuel)%nat /\ ry_line (env m) (j + ry_reads m) = true)
  /\ (never_ready m ->
      forall fuel, exists m',
        read_bytes fuel the_pins dst num_bytes m = Halt PollReady m'
        /\ ry_reads m' = (fuel + ry_reads m)%nat)
  /\ (never_ready m ->
      pins_glob m = the_pins ->
      forall c rest, q_elems (cmd_queue m) = c :: rest ->
                     cmd c = CMD_READ_ID \/ cmd c = CMD_READ_PAGE ->
      forall fuel, exists m',
        core1_iteration fuel m = Halt PollReady m'
        /\ results_queue m' = results_queue m).
Proof.
  intros Hlen. repeat split.
  - intros k fuel Hready Hk.
    destruct (read_bytes_run k m dst num_bytes Hready Hlen) as (L & Hrun & _).
    eexists. split; [exact (Hrun fuel Hk)|]. by split.
  - intros fuel buf m'. apply read_bytes_returns.
  - intros Hnever fuel.
    destruct (read_bytes_spin fuel m dst num_bytes Hnever) as (L & Hrun).
    eexists. split; [exact Hrun|]. reflexivity.
  - intros Hnever Hpins c rest Hq [Ht|Ht] fuel.
    + destruct (core1_read_id_spin fuel m c rest Hq Ht Hpins Hnever)
        as (m' & Hrun & Hres & _). eauto.
    + destruct (core1_read_page_spin fuel m c rest Hq Ht Hpins Hnever)
        as (m' & Hrun & Hres & _). eauto.
Qed.


(** ** Geometry decoding *)

Lemma page_size_field_cases (x : Z) :
  Z.land x 3 = 0 \/ Z.land x 3 = 1 \/ Z.land x 3 = 2 \/ Z.land x 3 = 3.
Proof.
  assert (H : 0 <= Z.land x 3 < 4).
  { change 3 with (Z.ones 2). rewrite Z.land_ones by lia.
    apply Z.mod_pos_bound. lia. }
  lia.
Qed.

(** C1.  [get_flash_info] depends on the identification bytes only through
    the maker code and the low two bits of the fourth byte.  For maker
    0x98 it yields page 2048 / spare 128 when the field decodes to 2 KB and
    page 4096 / spare 256 when it decodes to 4 KB, with a total size of
    64 * 2048 * (page + spare); for every other maker code or field value
    it returns false and leaves the geometry record as it was. *)
Theorem C1_get_flash_info_decodes (id : id_data_t) (fi : flash_info_struct) :
  get_flash_info id fi =
    if (maker id =? 0x98) && (Z.shiftl 1 (Z.land (pgsz_bksz_iow id) 3) =? 2)
    then (true, mk_flash_info 2048 128 (64 * 2048 * (2048 + 128)))
    else if (maker id =? 0x98) && (Z.shiftl 1 (Z.land (pgsz_bksz_iow id) 3) =? 4)
    then (true, mk_flash_info 4096 256 (64 * 2048 * (4096 + 256)))
    else (false, fi).
Proof.
  unfold get_flash_info, TOSHIBA_KIOXIA.
  destruct (maker id =? 152); [|reflexivity].
  destruct (page_size_field_cases (pgsz_bksz_iow id)) as [H|[H|[H|H]]];
    rewrite H; reflexivity.
Qed.

(** ** The serial command interface *)

Tactic Notation "step_poll" :=
  cbv beta iota zeta delta
    [bind ret stop emit load store gpio_put time_us_32 getchar_timeout_us printf
     polled heartbeat tail app
     hw_update set_bus_log set_ry_reads set_io_reads set_timer_reads
     set_pad_drive set_serial_in set_stdout set_cmd_queue set_results_queue
     set_pins_glob set_shared_buffer set_flash_info_glob set_core1_launched
     set_w_cmd_arg set_w_result set_page_num set_curr_page
     env bus_log ry_reads io_reads timer_reads pad_drive serial_in stdout
     cmd_queue results_queue pins_glob shared_buffer flash_info_glob
     core1_launched w_cmd_arg w_result page_num curr_page].

Lemma main_iteration_digit T fuel m b rest :
  serial_in m = Some b :: rest ->
  0x30 <= u8 b <= 0x39 ->
  main_iteration T fuel m = main_switch T fuel (u8 b - 0x30) (polled true m).
Proof.
  intros Hin Hb. destruct_machine m. simpl in Hin. subst m_si.
  unfold main_iteration. step_poll. rewrite u8_idem.
  replace ((48 <=? u8 b) && (u8 b <=? 57)) with true
    by (symmetry; apply andb_true_iff; split; apply Z.leb_le; lia).
  reflexivity.
Qed.

Lemma main_iteration_other T fuel m b rest :
  serial_in m = Some b :: rest ->
  ~ 0x30 <= u8 b <= 0x39 ->
  main_iteration T fuel m = Ok tt (polled false m).
Proof.
  intros Hin Hb. destruct_machine m. simpl in Hin. subst m_si.
  unfold main_iteration. step_poll. rewrite u8_idem.
  replace ((48 <=? u8 b) && (u8 b <=? 57)) with false; [reflexivity|].
  symmetry. apply andb_false_iff.
  destruct (Z.leb_spec 48 (u8 b)); [right; apply Z.leb_gt; lia|by left].
Qed.

Lemma u8_error_code T : -128 <= T < 0 -> u8 T = T + 256.
Proof.
  intros H. unfold u8. symmetry. apply (Z.mod_unique_pos _ _ (-1)); lia.
Qed.

Lemma main_iteration_idle T fuel m :
  -128 <= T < 0 ->
  serial_in m = [] \/ (exists rest, serial_in m = None :: rest) ->
  main_iteration T fuel m = Ok tt (polled false m).
Proof.
  intros HT Hin. destruct_machine m. simpl in Hin.
  assert (Hc : (48 <=? u8 T) && (u8 T <=? 57) = false).
  { rewrite u8_error_code by exact HT. apply andb_false_iff. right.
    apply Z.leb_gt. lia. }
  destruct Hin as [->|(rest & ->)]; unfold main_iteration; step_poll;
    rewrite Hc; reflexivity.
Qed.

(** ** What gets printed *)

Lemma says_at_printf s m : says_at (printf s) m [s].
Proof. reflexivity. Qed.

Lemma says_at_ret m : says_at (ret tt) m [].
Proof. unfold says_at. rewrite app_nil_r. by destruct m. Qed.

Lemma says_at_bind (c k : M unit) m l1 l2 :
  says_at c m l1 ->
  says_at k (set_stdout (stdout m ++ l1) m) l2 ->
  says_at (c ;; k) m (l1 ++ l2).
Proof.
  unfold says_at, bind. intros -> ->. destruct m. simpl. by rewrite app_assoc.
Qed.

(** The loops of [main] and [display_page] that print a buffer byte by
    byte. *)
Lemma says_at_print_loop (f : Z -> string) (buf : list Z) n : forall i m,
  (i + n <= length buf)%nat ->
  says_at
    (for_loop_from (Z.of_nat i) n (fun j =>
       match buf !! Z.to_nat j with
       | Some b => printf (f b)
       | None => stop Undefined
       end))
    m (map f (take n (drop i buf))).
Proof.
  induction n as [|n IH]; intros i m Hlen.
  - apply says_at_ret.
  - cbn [for_loop_from].
    destruct (lookup_lt_is_Some_2 buf i ltac:(lia)) as [b Hb].
    rewrite (drop_S _ _ _ Hb). cbn [take map].
    change (f b :: map f (take n (drop (S i) buf)))
      with ([f b] ++ map f (take n (drop (S i) buf))).
    apply says_at_bind.
    + rewrite Nat2Z.id, Hb. apply says_at_printf.
    + replace (Z.of_nat i + 1) with (Z.of_nat (S i)) by lia. apply IH. lia.
Qed.

Lemma says_at_explain_id id m : says_at (explain_id id) m (explanation id).
Proof.
  assert (H : exists lines, forall m', says_at (explain_id id) m' lines).
  { unfold explain_id. destruct (maker id =? TOSHIBA_KIOXIA); eexists; intros m';
      repeat (eapply says_at_bind; [apply says_at_printf|]); apply says_at_printf. }
  destruct H as [lines H]. unfold explanation.
  rewrite (H (power_on example_chip [])). exact (H m).
Qed.

Lemma says_at_load {A} (f : machine -> A) (k : A -> M unit) m lines :
  says_at (k (f m)) m lines -> says_at (x <- load f ;; k x) m lines.
Proof. exact id. Qed.

Lemma says_at_stdout c m lines :
  says_at c m lines ->
  exists m', c m = Ok tt m' /\ stdout m' = stdout m ++ lines.
Proof. intros H. eexists. split; [exact H|reflexivity]. Qed.

Lemma exchange_preloaded {A} fuel c (k : result_t -> M A) m res more :
  has_room (cmd_queue m) ->
  q_elems (results_queue m) = res :: more ->
  (queue_add_blocking cmd_queue_ref c ;; r <- await_result fuel ;; k r) m
    = k res (preloaded c m).
Proof.
  intros Hroom Hres. apply Nat.ltb_lt in Hroom.
  destruct_machine m. destruct m_cq as [ccap celems]. destruct m_rq as [rcap relems].
  simpl in Hroom, Hres. subst relems.
  unfold bind, queue_add_blocking, await_result, queue_remove_blocking, preloaded.
  simpl. rewrite Hroom. reflexivity.
Qed.

Lemma bind_getchar_some {A} T t (k : Z -> M A) m b rest :
  serial_in m = Some b :: rest ->
  bind (getchar_timeout_us T t) k m = k (u8 b) (set_serial_in rest m).
Proof. intros H. unfold bind, getchar_timeout_us. by rewrite H. Qed.

Lemma bind_getchar_none {A} T t (k : Z -> M A) m rest :
  serial_in m = None :: rest ->
  bind (getchar_timeout_us T t) k m = k T (set_serial_in rest m).
Proof. intros H. unfold bind, getchar_timeout_us. by rewrite H. Qed.

Lemma id_of_bytes_is_Some buf :
  (5 <= length buf)%nat -> exists id, id_of_bytes buf = Some id.
Proof.
  destruct buf as [|b0 [|b1 [|b2 [|b3 [|b4 buf]]]]]; simpl; try lia. eauto.
Qed.

Lemma read_id_report m res :
  is_int (sz res) ->
  (5 <= length (shared_buffer m))%nat ->
  exists m',
    (if (sz res <=? 0) || (sizeof_id_data_t <? u32 (sz res)) then
       printf ("Error return: " +:+ fmt_d (sz res) +:+ " <shared_buffer>" +:+ nl)
     else
       printf "ID: " ;;
       buf <- load shared_buffer ;;
       for_loop (Z.to_nat (sz res)) (fun i =>
         match buf !! Z.to_nat i with
         | Some b => printf (fmt_02x false b +:+ " ")
         | None => stop Undefined
         end) ;;
       printf nl ;;
       match id_of_bytes buf with
       | Some id => explain_id id
       | None => stop Undefined
       end) m = Ok tt m'
    /\ stdout m' = stdout m ++
         (if (0 <? sz res) && (sz res <=? 5)
          then id_report (shared_buffer m) (sz res)
          else ["Error return: " +:+ fmt_d (sz res) +:+ " <shared_buffer>" +:+ nl]).
Proof.
  intros Hint Hlen. unfold is_int in Hint. apply says_at_stdout.
  destruct ((0 <? sz res) && (sz res <=? 5)) eqn:C.
  - apply andb_true_iff in C as [C1 C2]. apply Z.ltb_lt in C1. apply Z.leb_le in C2.
    replace ((sz res <=? 0) || (sizeof_id_data_t <? u32 (sz res))) with false.
    2:{ symmetry. apply orb_false_iff. rewrite u32_small by lia.
        unfold sizeof_id_data_t. split; [apply Z.leb_gt|apply Z.ltb_ge]; lia. }
    unfold id_report. apply says_at_bind; [apply says_at_printf|].
    apply says_at_load. cbn [shared_buffer set_stdout].
    apply says_at_bind.
    { apply (says_at_print_loop _ (shared_buffer m) _ 0%nat). lia. }
    apply says_at_bind; [apply says_at_printf|].
    destruct (id_of_bytes_is_Some _ Hlen) as [id ->]. apply says_at_explain_id.
  - replace ((sz res <=? 0) || (sizeof_id_data_t <? u32 (sz res))) with true.
    { apply says_at_printf. }
    symmetry. apply orb_true_iff. apply andb_false_iff in C as [C|C].
    + left. apply Z.ltb_ge in C. by apply Z.leb_le.
    + apply Z.leb_gt in C. destruct (Z.leb_spec (sz res) 0); [by left|right].
      unfold sizeof_id_data_t. apply Z.ltb_lt.
      rewrite u32_small by lia. lia.
Qed.

Lemma read_page_report m res :
  is_int (sz res) ->
  let total := page_size_bytes (flash_info_glob m) + oob_size_bytes (flash_info_glob m) in
  total <= Z.of_nat (length (shared_buffer m)) ->
  exists m',
    (fi <- load flash_info_glob ;;
     if (sz res <=? 0) || (page_size_bytes fi + oob_size_bytes fi <? sz res) then
       printf ("Error reading page: " +:+ fmt_d (sz res) +:+ nl)
     else
       buf <- load shared_buffer ;;
       display_page buf (u32 (sz res)) ;;
       store (fun m => set_curr_page (u32 (curr_page m + 1)) m)) m = Ok tt m'
    /\ stdout m' = stdout m ++
         (if (0 <? sz res) && (sz res <=? total)
          then page_report (shared_buffer m) (sz res)
          else ["Error reading page: " +:+ fmt_d (sz res) +:+ nl])
    /\ curr_page m' =
         (if (0 <? sz res) && (sz res <=? total)
          then u32 (curr_page m + 1) else curr_page m).
Proof.
  intros Hint total Hlen. unfold is_int in Hint. subst total.
  unfold bind at 1, load at 1.
  destruct ((0 <? sz res) && (sz res <=? _)) eqn:C.
  - apply andb_true_iff in C as [C1 C2]. apply Z.ltb_lt in C1. apply Z.leb_le in C2.
    replace ((sz res <=? 0) || (_ <? sz res)) with false.
    2:{ symmetry. apply orb_false_iff.
        split; [apply Z.leb_gt|apply Z.ltb_ge]; lia. }
    unfold bind at 1, load at 1. rewrite u32_small by lia.
    assert (Hd : says_at (display_page (shared_buffer m) (sz res)) m
                   (page_report (shared_buffer m) (sz res))).
    { apply (says_at_print_loop _ (shared_buffer m) _ 0%nat). lia. }
    unfold bind. rewrite Hd. eexists. split; [reflexivity|]. by split.
  - replace ((sz res <=? 0) || (_ <? sz res)) with true.
    { eexists. split; [reflexivity|]. by split. }
    symmetry. apply orb_true_iff. apply andb_false_iff in C as [C|C].
    + left. apply Z.ltb_ge in C. by apply Z.leb_le.
    + right. apply Z.leb_gt in C. by apply Z.ltb_lt.
Qed.

Lemma sentinel_report (what : string) m res :
  exists m',
    (if negb (sz res =? 1) then printf (what +:+ fmt_d (sz res) +:+ nl)
     else ret tt) m = Ok tt m'
    /\ stdout m' = stdout m ++
         (if sz res =? 1 then [] else [what +:+ fmt_d (sz res) +:+ nl]).
Proof.
  apply says_at_stdout. destruct (sz res =? 1); simpl.
  - apply says_at_ret.
  - apply says_at_printf.
Qed.

(** C8 as amended.  For the digits '6' to '9' a turn of [main]'s loop
    prints the help text and nothing else; when the host has sent nothing
    it prints nothing. *)
Theorem C8_help_for_other_digits (T : Z) (fuel : nat) (m : machine) :
  -128 <= T < 0 ->
  (forall b rest, serial_in m = Some b :: rest -> 0x36 <= u8 b <= 0x39 ->
     exists m', main_iteration T fuel m = Ok tt m'
                /\ stdout m' = stdout m ++ [HELP_STR])
  /\ (serial_in m = [] \/ (exists rest, serial_in m = None :: rest) ->
      exists m', main_iteration T fuel m = Ok tt m' /\ stdout m' = stdout m).
Proof.
  intros HT. split.
  - intros b rest Hin Hb.
    rewrite (main_iteration_digit T fuel m b rest Hin) by lia.
    assert (Hd : u8 b - 48 = 6 \/ u8 b - 48 = 7 \/ u8 b - 48 = 8 \/ u8 b - 48 = 9)
      by lia.
    destruct Hd as [->|[->|[->| ->]]]; eexists; (split; reflexivity).
  - intros Hin. rewrite (main_iteration_idle T fuel m HT Hin).
    eexists. split; reflexivity.
Qed.

Lemma C8_help_for_other_digits_witness :
  (exists m', main_iteration (-1) 1 (set_serial_in [Some 0x37] example_booted)
              = Ok tt m' /\ stdout m' = [HELP_STR])
  /\ (exists m', main_iteration (-1) 1 example_booted = Ok tt m' /\ stdout m' = []).
Proof.
  destruct (C8_help_for_other_digits (-1) 1
              (set_serial_in [Some 0x37] example_booted)) as (Hhelp & _); [lia|].
  destruct (C8_help_for_other_digits (-1) 1 example_booted) as (_ & Hidle); [lia|].
  split.
  - apply (Hhelp 0x37 []); [reflexivity|vm_compute; split; discriminate].
  - apply Hidle. left. reflexivity.
Defined.

(** C8 as stated fails: a turn of [main]'s loop with no input prints
    nothing, so not the help text. *)
Lemma C8_no_input_counterexample :
  ~ In HELP_STR (stdout (final (main_iteration (-1) 1 example_booted))).
Proof. vm_compute. intros []. Qed.

Lemma digit_of_byte b d : u8 b = 0x30 + d -> u8 b - 0x30 = d.
Proof. lia. Qed.

(** C5.  [main] decides between output and error message by the size of
    the result alone: for read-id it prints the ID bytes and their
    explanation when 0 < size <= 5 and the error with the size otherwise;
    for read-page it prints the page in hex when 0 < size <= page + spare
    and the error otherwise; for reset- and set-page-number it prints the
    error when the size is not 1 and nothing when it is.  Core 1 prints
    nothing. *)
Theorem C5_errors_reported_by_size
    (T : Z) (fuel : nat) (m : machine) (b : Z) (rest : list (option Z))
    (res : result_t) (more : list result_t) :
  serial_in m = Some b :: rest ->
  q_elems (results_queue m) = res :: more ->
  has_room (cmd_queue m) ->
  is_int (sz res) ->
  let total := page_size_bytes (flash_info_glob m) + oob_size_bytes (flash_info_glob m) in
  (5 <= length (shared_buffer m))%nat ->
  total <= Z.of_nat (length (shared_buffer m)) ->
  (u8 b = 0x30 ->
     exists m', main_iteration T fuel m = Ok tt m'
       /\ stdout m' = stdout m ++
            (if (0 <? sz res) && (sz res <=? 5)
             then id_report (shared_buffer m) (sz res)
             else ["Error return: " +:+ fmt_d (sz res) +:+ " <shared_buffer>" +:+ nl]))
  /\ (u8 b = 0x31 ->
     exists m', main_iteration T fuel m = Ok tt m'
       /\ stdout m' = stdout m ++
            (if (0 <? sz res) && (sz res <=? total)
             then page_report (shared_buffer m) (sz res)
             else ["Error reading page: " +:+ fmt_d (sz res) +:+ nl]))
  /\ (u8 b = 0x32 ->
     exists m', main_iteration T fuel m = Ok tt m'
       /\ stdout m' = stdout m ++
            (if sz res =? 1 then []
             else ["Error resetting page " +:+ fmt_d (sz res) +:+ nl]))
  /\ (u8 b = 0x33 -> T < 0 ->
      forall b0 b1 b2 rest', rest = Some b0 :: Some b1 :: Some b2 :: rest' ->
      exists m', main_iteration T fuel m = Ok tt m'
       /\ stdout m' = stdout m ++
            (if sz res =? 1 then []
             else ["Error setting page " +:+ fmt_d (sz res) +:+ nl]))
  /\ (forall fuel' m0, stdout (final (core1_iteration fuel' m0)) = stdout m0).
Proof.
  intros Hin Hres Hroom Hint total Hlen5 Hlen. subst total. repeat split.
  - intros Hb. rewrite (main_iteration_digit T fuel m b rest Hin) by lia.
    rewrite (digit_of_byte b 0 Hb). unfold main_switch.
    rewrite (exchange_preloaded _ _ _ _ res more) by assumption.
    exact (read_id_report (preloaded _ (polled true m)) res Hint Hlen5).
  - intros Hb. rewrite (main_iteration_digit T fuel m b rest Hin) by lia.
    rewrite (digit_of_byte b 1 Hb). unfold main_switch.
    rewrite (exchange_preloaded _ _ _ _ res more) by assumption.
    destruct (read_page_report (preloaded (mk_cmd CMD_READ_PAGE 0) (polled true m))
                res Hint Hlen) as (m' & Hrun & Hout & _).
    exists m'. split; [exact Hrun|exact Hout].
  - intros Hb. rewrite (main_iteration_digit T fuel m b rest Hin) by lia.
    rewrite (digit_of_byte b 2 Hb). unfold main_switch.
    rewrite (exchange_preloaded _ _ _ _ res more) by assumption.
    exact (sentinel_report "Error resetting page " (preloaded _ (polled true m)) res).
  - intros Hb HT b0 b1 b2 rest' ->.
    rewrite (main_iteration_digit T fuel m b _ Hin) by lia.
    rewrite (digit_of_byte b 3 Hb). unfold main_switch.
    erewrite bind_getchar_some by (simpl; rewrite Hin; reflexivity).
    erewrite bind_getchar_some by reflexivity.
    erewrite bind_getchar_some by reflexivity.
    replace ((T =? u8 b0) || (T =? u8 b1) || (T =? u8 b2)) with false.
    2:{ symmetry. unfold u8.
        pose proof (Z.mod_pos_bound b0 256). pose proof (Z.mod_pos_bound b1 256).
        pose proof (Z.mod_pos_bound b2 256).
        rewrite !orb_false_iff. repeat split; apply Z.eqb_neq; lia. }
    rewrite (exchange_preloaded _ _ _ _ res more) by assumption.
    match goal with
    | |- context [preloaded ?c ?m1] =>
        exact (sentinel_report "Error setting page " (preloaded c m1) res)
    end.
  - intros fuel' m0. apply core1_keeps_stdout.
Qed.

(** ** The set-page-number argument *)

Lemma bind_getchar {A} T t (k : Z -> M A) m :
  bind (getchar_timeout_us T t) k m
    = k (arrived T (serial_in m !! 0%nat)) (set_serial_in (tail (serial_in m)) m).
Proof.
  unfold bind, getchar_timeout_us. destruct m as [? ? ? ? ? ? si ? ? ? ? ? ? ? ? ? ? ?].
  simpl. destruct si as [|[b|] si]; reflexivity.
Qed.

Lemma lor_bound n a b :
  0 <= n -> 0 <= a < 2 ^ n -> 0 <= b < 2 ^ n -> 0 <= Z.lor a b < 2 ^ n.
Proof.
  intros Hn Ha Hb. split; [apply Z.lor_nonneg; lia|].
  destruct (Z.eq_dec (Z.lor a b) 0) as [->|Hnz]; [lia|].
  assert (0 < Z.lor a b) by (pose proof (proj2 (Z.lor_nonneg a b)); lia).
  assert (0 < n).
  { destruct (Z.eq_dec n 0) as [->|]; [|lia]. exfalso. apply Hnz.
    replace a with 0 by (simpl in Ha; lia). replace b with 0 by (simpl in Hb; lia).
    reflexivity. }
  apply Z.log2_lt_pow2; [lia|]. rewrite Z.log2_lor by lia.
  apply Z.max_lub_lt.
  - destruct (Z.eq_dec a 0) as [->|]; [simpl; lia|]. apply Z.log2_lt_pow2; lia.
  - destruct (Z.eq_dec b 0) as [->|]; [simpl; lia|]. apply Z.log2_lt_pow2; lia.
Qed.

Lemma page_no_17_bits b0 b1 b2 : 0 <= page_no b0 b1 b2 < 2 ^ 17.
Proof.
  unfold page_no.
  assert (H0 : 0 <= Z.land b0 255 < 256).
  { rewrite land_255_u8. apply Z.mod_pos_bound. lia. }
  assert (H1 : 0 <= Z.land b1 255 < 256).
  { rewrite land_255_u8. apply Z.mod_pos_bound. lia. }
  assert (H2 : 0 <= Z.land b2 1 < 2).
  { change 1 with (Z.ones 1). rewrite Z.land_ones by lia. apply Z.mod_pos_bound. lia. }
  rewrite !Z.shiftl_mul_pow2 by lia.
  change (2 ^ 8) with 256. change (2 ^ 16) with 65536.
  apply lor_bound; [lia| |change (2 ^ 17) with 131072; lia].
  assert (0 <= Z.lor (Z.land b0 255) (Z.land b1 255 * 256) < 2 ^ 16);
    [|change (2 ^ 16) with 65536 in *; change (2 ^ 17) with 131072; lia].
  apply lor_bound; change (2 ^ 16) with 65536; lia.
Qed.

Lemma dispatch_set fuel m k :
  serving m ->
  dispatch fuel (mk_cmd CMD_SET_PAGE_NO k) m =
    Ok (mk_result 1 0)
       (exchanged (mk_cmd CMD_SET_PAGE_NO k) [] 0 0 (shared_buffer m)
          (mk_result 1 0) (s32 (u32 k)) m).
Proof.
  intros Hs. pose proof Hs as (Hl & Hp & Hcq & Hcc & Hrq & Hrc & Hgeo & Hbuf).
  set (c := mk_cmd CMD_SET_PAGE_NO k).
  set (m1 := set_cmd_queue (mk_queue (q_count (cmd_queue m)) [c]) m).
  destruct (core1_quiet_run fuel m1 c []) as (_ & Hset & _).
  { reflexivity. }
  { unfold has_room. simpl. rewrite Hrq. simpl. lia. }
  apply dispatch_run; [exact Hs|]. exact (Hset eq_refl).
Qed.

Lemma bind_dispatch {A} fuel c (k : result_t -> M A) m r m' :
  dispatch fuel c m = Ok r m' ->
  (queue_add_blocking cmd_queue_ref c ;; res <- await_result fuel ;; k res) m
    = k r m'.
Proof.
  unfold dispatch, bind. destruct (queue_add_blocking cmd_queue_ref c m); [|discriminate].
  by intros ->.
Qed.

(** C4.  On the byte '3' [main] makes three bounded reads.  When all three
    bring a byte, the command it hands to core 1 is set-page-number with
    the page number made of the low eight bits of the first, the low eight
    bits of the second shifted by 8 and the lowest bit of the third shifted
    by 16, a 17-bit value that core 1 stores in its page counter; nothing
    is printed.  When one of the three reads times out, it prints the
    timeout message and neither queue, nor anything of core 1, changes. *)
Theorem C4_set_page_argument
    (T : Z) (fuel : nat) (m : machine) (b : Z) (tl : list (option Z)) :
  T < 0 ->
  serial_in m = Some b :: tl ->
  u8 b = 0x33 ->
  (forall b0 b1 b2,
     tl !! 0%nat = Some (Some b0) -> tl !! 1%nat = Some (Some b1) ->
     tl !! 2%nat = Some (Some b2) ->
     serving m ->
     exists m',
       main_iteration T fuel m = Ok tt m'
       /\ w_cmd_arg m' = mk_cmd CMD_SET_PAGE_NO (page_no (u8 b0) (u8 b1) (u8 b2))
       /\ page_num m' = page_no (u8 b0) (u8 b1) (u8 b2)
       /\ 0 <= page_num m' < 2 ^ 17
       /\ stdout m' = stdout m)
  /\ ((exists i, (i < 3)%nat /\ arrived T (tl !! i) = T) ->
      exists m',
        main_iteration T fuel m = Ok tt m'
        /\ stdout m' = stdout m ++ ["Timed out reading page number" +:+ nl]
        /\ cmd_queue m' = cmd_queue m /\ results_queue m' = results_queue m
        /\ w_cmd_arg m' = w_cmd_arg m /\ page_num m' = page_num m)
  /\ page_no 0x34 0x12 0x00 = 0x1234
  /\ page_no 0x34 0x12 0x01 = 0x11234.
Proof.
  intros HT Hin Hb.
  assert (Hsw : main_iteration T fuel m = main_switch T fuel 3 (polled true m)).
  { rewrite (main_iteration_digit T fuel m b tl Hin) by lia.
    by rewrite (digit_of_byte b 3 Hb). }
  rewrite Hsw. unfold main_switch. rewrite !bind_getchar.
  assert (Htl : serial_in (polled true m) = tl).
  { unfold polled. simpl. by rewrite Hin. }
  cbn [serial_in set_serial_in]. rewrite Htl.
  replace (tail tl !! 0%nat) with (tl !! 1%nat) by (by destruct tl).
  replace (tail (tail tl) !! 0%nat) with (tl !! 2%nat)
    by (by destruct tl as [|? [|? ?]]).
  repeat split.
  - intros b0 b1 b2 -> -> -> Hs. cbn [arrived].
    pose proof (Z.mod_pos_bound b0 256). pose proof (Z.mod_pos_bound b1 256).
    pose proof (Z.mod_pos_bound b2 256). fold (u8 b0) (u8 b1) (u8 b2) in *.
    replace ((T =? u8 b0) || (T =? u8 b1) || (T =? u8 b2)) with false.
    2:{ symmetry. rewrite !orb_false_iff. repeat split; apply Z.eqb_neq; lia. }
    fold (page_no (u8 b0) (u8 b1) (u8 b2)).
    pose proof (page_no_17_bits (u8 b0) (u8 b1) (u8 b2)) as Hpn.
    change (2 ^ 17) with 131072 in Hpn.
    rewrite (u32_small (page_no _ _ _)) by lia.
    erewrite bind_dispatch by (apply dispatch_set; exact Hs).
    eexists. split; [reflexivity|].
    assert (Hpg : s32 (u32 (page_no (u8 b0) (u8 b1) (u8 b2)))
                  = page_no (u8 b0) (u8 b1) (u8 b2)) by (apply s32_u32_small; lia).
    split; [reflexivity|]. split; [exact Hpg|].
    split; [|reflexivity].
    change (0 <= s32 (u32 (page_no (u8 b0) (u8 b1) (u8 b2))) < 2 ^ 17).
    rewrite Hpg. change (2 ^ 17) with 131072. lia.
  - intros (i & Hi & Harr).
    replace ((T =? arrived T (tl !! 0%nat)) || (T =? arrived T (tl !! 1%nat))
             || (T =? arrived T (tl !! 2%nat))) with true.
    { eexists. split; [reflexivity|]. by repeat split. }
    symmetry. destruct i as [|[|[|i]]]; [| | |lia]; rewrite Harr, Z.eqb_refl;
      rewrite ?orb_true_r; reflexivity.
Qed.

(** ** Startup *)

Lemma get_flash_info_false id fi :
  fst (get_flash_info id fi) = false -> get_flash_info id fi = (false, fi).
Proof.
  unfold get_flash_info, TOSHIBA_KIOXIA.
  destruct (maker id =? 152); [|reflexivity].
  destruct (page_size_field_cases (pgsz_bksz_iow id)) as [H|[H|[H|H]]];
    rewrite H; simpl; intros; first [reflexivity|discriminate].
Qed.

Lemma tight_loop_halts {A} fuel m : @tight_loop A fuel m = Halt TightLoop m.
Proof. induction fuel as [|fuel IH]; [reflexivity|exact IH]. Qed.

Ltac name_log2 :=
  lazymatch goal with
  | |- Ok _ (mk_machine _ ?l _ _ _ _ _ _ _ _ _ _ _ _ _ _ _ _) =
       Ok _ (mk_machine _ (?L ++ ?t) _ _ _ ?D _ _ _ _ _ _ _ _ _ _ _ _) =>
      let p := split_log t l in unify L p
  end.

Lemma init_gpios_run s m :
  exists L D,
    init_gpios the_pins s m =
      Ok tt (set_pad_drive D (set_bus_log (L ++ bus_log m) m))
    /\ observe the_pins bus_idle L = (bus_idle, []).
Proof.
  destruct_machine m. eexists. eexists. split.
  - run_bus. name_log2. reflexivity.
  - reflexivity.
Qed.

Tactic Notation "step_startup" :=
  cbv beta iota zeta delta
    [bind ret stop emit load store printf queue_init
     cmd_queue_ref results_queue_ref q_load q_store
     the_pins set_gpios
     hw_update set_bus_log set_ry_reads set_io_reads set_timer_reads
     set_pad_drive set_serial_in set_stdout set_cmd_queue set_results_queue
     set_pins_glob set_shared_buffer set_flash_info_glob set_core1_launched
     set_w_cmd_arg set_w_result set_page_num set_curr_page
     env bus_log ry_reads io_reads timer_reads pad_drive serial_in stdout
     cmd_queue results_queue pins_glob shared_buffer flash_info_glob
     core1_launched w_cmd_arg w_result page_num curr_page].
Tactic Notation "step_startup" "in" hyp(H) :=
  cbv beta iota zeta delta
    [bind ret stop emit load store printf queue_init
     cmd_queue_ref results_queue_ref q_load q_store
     the_pins set_gpios
     hw_update set_bus_log set_ry_reads set_io_reads set_timer_reads
     set_pad_drive set_serial_in set_stdout set_cmd_queue set_results_queue
     set_pins_glob set_shared_buffer set_flash_info_glob set_core1_launched
     set_w_cmd_arg set_w_result set_page_num set_curr_page
     env bus_log ry_reads io_reads timer_reads pad_drive serial_in stdout
     cmd_queue results_queue pins_glob shared_buffer flash_info_glob
     core1_launched w_cmd_arg w_result page_num curr_page] in H.

(** [main] up to the point where it has read the identification. *)
Lemma main_startup_identifies k m id :
  ready_after k m ->
  identified m = Some id ->
  exists L D,
    (forall fuel, (k < fuel)%nat ->
       main_startup fuel m =
         (if negb (check_supported_io_width id) then
            printf ("Unsupported I/O width!" +:+ nl) ;; tight_loop fuel
          else
            fi <- load flash_info_glob ;;
            let '(ok, fi') := get_flash_info id fi in
            store (set_flash_info_glob fi') ;;
            if negb ok then
              printf ("Unrecognized NAND flash ID bytes!" +:+ nl) ;; tight_loop fuel
            else
              sleep_ms 500 ;; multicore_launch_core1 ;; stdio_init_all ;;
              store (set_curr_page 0))
         (set_pad_drive D
            (set_pins_glob the_pins
               (set_cmd_queue (mk_queue 20 [])
                  (set_results_queue (mk_queue 20 [])
                     (hw_update (L ++ bus_log m) (S k + ry_reads m)
                        (5 + io_reads m) m))))))
    /\ snd (observe the_pins bus_idle L) =
         [OpCommand 0xFF; OpStandby; OpSleepUs 600; OpCommand 0x90; OpAddress 0x00]
         ++ replicate k (OpReadyPoll false) ++ [OpReadyPoll true]
         ++ map OpDataOut (samples (env m) (io_reads m) 5).
Proof.
  intros Hready Hid. unfold identified in Hid. destruct_machine m.
  unfold ready_after in Hready. step_startup in Hready. step_startup in Hid.
  destruct (init_gpios_run GPIO_DRIVE_STRENGTH_2MA
              (mk_machine m_w m_bl m_rr m_ir m_tr m_pd m_si m_so (mk_queue 20 [])
                 (mk_queue 20 []) the_pins m_sb m_fi m_cl m_wc m_wr m_pn m_cp))
    as (L0 & D & H0 & O0).
  step_startup in H0.
  next_machine H0 ltac:(fun m1 =>
    destruct (reset_nand_run m1) as (L1 & H1 & O1)).
  step_startup in H1.
  next_machine H1 ltac:(fun m2 =>
    destruct (read_id_run k m2 [0; 0; 0; 0; 0]) as (L2 & H2 & O2);
    [exact Hready|simpl; lia|]).
  exists ((L2 ++ L1) ++ L0), D. split.
  - intros fuel Hk. specialize (H2 fuel Hk). unfold bus_runs in H2.
    step_startup in H2. unfold main_startup.
    change (replicate (Z.to_nat sizeof_id_data_t) 0) with [0; 0; 0; 0; 0].
    step_startup. rewrite H0, H1, H2.
    change (drop 5 [0; 0; 0; 0; 0]) with (@nil Z). rewrite app_nil_r, Hid.
    rewrite <- !app_assoc. reflexivity.
  - rewrite observe_app, O0. cbv beta iota. rewrite observe_app.
    unfold bus_idle.
    destruct (O1 false false true true 0) as (io1 & ->). cbv beta iota.
    destruct (O2 false false true true io1) as (s2 & ->). cbv beta iota.
    reflexivity.
Qed.

Lemma io_width_bit x :
  (u32 (Z.shiftl 1 (Z.shiftr (Z.land x 0x40) 6) * 8) =? 8) = negb (Z.testbit x 6).
Proof.
  assert (H : Z.land x 0x40 = if Z.testbit x 6 then 64 else 0).
  { apply Z.bits_inj'. intros i Hi. rewrite Z.land_spec.
    change 0x40 with (2 ^ 6). rewrite Z.pow2_bits_eqb by lia.
    destruct (Z.eqb_spec 6 i) as [<-|Hne].
    - rewrite andb_true_r. destruct (Z.testbit x 6) eqn:E.
      + change 64 with (2 ^ 6). rewrite Z.pow2_bits_true; [reflexivity|lia].
      + rewrite Z.bits_0. reflexivity.
    - rewrite andb_false_r. destruct (Z.testbit x 6).
      + change 64 with (2 ^ 6). rewrite Z.pow2_bits_false; [reflexivity|lia].
      + rewrite Z.bits_0. reflexivity. }
  rewrite H. destruct (Z.testbit x 6); reflexivity.
Qed.

(** C6: a chip whose identification is rejected by the width check (bit 6 of
    the fourth identification byte set) or by the geometry decoder makes
    [main] print one message and stay in its [while (true)] for every amount
    of fuel: core 1 is not launched, the serial input is untouched, the
    geometry is left as it was, and the chip has only seen the reset and the
    identification read. *)
Theorem C6_unsupported_chip_halts T n k m id :
  ready_after k m ->
  identified m = Some id ->
  check_supported_io_width id = false
    \/ fst (get_flash_info id (flash_info_glob m)) = false ->
  exists m' L,
    (forall fuel, (k < fuel)%nat -> main T fuel n m = Halt TightLoop m')
    /\ stdout m' =
         stdout m ++ [if check_supported_io_width id
                      then "Unrecognized NAND flash ID bytes!" +:+ nl
                      else "Unsupported I/O width!" +:+ nl]
    /\ core1_launched m' = core1_launched m
    /\ serial_in m' = serial_in m
    /\ cmd_queue m' = mk_queue 20 []
    /\ flash_info_glob m' = flash_info_glob m
    /\ bus_log m' = L ++ bus_log m
    /\ snd (observe the_pins bus_idle L) =
         [OpCommand 0xFF; OpStandby; OpSleepUs 600; OpCommand 0x90; OpAddress 0x00]
         ++ replicate k (OpReadyPoll false) ++ [OpReadyPoll true]
         ++ map OpDataOut (samples (env m) (io_reads m) 5)
    /\ check_supported_io_width id = negb (Z.testbit (pgsz_bksz_iow id) 6).
Proof.
  intros Hready Hid Hbad.
  destruct (main_startup_identifies k m id Hready Hid) as (L & D & Hrun & Hobs).
  assert (Hbit : check_supported_io_width id = negb (Z.testbit (pgsz_bksz_iow id) 6))
    by apply io_width_bit.
  destruct_machine m. step_startup in Hrun. step_startup in Hbad.
  destruct (check_supported_io_width id) eqn:Hw.
  - destruct Hbad as [Hbad|Hbad]; [discriminate|].
    apply get_flash_info_false in Hbad.
    eexists. exists L. split.
    { intros fuel Hk. unfold main. unfold bind at 1. rewrite (Hrun fuel Hk).
      cbv beta iota delta [negb]. step_startup. rewrite Hbad. step_startup.
      rewrite tight_loop_halts. reflexivity. }
    repeat split; try eassumption; reflexivity.
  - eexists. exists L. split.
    { intros fuel Hk. unfold main. unfold bind at 1. rewrite (Hrun fuel Hk).
      step_startup. cbv beta iota delta [negb].
      rewrite tight_loop_halts. reflexivity. }
    repeat split; try eassumption; reflexivity.
Qed.

(** ** Worked examples *)

Lemma slow_chip_ready_after_2 : ready_after 2 (power_on slow_chip []).
Proof.
  split.
  - intros [|[|j]] Hj; [reflexivity|reflexivity|lia].
  - reflexivity.
Qed.

Lemma dead_chip_never_ready : never_ready (power_on dead_chip []).
Proof. intros j. reflexivity. Qed.

Lemma example_booted_serving : serving example_booted.
Proof. vm_compute. repeat split; first [reflexivity | lia | discriminate]. Qed.

Lemma example_chip_eventually_ready : eventually_ready (env example_booted).
Proof. intros r. exists 0%nat. reflexivity. Qed.

Lemma C2_read_page_bus_sequence_witness :
  exists L m',
    read_page 3 the_pins 0x11234 [0; 0; 0; 0] 3 (power_on slow_chip [])
      = Ok [0xA0; 0xA1; 0xA2; 0] m'
    /\ bus_log m' = L
    /\ snd (observe the_pins bus_idle L) =
         [OpCommand 0xFF; OpStandby; OpSleepUs 600; OpCommand 0x00;
          OpAddress 0; OpAddress 0; OpAddress 0x34; OpAddress 0x12; OpAddress 1;
          OpCommand 0x30; OpSleepUs 1;
          OpReadyPoll false; OpReadyPoll false; OpReadyPoll true;
          OpDataOut 0xA0; OpDataOut 0xA1; OpDataOut 0xA2].
Proof.
  destruct (C2_read_page_bus_sequence 3 2 (power_on slow_chip []) 0x11234
              [0; 0; 0; 0] 3) as (L & m' & Hrun & Hlog & Hobs & _).
  - exact slow_chip_ready_after_2.
  - lia.
  - simpl. lia.
  - exists L, m'. split; [exact Hrun|]. split.
    + rewrite Hlog. apply app_nil_r.
    + exact (Hobs bus_idle eq_refl).
Defined.

Lemma C7_read_bytes_waits_without_bound_witness :
  (exists m', read_bytes 3 the_pins [0; 0; 0; 0] 3 (power_on slow_chip [])
              = Ok [0xA0; 0xA1; 0xA2; 0] m')
  /\ (exists m', read_bytes 9 the_pins [0; 0; 0; 0] 3 (power_on dead_chip [])
                 = Halt PollReady m').
Proof.
  split.
  - destruct (C7_read_bytes_waits_without_bound (power_on slow_chip [])
                [0; 0; 0; 0] 3) as (Hret & _); [simpl; lia|].
    destruct (Hret 2%nat 3%nat slow_chip_ready_after_2) as (m' & Hrun & _); [lia|].
    exists m'. exact Hrun.
  - destruct (C7_read_bytes_waits_without_bound (power_on dead_chip [])
                [0; 0; 0; 0] 3) as (_ & _ & Hnever & _); [simpl; lia|].
    destruct (Hnever dead_chip_never_ready 9%nat) as (m' & Hrun & _).
    exists m'. exact Hrun.
Defined.

Lemma C3_page_counter_witness :
  (exists fuel0 m',
     (forall fuel, (fuel0 <= fuel)%nat ->
        dispatch_n fuel 3 (mk_cmd CMD_READ_PAGE 0) example_booted = Ok tt m')
     /\ page_num m' = 3)
  /\ (exists r m',
        dispatch 1 (mk_cmd CMD_SET_PAGE_NO 0x11234) example_booted = Ok r m'
        /\ page_num m' = 0x11234).
Proof.
  destruct (C3_page_counter example_booted example_booted_serving)
    as (Hread & Hset & _).
  split.
  - apply (Hread 3%nat); [reflexivity|exact example_chip_eventually_ready|lia].
  - apply Hset. lia.
Defined.

Lemma C10_one_result_per_command_witness :
  exists m',
    core1_iteration 0
      (set_cmd_queue (mk_queue 20 [mk_cmd CMD_NONE 0]) example_booted) = Ok tt m'
    /\ q_elems (results_queue m') = [mk_result 0 0].
Proof.
  destruct (C10_one_result_per_command
              (set_cmd_queue (mk_queue 20 [mk_cmd CMD_NONE 0]) example_booted)
              (mk_cmd CMD_NONE 0) []) as (_ & _ & Hother & _).
  - reflexivity.
  - unfold has_room. vm_compute. lia.
  - destruct (Hother (or_intror (or_intror eq_refl)) 0%nat)
      as (m' & Hrun & _ & _ & _ & Hres & _).
    exists m'. split; [exact Hrun|exact Hres].
Defined.

Lemma C6_unsupported_chip_halts_witness :
  exists m',
    main (-1) 1 5 (power_on wide_chip [Some 0x31]) = Halt TightLoop m'
    /\ stdout m' = ["Unsupported I/O width!" +:+ nl]
    /\ core1_launched m' = false
    /\ serial_in m' = [Some 0x31].
Proof.
  destruct (C6_unsupported_chip_halts (-1) 5 0 (power_on wide_chip [Some 0x31])
              (mk_id 0x98 0xDC 0x90 0x66 0x76))
    as (m' & L & Hrun & Hout & Hcl & Hin & _).
  - split; [intros j Hj; lia|reflexivity].
  - reflexivity.
  - left. reflexivity.
  - exists m'. split; [apply Hrun; lia|]. split; [exact Hout|]. split; assumption.
Defined.

Lemma C4_set_page_argument_witness :
  (exists m',
     main_iteration (-1) 1
       (set_serial_in [Some 0x33; Some 0x34; Some 0x12; Some 0x01] example_booted)
       = Ok tt m'
     /\ page_num m' = 0x11234)
  /\ (exists m',
        main_iteration (-1) 1
          (set_serial_in [Some 0x33; Some 0x34; None] example_booted) = Ok tt m'
        /\ stdout m' = ["Timed out reading page number" +:+ nl]).
Proof.
  split.
  - destruct (C4_set_page_argument (-1) 1
                (set_serial_in [Some 0x33; Some 0x34; Some 0x12; Some 0x01]
                   example_booted)
                0x33 [Some 0x34; Some 0x12; Some 0x01]) as (Hok & _);
      [lia|reflexivity|reflexivity|].
    destruct (Hok 0x34 0x12 0x01 eq_refl eq_refl eq_refl)
      as (m' & Hrun & _ & Hpn & _).
    + vm_compute. repeat split; first [reflexivity | lia | discriminate].
    + exists m'. split; [exact Hrun|exact Hpn].
  - destruct (C4_set_page_argument (-1) 1
                (set_serial_in [Some 0x33; Some 0x34; None] example_booted)
                0x33 [Some 0x34; None]) as (_ & Hto & _);
      [lia|reflexivity|reflexivity|].
    destruct Hto as (m' & Hrun & Hout & _).
    + exists 1%nat. split; [lia|reflexivity].
    + exists m'. split; [exact Hrun|exact Hout].
Defined.

Lemma C5_errors_reported_by_size_witness :
  (exists m', main_iteration (-1) 1 (handed 9 [Some 0x30]) = Ok tt m'
     /\ stdout m' = ["Error return: 9 <shared_buffer>" +:+ nl])
  /\ (exists m', main_iteration (-1) 1 (handed 0 [Some 0x32]) = Ok tt m'
        /\ stdout m' = ["Error resetting page 0" +:+ nl]).
Proof.
  split.
  - destruct (C5_errors_reported_by_size (-1) 1 (handed 9 [Some 0x30]) 0x30 []
                (mk_result 9 0) []) as (Hid & _).
    + reflexivity.
    + reflexivity.
    + unfold has_room. vm_compute. lia.
    + unfold is_int. simpl. lia.
    + apply Nat.leb_le. vm_compute. reflexivity.
    + apply Z.leb_le. vm_compute. reflexivity.
    + apply Hid. reflexivity.
  - destruct (C5_errors_reported_by_size (-1) 1 (handed 0 [Some 0x32]) 0x32 []
                (mk_result 0 0) []) as (_ & _ & Hreset & _).
    + reflexivity.
    + reflexivity.
    + unfold has_room. vm_compute. lia.
    + unfold is_int. simpl. lia.
    + apply Nat.leb_le. vm_compute. reflexivity.
    + apply Z.leb_le. vm_compute. reflexivity.
    + apply Hreset. reflexivity.
Defined.

(** ** The displayed page counter *)

(** C9: on the input '3' with the argument bytes 05 00 00 the command
    succeeds (nothing is printed), after which core 1's [page_num] is 5
    while [main]'s [curr_page] is still 0. *)
Theorem C9_curr_page_misses_set :
  let run := main (-1) 1 1
               (power_on example_chip [Some 0x33; Some 0x05; Some 0x00; Some 0x00]) in
  returned run = true
  /\ stdout (final run) = []
  /\ serial_in (final run) = []
  /\ page_num (final run) = 5
  /\ curr_page (final run) = 0.
Proof. repeat split; vm_compute; reflexivity. Qed.

(** ** Pins and pads *)

Tactic Notation "step_pads" :=
  cbv beta iota zeta delta
    [bind ret emit gpio_set_drive_strength set_drive_strengths for_loop for_loop_from
     gpio_init gpio_set_pulls gpio_set_dir gpio_set_dir_out_masked gpio_put init_gpios
     hw_update set_bus_log set_ry_reads set_io_reads set_timer_reads
     set_pad_drive set_serial_in set_stdout set_cmd_queue set_results_queue
     set_pins_glob set_shared_buffer set_flash_info_glob set_core1_launched
     set_w_cmd_arg set_w_result set_page_num set_curr_page
     env bus_log ry_reads io_reads timer_reads pad_drive serial_in stdout
     cmd_queue results_queue pins_glob shared_buffer flash_info_glob
     core1_launched w_cmd_arg w_result page_num curr_page].

(** X1: [set_drive_strengths] returns, and afterwards the drive strength
    of a pad is the given one if the pad is one of the eight I/O pins, ALE,
    CLE, CE, RE, WE or WP, and what it was before otherwise; with the pin
    map of [set_gpios] neither the ready/busy pin nor the LED is among
    them. *)
Theorem set_drive_strengths_covers (pins : nand_pins_t)
    (strength : gpio_drive_strength) (m : machine) :
  exists m',
    set_drive_strengths pins strength m = Ok tt m'
    /\ (forall p, pad_drive m' p =
                  if existsb (Z.eqb p) (driven_pins pins) then strength
                  else pad_drive m p)
    /\ existsb (Z.eqb (ry (set_gpios pins))) (driven_pins (set_gpios pins)) = false
    /\ existsb (Z.eqb LED_PIN) (driven_pins (set_gpios pins)) = false.
Proof.
  destruct_machine m. eexists. split; [step_pads; reflexivity|].
  split; [|split; reflexivity].
  intros p. cbn [existsb driven_pins map app pad_drive].
  repeat match goal with
  | |- context [io_start pins + ?e] =>
      lazymatch e with
      | _ + _ => let v := eval compute in e in change e with v
      end
  end.
  repeat match goal with
  | |- (if ?b then _ else _) = _ =>
      destruct b; [rewrite ?orb_true_r; reflexivity|rewrite ?orb_false_r]
  end.
  reflexivity.
Qed.

Ltac name_log_eq :=
  lazymatch goal with
  | |- ?l = ?L ++ ?t => let p := split_log t l in unify L p; reflexivity
  end.

(** X2: with the pin map of [set_gpios], [init_gpios] returns, and
    whatever levels the control lines had, the chip latches no command and
    no address during it; the chip is left deselected (CE high) with WE and
    RE high and CLE and ALE low, having at most gone to standby.  The
    ready/busy pin is made an input with its pull-up on, and the pads of
    the I/O and control outputs get the given drive strength. *)
Theorem init_gpios_deselects (pins0 : nand_pins_t)
    (init_strength : gpio_drive_strength) (m : machine) (b : bus_state) :
  let pins := set_gpios pins0 in
  exists L m',
    init_gpios pins init_strength m = Ok tt m'
    /\ bus_log m' = L ++ bus_log m
    /\ observe pins b L =
         (mk_bus false false true true true (s_io b),
          if s_ce b then [] else [OpStandby])
    /\ In (EvGpioSetPulls (ry pins) true false) L
    /\ In (EvGpioSetDir (ry pins) false) L
    /\ (forall p, pad_drive m' p =
                  if existsb (Z.eqb p) (driven_pins pins) then init_strength
                  else pad_drive m p)
    /\ stdout m' = stdout m /\ serial_in m' = serial_in m.
Proof.
  intros pins. subst pins. destruct_machine m. eexists. eexists.
  split; [unfold set_gpios; step_pads; reflexivity|].
  split; [cbn [bus_log]; name_log_eq|].
  split; [destruct b as [[] [] [] [] [] io]; reflexivity|].
  split; [cbn; tauto|]. split; [cbn; tauto|].
  split; [|split; reflexivity].
  intros p. cbn [existsb driven_pins map app pad_drive set_gpios io_start ale cle ce re we wp].
  repeat match goal with
  | |- context [0 + ?e] => let v := eval compute in (0 + e) in change (0 + e) with v
  end.
  repeat match goal with
  | |- (if ?b then _ else _) = _ =>
      destruct b; [rewrite ?orb_true_r; reflexivity|rewrite ?orb_false_r]
  end.
  reflexivity.
Qed.

(** X3: started with WE high, [write_cmd] makes the chip latch exactly one
    command, the low eight bits of its argument, and [write_addr_1] exactly
    one address byte; both leave the chip selected with WE and RE high and
    CLE and ALE low, and change nothing but the bus. *)
Theorem write_latches_one_byte (c a : Z) (m : machine) (b : bus_state) :
  s_we b = true ->
  (exists L b',
     write_cmd the_pins c m =
       Ok tt (hw_update (L ++ bus_log m) (ry_reads m) (io_reads m) m)
     /\ observe the_pins b L = (b', [OpCommand (c mod 256)])
     /\ (s_cle b', s_ale b', s_ce b', s_re b', s_we b') =
          (false, false, false, true, true))
  /\ (exists L b',
        write_addr_1 the_pins a m =
          Ok tt (hw_update (L ++ bus_log m) (ry_reads m) (io_reads m) m)
        /\ observe the_pins b L = (b', [OpAddress (a mod 256)])
        /\ (s_cle b', s_ale b', s_ce b', s_re b', s_we b') =
             (false, false, false, true, true)).
Proof.
  intros Hwe. destruct b as [cl al e r w io]. simpl in Hwe. subst w. split.
  - destruct (write_cmd_run c m) as (L & Hrun & Hobs).
    destruct (Hobs cl al e r io) as (io' & Hio).
    exists L. eexists. split; [exact Hrun|]. split; [exact Hio|reflexivity].
  - destruct (write_addr_1_run a m) as (L & Hrun & Hobs).
    destruct (Hobs cl al e r io) as (io' & Hio).
    exists L. eexists. split; [exact Hrun|]. split; [exact Hio|reflexivity].
Qed.

Lemma u8_land_ones (n x : Z) :
  0 <= n <= 8 -> u8 (Z.land x (Z.ones n)) = x mod 2 ^ n.
Proof.
  intros Hn. rewrite Z.land_ones by lia. unfold u8. apply Z.mod_small.
  pose proof (Z.mod_pos_bound x (2 ^ n) ltac:(apply Z.pow_pos_nonneg; lia)).
  assert (2 ^ n <= 2 ^ 8) by (apply Z.pow_le_mono_r; lia).
  change (2 ^ 8) with 256 in *. lia.
Qed.

(** X4: started with WE high, [write_addr_5] makes the chip latch exactly
    five address bytes.  The first two are the column address modulo 2^13,
    low byte first; the last three are the page address modulo 2^17, low
    byte first.  Higher bits of either argument never reach the chip. *)
Theorem write_addr_5_encodes (page_addr col_addr : Z) (m : machine)
    (b : bus_state) :
  s_we b = true ->
  exists L b' c0 c1 p0 p1 p2,
    write_addr_5 the_pins page_addr col_addr m =
      Ok tt (hw_update (L ++ bus_log m) (ry_reads m) (io_reads m) m)
    /\ observe the_pins b L = (b', map OpAddress [c0; c1; p0; p1; p2])
    /\ Forall (fun x => 0 <= x < 256) [c0; c1; p0; p1; p2]
    /\ c0 + 256 * c1 = col_addr mod 2 ^ 13
    /\ p0 + 256 * p1 + 65536 * p2 = page_addr mod 2 ^ 17
    /\ (s_cle b', s_ale b', s_ce b', s_re b', s_we b') =
         (false, false, false, true, true).
Proof.
  intros Hwe. destruct b as [cl al e r w io]. simpl in Hwe. subst w.
  destruct (write_addr_5_run page_addr col_addr m) as (L & Hrun & Hobs).
  destruct (Hobs cl al e r io) as (io' & Hio).
  exists L. eexists. do 5 eexists.
  split; [exact Hrun|]. split; [exact Hio|].
  change 0xFF with (Z.ones 8). change 0x1F with (Z.ones 5).
  change 0x01 with (Z.ones 1).
  rewrite !u8_land_ones by lia. rewrite !Z.shiftr_div_pow2 by lia.
  change (2 ^ 8) with 256. change (2 ^ 5) with 32. change (2 ^ 1) with 2.
  change (2 ^ 16) with 65536. change (2 ^ 13) with 8192.
  change (2 ^ 17) with 131072.
  split; [|split; [|split; [|reflexivity]]].
  - repeat constructor; first [apply Z.mod_pos_bound; lia
      | pose proof (Z.mod_pos_bound (col_addr / 256) 32);
        pose proof (Z.mod_pos_bound (page_addr / 65536) 2); lia].
  - Z.div_mod_to_equations. lia.
  - Z.div_mod_to_equations. lia.
Qed.

(** X5: [read_id] on a chip that is ready after [k] polls: the chip sees
    command 0x90, address 0x00, the polls and five data reads; the five
    bytes replace the first five of the destination and the rest of it is
    kept. *)
Theorem read_id_sequence (fuel k : nat) (m : machine) (dst : list Z)
    (b : bus_state) :
  ready_after k m ->
  (k < fuel)%nat ->
  (5 <= length dst)%nat ->
  s_we b = true ->
  let got := samples (env m) (io_reads m) 5 in
  exists L,
    read_id fuel the_pins dst m =
      Ok (got ++ drop 5 dst)
         (hw_update (L ++ bus_log m) (S k + ry_reads m) (5 + io_reads m) m)
    /\ snd (observe the_pins b L) =
         [OpCommand 0x90; OpAddress 0x00]
         ++ replicate k (OpReadyPoll false) ++ [OpReadyPoll true]
         ++ map OpDataOut got
    /\ length (got ++ drop 5 dst) = length dst
    /\ Forall (fun x => 0 <= x < 256) got.
Proof.
  intros Hready Hk Hlen Hwe got. destruct b as [cl al e r w io].
  simpl in Hwe. subst w.
  destruct (read_id_run k m dst Hready Hlen) as (L & Hrun & Hobs).
  destruct (Hobs cl al e r io) as (s' & Hs).
  exists L. split; [exact (Hrun fuel Hk)|]. split; [rewrite Hs; reflexivity|].
  split.
  - rewrite length_app, length_drop. unfold got, samples.
    rewrite length_map, length_seq. lia.
  - unfold got, samples. apply Forall_map, Forall_forall. intros j _. simpl.
    rewrite land_255_u8. apply Z.mod_pos_bound. lia.
Qed.

(** ** The identification explained *)

Lemma says_at_if_printf (c : bool) (a b : string) m :
  says_at (if c then printf a else printf b) m [if c then a else b].
Proof. destruct c; apply says_at_printf. Qed.

Lemma explain_id_lines (id : id_data_t) :
  exists l1 l3 l4 l5 l7,
    forall m,
      says_at (explain_id id) m
        ["Maker: "; l1; nl; l3; l4; l5;
         "Page Size (without redundant area): "
           +:+ fmt_d (Z.shiftl 1 (Z.land (pgsz_bksz_iow id) 0x03)) +:+ " KB" +:+ nl;
         l7;
         "I/O Width: x"
           +:+ fmt_d (Z.shiftl 1 (Z.shiftr (Z.land (pgsz_bksz_iow id) 0x40) 6) * 8)
           +:+ nl;
         "Number of Districts: "
           +:+ fmt_d (Z.shiftl 1 (Z.shiftr (Z.land (pgsz_bksz_iow id) 0x0B) 6 + 1))
           +:+ nl]
    /\ l1 = (if maker id =? TOSHIBA_KIOXIA then "Toshiba/Kioxia"
             else "Unknown (" +:+ fmt_x (maker id) +:+ ")")
    /\ l5 = "Number of Cell Levels: "
            +:+ fmt_d (Z.shiftl 1 (Z.shiftr (Z.land (chip_n_type id) 0x0B) 2 + 1))
            +:+ nl.
Proof.
  do 5 eexists. intros m. split; [|split; reflexivity].
  unfold explain_id.
  change (?a :: ?b :: ?c) with ([a] ++ b :: c).
  apply says_at_bind; [apply says_at_printf|].
  apply (says_at_bind _ _ _ [_] _); [apply says_at_if_printf|].
  repeat (apply (says_at_bind _ _ _ [_] _); [apply says_at_printf|]).
  apply says_at_printf.
Qed.

Lemma districts_field_is_0 (x : Z) : Z.shiftr (Z.land x 0x0B) 6 = 0.
Proof.
  apply Z.bits_inj'. intros i Hi.
  rewrite Z.shiftr_spec, Z.land_spec, Z.bits_0 by lia.
  rewrite (Z.bits_above_log2 0x0B (i + 6)); [apply andb_false_r|lia|].
  change (Z.log2 0x0B) with 3. lia.
Qed.

Lemma cell_field_cases (x : Z) :
  Z.shiftr (Z.land x 0x0B) 2 = if Z.testbit x 3 then 2 else 0.
Proof.
  apply Z.bits_inj'. intros i Hi.
  rewrite Z.shiftr_spec, Z.land_spec by lia.
  destruct (Z.eq_dec i 0) as [->|H0].
  { change (Z.testbit 11 (0 + 2)) with false. rewrite andb_false_r.
    by destruct (Z.testbit x 3). }
  destruct (Z.eq_dec i 1) as [->|H1].
  { change (Z.testbit 11 (1 + 2)) with true. rewrite andb_true_r.
    change (1 + 2) with 3. by destruct (Z.testbit x 3). }
  rewrite (Z.bits_above_log2 0x0B (i + 2)); [|lia|change (Z.log2 0x0B) with 3; lia].
  rewrite andb_false_r. symmetry.
  destruct (Z.testbit x 3); [|apply Z.bits_0].
  apply Z.bits_above_log2; [lia|]. change (Z.log2 2) with 1. lia.
Qed.

Lemma width_field_cases (x : Z) :
  Z.land x 0x40 = if Z.testbit x 6 then 64 else 0.
Proof.
  apply Z.bits_inj'. intros i Hi. rewrite Z.land_spec.
  change 0x40 with (2 ^ 6). rewrite Z.pow2_bits_eqb by lia.
  destruct (Z.eqb_spec 6 i) as [<-|Hne].
  - rewrite andb_true_r. destruct (Z.testbit x 6) eqn:E.
    + change 64 with (2 ^ 6). rewrite Z.pow2_bits_true; [reflexivity|lia].
    + rewrite Z.bits_0. reflexivity.
  - rewrite andb_false_r. destruct (Z.testbit x 6).
    + change 64 with (2 ^ 6). rewrite Z.pow2_bits_false; [reflexivity|lia].
    + rewrite Z.bits_0. reflexivity.
Qed.

(** X6: what [explain_id] prints is in step with the two checks [main]
    makes at startup.  Its I/O width line reads x8 exactly when
    [check_supported_io_width] accepts the identification, and x16
    otherwise; its maker line names Toshiba/Kioxia exactly for the maker
    code [get_flash_info] accepts; and whenever [get_flash_info] succeeds,
    its page size line shows the decoded page size in KB. *)
Theorem explain_id_agrees_with_checks (id : id_data_t) (fi : flash_info_struct)
    (m : machine) :
  exists lines,
    says_at (explain_id id) m lines
    /\ length lines = 10%nat
    /\ nth 8 lines "" =
         (if check_supported_io_width id then "I/O Width: x8" else "I/O Width: x16")
         +:+ nl
    /\ (nth 1 lines "" = "Toshiba/Kioxia" <-> maker id = 0x98)
    /\ (fst (get_flash_info id fi) = true ->
        nth 1 lines "" = "Toshiba/Kioxia"
        /\ nth 6 lines "" =
             "Page Size (without redundant area): "
             +:+ fmt_d (page_size_bytes (snd (get_flash_info id fi)) / 1024)
             +:+ " KB" +:+ nl).
Proof.
  destruct (explain_id_lines id) as (l1 & l3 & l4 & l5 & l7 & H).
  destruct (H m) as (Hsays & Hl1 & _). eexists. split; [exact Hsays|].
  split; [reflexivity|]. cbn [nth]. split; [|split].
  - unfold check_supported_io_width. rewrite io_width_bit.
    rewrite width_field_cases. by destruct (Z.testbit (pgsz_bksz_iow id) 6).
  - rewrite Hl1. unfold TOSHIBA_KIOXIA.
    destruct (Z.eqb_spec (maker id) 152) as [E|E]; split; try done.
  - intros Hok. unfold get_flash_info, TOSHIBA_KIOXIA in *. rewrite Hl1.
    unfold TOSHIBA_KIOXIA.
    destruct (maker id =? 152); [|discriminate].
    split; [reflexivity|].
    destruct (page_size_field_cases (pgsz_bksz_iow id)) as [E|[E|[E|E]]];
      rewrite E in *; simpl in Hok; first [discriminate|reflexivity].
Qed.

(** X7: two lines of [explain_id] do not depend on the identification as
    their labels suggest.  The number of districts printed is 2 for every
    identification, and the number of cell levels printed is 8 when bit 3
    of the third identification byte is set and 2 when it is clear. *)
Theorem explain_id_fixed_lines (id : id_data_t) (m : machine) :
  exists lines,
    says_at (explain_id id) m lines
    /\ nth 9 lines "" = "Number of Districts: 2" +:+ nl
    /\ nth 5 lines "" =
         "Number of Cell Levels: "
         +:+ (if Z.testbit (chip_n_type id) 3 then "8" else "2") +:+ nl.
Proof.
  destruct (explain_id_lines id) as (l1 & l3 & l4 & l5 & l7 & H).
  destruct (H m) as (Hsays & _ & Hl5). eexists. split; [exact Hsays|].
  cbn [nth]. split.
  - by rewrite districts_field_is_0.
  - rewrite Hl5, cell_field_cases. by destruct (Z.testbit (chip_n_type id) 3).
Qed.

(** ** The page as text *)

Lemma fmt_02x_two_digits (upper : bool) (b : Z) :
  0 <= b < 256 -> two_digits_of b (fmt_02x upper b) = true.
Proof.
  intros Hb.
  assert (H : forallb (fun k => two_digits_of (Z.of_nat k) (fmt_02x upper (Z.of_nat k)))
                (seq 0 256) = true) by (destruct upper; vm_compute; reflexivity).
  rewrite forallb_forall in H. specialize (H (Z.to_nat b)).
  rewrite Z2Nat.id in H by lia. apply H. apply in_seq. lia.
Qed.

(** X8: [display_page] of the first [page_size] bytes of a buffer prints
    one item per byte, each exactly two hexadecimal digits whose value is
    that byte, in buffer order; so the text is twice as long as the data
    and reads back as the data. *)
Theorem display_page_reads_back (page_buff : list Z) (page_size : Z) (m : machine) :
  0 <= page_size <= Z.of_nat (length page_buff) ->
  Forall (fun b => 0 <= b < 256) page_buff ->
  exists items,
    display_page page_buff page_size m = Ok tt (set_stdout (stdout m ++ items) m)
    /\ length items = Z.to_nat page_size
    /\ Forall (fun s => String.length s = 2%nat) items
    /\ map (hex_number 0) items = map Some (take (Z.to_nat page_size) page_buff).
Proof.
  intros Hn Hbytes. exists (page_report page_buff page_size).
  split; [|split; [|split]].
  - apply (says_at_print_loop _ page_buff _ 0%nat). lia.
  - unfold page_report. rewrite length_map, length_take. lia.
  - unfold page_report. apply Forall_map.
    eapply Forall_impl; [apply Forall_take, Hbytes|].
    intros b Hb. simpl. pose proof (fmt_02x_two_digits true b Hb) as H.
    apply andb_true_iff in H as (H & _). by apply Nat.eqb_eq in H.
  - unfold page_report. rewrite map_map. apply map_ext_Forall.
    eapply Forall_impl; [apply Forall_take, Hbytes|].
    intros b Hb. simpl. pose proof (fmt_02x_two_digits true b Hb) as H.
    apply andb_true_iff in H as (_ & H).
    destruct (hex_number 0 (fmt_02x true b)) as [v|]; [|discriminate].
    apply Z.eqb_eq in H. by subst.
Qed.

Lemma display_page_reads_back_witness :
  exists items,
    display_page [0x00; 0x9A; 0xFF; 0x10] 3 (power_on example_chip []) =
      Ok tt (set_stdout (stdout (power_on example_chip []) ++ items)
               (power_on example_chip []))
    /\ map (hex_number 0) items = [Some 0x00; Some 0x9A; Some 0xFF].
Proof.
  destruct (display_page_reads_back [0x00; 0x9A; 0xFF; 0x10] 3
              (power_on example_chip [])) as (items & Hrun & _ & _ & Hback).
  - simpl. lia.
  - repeat constructor; lia.
  - exists items. split; [exact Hrun|exact Hback].
Defined.

(** ** Startup on a chip that is accepted, and on one that stays busy *)

Lemma get_flash_info_true id fi :
  fst (get_flash_info id fi) = true ->
  exists ps os,
    get_flash_info id fi = (true, mk_flash_info ps os (131072 * (ps + os)))
    /\ ((ps = 2048 /\ os = 128) \/ (ps = 4096 /\ os = 256)).
Proof.
  unfold get_flash_info, TOSHIBA_KIOXIA.
  destruct (maker id =? 152); [|discriminate].
  destruct (page_size_field_cases (pgsz_bksz_iow id)) as [H|[H|[H|H]]];
    rewrite H; simpl; intros; try discriminate.
  - exists 2048, 128. split; [reflexivity|left; done].
  - exists 4096, 256. split; [reflexivity|right; done].
Qed.

(** The pads [init_gpios] leaves at the given strength. *)
Lemma init_gpios_pads s m :
  exists L D,
    init_gpios the_pins s m =
      Ok tt (set_pad_drive D (set_bus_log (L ++ bus_log m) m))
    /\ observe the_pins bus_idle L = (bus_idle, [])
    /\ D 1 = s.
Proof.
  destruct_machine m. eexists. eexists. split; [|split].
  - run_bus. name_log2. reflexivity.
  - reflexivity.
  - reflexivity.
Qed.

(** A start on a chip that [main] accepts. *)
Lemma main_startup_run k m id :
  ready_after k m ->
  identified m = Some id ->
  check_supported_io_width id = true ->
  fst (get_flash_info id (flash_info_glob m)) = true ->
  exists L D,
    (forall fuel, (k < fuel)%nat ->
       main_startup fuel m =
         Ok tt
           (set_curr_page 0
              (set_core1_launched true
                 (set_w_cmd_arg (mk_cmd CMD_READ_ID 5)
                    (set_w_result (mk_result 0 0)
                       (set_page_num 0
                          (set_flash_info_glob
                             (snd (get_flash_info id (flash_info_glob m)))
                             (set_pad_drive D
                                (set_pins_glob the_pins
                                   (set_cmd_queue (mk_queue 20 [])
                                      (set_results_queue (mk_queue 20 [])
                                         (hw_update
                                            (EvStdioInit :: EvSleepMs 500
                                             :: L ++ bus_log m)
                                            (S k + ry_reads m)
                                            (5 + io_reads m) m))))))))))))
    /\ snd (observe the_pins bus_idle L) =
         [OpCommand 0xFF; OpStandby; OpSleepUs 600; OpCommand 0x90; OpAddress 0x00]
         ++ replicate k (OpReadyPoll false) ++ [OpReadyPoll true]
         ++ map OpDataOut (samples (env m) (io_reads m) 5)
    /\ D 1 = GPIO_DRIVE_STRENGTH_2MA.
Proof.
  intros Hready Hid Hw Hgeo. unfold identified in Hid. destruct_machine m.
  unfold ready_after in Hready. step_startup in Hready. step_startup in Hid.
  step_startup in Hgeo.
  destruct (init_gpios_pads GPIO_DRIVE_STRENGTH_2MA
              (mk_machine m_w m_bl m_rr m_ir m_tr m_pd m_si m_so (mk_queue 20 [])
                 (mk_queue 20 []) the_pins m_sb m_fi m_cl m_wc m_wr m_pn m_cp))
    as (L0 & D & H0 & O0 & HD).
  step_startup in H0.
  next_machine H0 ltac:(fun m1 =>
    destruct (reset_nand_run m1) as (L1 & H1 & O1)).
  step_startup in H1.
  next_machine H1 ltac:(fun m2 =>
    destruct (read_id_run k m2 [0; 0; 0; 0; 0]) as (L2 & H2 & O2);
    [exact Hready|simpl; lia|]).
  exists ((L2 ++ L1) ++ L0), D. split; [|split; [|exact HD]].
  - intros fuel Hk. specialize (H2 fuel Hk). unfold bus_runs in H2.
    step_startup in H2. unfold main_startup.
    change (replicate (Z.to_nat sizeof_id_data_t) 0) with [0; 0; 0; 0; 0].
    step_startup. rewrite H0, H1, H2.
    change (drop 5 [0; 0; 0; 0; 0]) with (@nil Z). rewrite app_nil_r, Hid.
    rewrite Hw. cbv beta iota delta [negb]. step_startup.
    destruct (get_flash_info id m_fi) as [ok fi'] eqn:Hg. simpl in Hgeo. subst ok.
    cbv beta iota delta [negb snd]. unfold sleep_ms, multicore_launch_core1, stdio_init_all.
    step_startup. rewrite <- !app_assoc. reflexivity.
  - rewrite observe_app, O0. cbv beta iota. rewrite observe_app.
    unfold bus_idle.
    destruct (O1 false false true true 0) as (io1 & ->). cbv beta iota.
    destruct (O2 false false true true io1) as (s2 & ->). cbv beta iota.
    reflexivity.
Qed.

(** X9: on a chip that answers the identification with bytes both
    startup checks accept, [main] reaches its loop: nothing has been
    printed or read from the host, the geometry is the decoded one and fits
    the shared buffer, core 1 has been launched with its page counter at 0,
    both queues are empty with room for 20 elements, and the chip has seen
    the reset and the identification read and nothing else. *)
Theorem main_startup_serves (k : nat) (m : machine) (id : id_data_t) :
  ready_after k m ->
  identified m = Some id ->
  check_supported_io_width id = true ->
  fst (get_flash_info id (flash_info_glob m)) = true ->
  length (shared_buffer m) = sizeof_shared_buffer ->
  exists m' L,
    (forall fuel, (k < fuel)%nat -> main_startup fuel m = Ok tt m')
    /\ serving m'
    /\ flash_info_glob m' = snd (get_flash_info id (flash_info_glob m))
    /\ page_num m' = 0 /\ curr_page m' = 0
    /\ cmd_queue m' = mk_queue 20 [] /\ results_queue m' = mk_queue 20 []
    /\ stdout m' = stdout m /\ serial_in m' = serial_in m
    /\ pad_drive m' 1 = GPIO_DRIVE_STRENGTH_2MA
    /\ bus_log m' = EvStdioInit :: EvSleepMs 500 :: L ++ bus_log m
    /\ snd (observe the_pins bus_idle L) =
         [OpCommand 0xFF; OpStandby; OpSleepUs 600; OpCommand 0x90; OpAddress 0x00]
         ++ replicate k (OpReadyPoll false) ++ [OpReadyPoll true]
         ++ map OpDataOut (samples (env m) (io_reads m) 5).
Proof.
  intros Hready Hid Hw Hgeo Hlen.
  destruct (main_startup_run k m id Hready Hid Hw Hgeo) as (L & D & Hrun & Hobs & HD).
  destruct (get_flash_info_true id (flash_info_glob m) Hgeo)
    as (ps & os & Hfi & Hcases).
  eexists. exists L. split; [exact Hrun|].
  destruct_machine m. rewrite Hfi. simpl in Hlen.
  split.
  { unfold serving. cbn. repeat split; try lia; try assumption.
    all: destruct Hcases as [[-> ->]|[-> ->]]; lia. }
  repeat split; try assumption.
Qed.

(** X10: on a chip whose ready/busy line never reads high, [main] never
    gets past the identification read: however long it runs it is still
    polling, has printed nothing, has not launched core 1 and has not read
    from the host. *)
Theorem main_startup_waits_for_chip (T : Z) (n : nat) (m : machine) :
  never_ready m ->
  forall fuel, exists m',
    main T fuel n m = Halt PollReady m'
    /\ ry_reads m' = (fuel + ry_reads m)%nat
    /\ stdout m' = stdout m
    /\ core1_launched m' = core1_launched m
    /\ serial_in m' = serial_in m.
Proof.
  intros Hnever fuel. destruct_machine m.
  unfold never_ready in Hnever. step_startup in Hnever.
  destruct (init_gpios_run GPIO_DRIVE_STRENGTH_2MA
              (mk_machine m_w m_bl m_rr m_ir m_tr m_pd m_si m_so (mk_queue 20 [])
                 (mk_queue 20 []) the_pins m_sb m_fi m_cl m_wc m_wr m_pn m_cp))
    as (L0 & D & H0 & _).
  step_startup in H0.
  next_machine H0 ltac:(fun m1 =>
    destruct (reset_nand_run m1) as (L1 & H1 & _)).
  step_startup in H1.
  next_machine H1 ltac:(fun m2 =>
    destruct (read_id_spin fuel m2 [0; 0; 0; 0; 0]) as (L2 & H2);
    [exact Hnever|]).
  step_startup in H2.
  eexists. split.
  - unfold main. unfold bind at 1. unfold main_startup.
    change (replicate (Z.to_nat sizeof_id_data_t) 0) with [0; 0; 0; 0; 0].
    step_startup. rewrite H0, H1, H2. reflexivity.
  - repeat split.
Qed.

(** ** Commands answered by core 0 *)

Lemma main_iteration_4 T fuel m b rest :
  serial_in m = Some b :: rest ->
  u8 b = 0x34 ->
  main_iteration T fuel m =
    Ok tt (set_stdout (stdout m ++ [drive_line (pad_drive m 1)]) (polled true m)).
Proof.
  intros Hin Hb. rewrite (main_iteration_digit T fuel m b rest Hin) by lia.
  rewrite (digit_of_byte b 4 Hb). by destruct m.
Qed.

Lemma main_iteration_5 T fuel m b rest :
  serial_in m = Some b :: rest ->
  u8 b = 0x35 ->
  main_iteration T fuel m =
    Ok tt (set_stdout (stdout m ++ [geometry_line (flash_info_glob m)])
             (polled true m)).
Proof.
  intros Hin Hb. rewrite (main_iteration_digit T fuel m b rest Hin) by lia.
  rewrite (digit_of_byte b 5 Hb). by destruct m.
Qed.

(** X11: the commands '4' and '5' are answered by core 0 alone.  '4' prints
    the drive strength of pad 1 as its number, '5' prints page size, spare
    size and total size of the geometry record separated by commas.  In
    both cases the byte is consumed, nothing is queued for core 1, and
    the only bus activity is on the LED, which the chip does not see. *)
Theorem info_commands_stay_on_core0
    (T : Z) (fuel : nat) (m : machine) (b : Z) (rest : list (option Z)) :
  serial_in m = Some b :: rest ->
  u8 b = 0x34 \/ u8 b = 0x35 ->
  exists m' L,
    main_iteration T fuel m = Ok tt m'
    /\ stdout m' =
         stdout m ++ [if u8 b =? 0x34 then drive_line (pad_drive m 1)
                      else geometry_line (flash_info_glob m)]
    /\ serial_in m' = rest
    /\ queues m' = queues m
    /\ (w_cmd_arg m', w_result m', page_num m', shared_buffer m')
       = (w_cmd_arg m, w_result m, page_num m, shared_buffer m)
    /\ bus_log m' = L ++ bus_log m
    /\ (forall s, observe the_pins s L = (s, [])).
Proof.
  intros Hin [Hb|Hb].
  - rewrite (main_iteration_4 T fuel m b rest Hin Hb), Hb.
    eexists. exists [EvGpioPut LED_PIN true; EvGpioPut LED_PIN (heartbeat m)].
    split; [reflexivity|]. destruct m. simpl in Hin. subst.
    repeat split.
  - rewrite (main_iteration_5 T fuel m b rest Hin Hb), Hb.
    eexists. exists [EvGpioPut LED_PIN true; EvGpioPut LED_PIN (heartbeat m)].
    split; [reflexivity|]. destruct m. simpl in Hin. subst.
    repeat split.
Qed.

Lemma main_one_turn T fuel m m1 :
  main_startup fuel m = Ok tt m1 ->
  main T fuel 1 m = (main_iteration T fuel ;; ret tt) m1.
Proof. intros H. unfold main, bind at 1. by rewrite H. Qed.

(** X12: started on a chip both startup checks accept, and sent '4' or '5'
    as the first byte, [main] prints exactly one line: for '4' the number
    of the 2 mA drive strength it configured, 0; for '5' the geometry
    decoded from the identification, which is one of 2048,128,285212672 and
    4096,256,570425344. *)
Theorem boot_then_info_command
    (T : Z) (k : nat) (m : machine) (id : id_data_t) (b : Z)
    (rest : list (option Z)) :
  ready_after k m ->
  identified m = Some id ->
  check_supported_io_width id = true ->
  fst (get_flash_info id (flash_info_glob m)) = true ->
  serial_in m = Some b :: rest ->
  u8 b = 0x34 \/ u8 b = 0x35 ->
  let geometry := snd (get_flash_info id (flash_info_glob m)) in
  exists m',
    (forall fuel, (k < fuel)%nat -> main T fuel 1 m = Ok tt m')
    /\ stdout m' =
         stdout m ++ [if u8 b =? 0x34 then "Drive strength is 0" +:+ nl
                      else geometry_line geometry]
    /\ serial_in m' = rest
    /\ (geometry_line geometry = "2048,128,285212672" +:+ nl
        \/ geometry_line geometry = "4096,256,570425344" +:+ nl).
Proof.
  intros Hready Hid Hw Hgeo Hin Hb geometry. subst geometry.
  destruct (main_startup_run k m id Hready Hid Hw Hgeo) as (L & D & Hrun & _ & HD).
  destruct (get_flash_info_true id (flash_info_glob m) Hgeo)
    as (ps & os & Hfi & Hcases).
  rewrite Hfi in *. cbn [snd] in *.
  assert (Hline : geometry_line (mk_flash_info ps os (131072 * (ps + os)))
                  = "2048,128,285212672" +:+ nl
                  \/ geometry_line (mk_flash_info ps os (131072 * (ps + os)))
                     = "4096,256,570425344" +:+ nl).
  { destruct Hcases as [[-> ->]|[-> ->]]; [left|right]; reflexivity. }
  destruct_machine m. simpl in Hin. subst m_si.
  destruct Hb as [Hb|Hb]; rewrite Hb; cbn [Z.eqb Pos.eqb].
  - eexists. split; [|split; [|split; [|exact Hline]]].
    + intros fuel Hk. rewrite (main_one_turn _ _ _ _ (Hrun fuel Hk)).
      unfold bind at 1.
      erewrite main_iteration_4 by (first [reflexivity|exact Hb]).
      cbn [set_pad_drive set_curr_page set_core1_launched set_w_cmd_arg
           set_w_result set_page_num set_flash_info_glob pad_drive]. rewrite HD.
      reflexivity.
    + reflexivity.
    + reflexivity.
  - eexists. split; [|split; [|split; [|exact Hline]]].
    + intros fuel Hk. rewrite (main_one_turn _ _ _ _ (Hrun fuel Hk)).
      unfold bind at 1.
      erewrite main_iteration_5 by (first [reflexivity|exact Hb]).
      reflexivity.
    + reflexivity.
    + reflexivity.
Qed.

(** ** Commands from end to end *)

Lemma serving_polled d m : serving m -> serving (polled d m).
Proof. by destruct m. Qed.

Lemma ready_after_polled d k m : ready_after k m -> ready_after k (polled d m).
Proof. by destruct m. Qed.

Lemma never_ready_polled d m : never_ready m -> never_ready (polled d m).
Proof. by destruct m. Qed.

Lemma serving_set_stdout x m : serving m -> serving (set_stdout x m).
Proof. by destruct m. Qed.

Lemma serving_set_curr_page x m : serving m -> serving (set_curr_page x m).
Proof. by destruct m. Qed.

Lemma samples_length w from n : length (samples w from n) = n.
Proof. unfold samples. by rewrite length_map, length_seq. Qed.

Lemma id_of_bytes_samples w from rest :
  id_of_bytes (samples w from 5 ++ rest) = id_of_bytes (samples w from 5).
Proof. reflexivity. Qed.

Lemma read_id_says m res :
  0 < sz res <= 5 ->
  (5 <= length (shared_buffer m))%nat ->
  says_at
    (if (sz res <=? 0) || (sizeof_id_data_t <? u32 (sz res)) then
       printf ("Error return: " +:+ fmt_d (sz res) +:+ " <shared_buffer>" +:+ nl)
     else
       printf "ID: " ;;
       buf <- load shared_buffer ;;
       for_loop (Z.to_nat (sz res)) (fun i =>
         match buf !! Z.to_nat i with
         | Some b => printf (fmt_02x false b +:+ " ")
         | None => stop Undefined
         end) ;;
       printf nl ;;
       match id_of_bytes buf with
       | Some id => explain_id id
       | None => stop Undefined
       end) m (id_report (shared_buffer m) (sz res)).
Proof.
  intros Hsz Hlen.
  replace ((sz res <=? 0) || (sizeof_id_data_t <? u32 (sz res))) with false.
  2:{ symmetry. apply orb_false_iff. rewrite u32_small by lia.
      unfold sizeof_id_data_t. split; [apply Z.leb_gt|apply Z.ltb_ge]; lia. }
  unfold id_report. apply says_at_bind; [apply says_at_printf|].
  apply says_at_load. cbn [shared_buffer set_stdout].
  apply says_at_bind.
  { apply (says_at_print_loop _ (shared_buffer m) _ 0%nat). lia. }
  apply says_at_bind; [apply says_at_printf|].
  destruct (id_of_bytes_is_Some _ Hlen) as [id ->]. apply says_at_explain_id.
Qed.

Lemma read_page_done m res :
  let total := page_size_bytes (flash_info_glob m) + oob_size_bytes (flash_info_glob m) in
  0 < sz res <= total ->
  total <= Z.of_nat (length (shared_buffer m)) ->
  total < 4294967296 ->
  (fi <- load flash_info_glob ;;
   if (sz res <=? 0) || (page_size_bytes fi + oob_size_bytes fi <? sz res) then
     printf ("Error reading page: " +:+ fmt_d (sz res) +:+ nl)
   else
     buf <- load shared_buffer ;;
     display_page buf (u32 (sz res)) ;;
     store (fun m => set_curr_page (u32 (curr_page m + 1)) m)) m
  = Ok tt (set_curr_page (u32 (curr_page m + 1))
             (set_stdout (stdout m ++ page_report (shared_buffer m) (sz res)) m)).
Proof.
  intros total Hsz Hlen Hbig. subst total.
  unfold bind at 1, load at 1.
  replace ((sz res <=? 0) || (_ <? sz res)) with false.
  2:{ symmetry. apply orb_false_iff.
      split; [apply Z.leb_gt|apply Z.ltb_ge]; lia. }
  unfold bind at 1, load at 1. rewrite u32_small by lia.
  assert (Hd : says_at (display_page (shared_buffer m) (sz res)) m
                 (page_report (shared_buffer m) (sz res))).
  { apply (says_at_print_loop _ (shared_buffer m) _ 0%nat). lia. }
  unfold bind. rewrite Hd. by destruct m.
Qed.

Lemma main_iteration_0_run T k m b rest :
  serving m ->
  ready_after k m ->
  serial_in m = Some b :: rest ->
  u8 b = 0x30 ->
  let buf := samples (env m) (io_reads m) 5 ++ drop 5 (shared_buffer m) in
  exists L, forall fuel, (k < fuel)%nat ->
    main_iteration T fuel m =
      Ok tt (set_stdout (stdout m ++ id_report buf 5)
               (exchanged (mk_cmd CMD_READ_ID 0) L (S k) 5 buf
                  (set_sz 5 (w_result m)) (page_num m) (polled true m))).
Proof.
  intros Hs Hready Hin Hb buf.
  destruct_machine m. simpl in Hin. subst m_si.
  cbn [env io_reads shared_buffer] in buf.
  match type of Hs with serving ?mm => set (m := mm) in * end.
  pose proof (serving_polled true m Hs) as Hs0.
  pose proof (ready_after_polled true k m Hready) as Hr0.
  set (m0 := polled true m) in *.
  pose proof Hs0 as (Hl & Hp & Hcq & Hcc & Hrq & Hrc & Hgeo & Hbuf).
  set (c := mk_cmd CMD_READ_ID 0).
  set (m1 := set_cmd_queue (mk_queue (q_count (cmd_queue m0)) [c]) m0).
  destruct (core1_read_id_run k m1 c []) as (L & Hrun); try done.
  { change (5 <= length (shared_buffer m0))%nat. rewrite Hbuf.
    unfold sizeof_shared_buffer. lia. }
  { unfold has_room. change (results_queue m1) with (results_queue m0).
    rewrite Hrq. exact Hrc. }
  exists L. intros fuel Hk.
  pose proof (dispatch_run fuel m0 c _ _ _ _ _ _ Hs0 (Hrun fuel Hk)) as Hd.
  rewrite (main_iteration_digit T fuel m b rest eq_refl) by lia.
  rewrite (digit_of_byte b 0 Hb). unfold main_switch. fold m0. fold c.
  erewrite bind_dispatch by exact Hd.
  match type of Hd with
  | _ = Ok ?r ?m2 => pose proof (read_id_says m2 r) as Hrep
  end.
  unfold says_at in Hrep. rewrite Hrep; clear Hrep.
  - reflexivity.
  - cbn [sz set_sz]. lia.
  - change (5 <= length buf)%nat. unfold buf.
    rewrite length_app, samples_length. lia.
Qed.

(** X13: the command '0' from end to end.  With core 1 running, both
    queues empty and the chip ready after [k] polls, a turn of [main]'s
    loop that reads '0' has core 1 read the five identification bytes into
    the start of the shared buffer and prints them: the label, each byte as
    two lower-case hexadecimal digits and a space, a newline, and the
    explanation of these five bytes.  The page counters are untouched and
    the queues are empty again. *)
Theorem read_id_command_end_to_end
    (T : Z) (fuel k : nat) (m : machine) (b : Z) (rest : list (option Z)) :
  serving m ->
  ready_after k m ->
  (k < fuel)%nat ->
  serial_in m = Some b :: rest ->
  u8 b = 0x30 ->
  let got := samples (env m) (io_reads m) 5 in
  exists m' id,
    main_iteration T fuel m = Ok tt m'
    /\ id_of_bytes got = Some id
    /\ stdout m' =
         stdout m ++ ["ID: "] ++ map (fun x => fmt_02x false x +:+ " ") got
         ++ [nl] ++ explanation id
    /\ shared_buffer m' = got ++ drop 5 (shared_buffer m)
    /\ io_reads m' = (5 + io_reads m)%nat
    /\ serving m'
    /\ page_num m' = page_num m /\ curr_page m' = curr_page m
    /\ serial_in m' = rest.
Proof.
  intros Hs Hready Hk Hin Hb got.
  destruct (main_iteration_0_run T k m b rest Hs Hready Hin Hb) as (L & Hrun).
  destruct (id_of_bytes_is_Some got) as [id Hid].
  { unfold got. rewrite samples_length. lia. }
  eexists. exists id. split; [exact (Hrun fuel Hk)|]. split; [exact Hid|].
  split; [|split; [|split; [|split; [|split; [|split]]]]].
  - cbn [stdout set_stdout]. unfold id_report. subst got.
    rewrite take_app_length' by (symmetry; apply samples_length).
    rewrite id_of_bytes_samples, Hid. by destruct m.
  - by destruct m.
  - by destruct m.
  - apply serving_set_stdout. unfold exchanged.
    apply serving_after_dispatch; [by apply serving_polled|].
    destruct Hs as (_ & _ & _ & _ & _ & _ & _ & Hbuf).
    subst got. rewrite length_app, length_drop, samples_length, Hbuf.
    unfold sizeof_shared_buffer. lia.
  - by destruct m.
  - by destruct m.
  - destruct m. simpl in Hin. by subst.
Qed.

Lemma core1_read_page_view k m c rest :
  q_elems (cmd_queue m) = c :: rest ->
  cmd c = CMD_READ_PAGE ->
  pins_glob m = the_pins ->
  ready_after k m ->
  let n := page_size_bytes (flash_info_glob m) + oob_size_bytes (flash_info_glob m) in
  0 <= n <= 16384 ->
  page_num m + 1 < 2147483648 ->
  has_room (results_queue m) ->
  exists L,
    (forall fuel, (k < fuel)%nat ->
       core1_iteration fuel m =
         Ok tt (core1_done c L (S k) (Z.to_nat n)
                  (samples (env m) (io_reads m) (Z.to_nat n)
                   ++ drop (Z.to_nat n) (replicate sizeof_shared_buffer 0))
                  (set_sz n (w_result m)) (page_num m + 1) m))
    /\ forall s, s_we s = true ->
         snd (observe the_pins s L) =
           [OpCommand 0xFF; OpStandby; OpSleepUs 600; OpCommand 0x00]
           ++ map OpAddress (addr_bytes (u32 (page_num m)) 0)
           ++ [OpCommand 0x30; OpSleepUs 1]
           ++ replicate k (OpReadyPoll false) ++ [OpReadyPoll true]
           ++ map OpDataOut (samples (env m) (io_reads m) (Z.to_nat n)).
Proof.
  intros Hq Ht Hpins Hready n Hn Hpn Hroom. subst n. destruct_machine m.
  destruct m_cq as [ccap celems]. destruct m_rq as [rcap relems].
  destruct c as [tag a]. destruct m_fi as [ps os fs].
  step_core in Hq. step_core in Hroom. step_core in Ht. step_core in Hpins.
  unfold ready_after in Hready. step_core in Hready.
  step_core in Hn. step_core in Hpn.
  subst celems tag m_pg. apply Nat.ltb_lt in Hroom. apply Z.ltb_lt in Hpn.
  destruct (read_page_run k
              (mk_machine m_w m_bl m_rr m_ir m_tr m_pd m_si m_so
                 (mk_queue ccap rest) (mk_queue rcap relems) the_pins
                 (replicate sizeof_shared_buffer 0) (mk_flash_info ps os fs)
                 m_cl (mk_cmd CMD_READ_PAGE a) (mk_result (ps + os) (alloc m_wr))
                 m_pn m_cp)
              (u32 m_pn) (replicate sizeof_shared_buffer 0) (ps + os))
    as (L & Hrun & Hobs);
    [exact Hready|rewrite length_replicate; unfold sizeof_shared_buffer; lia|].
  exists L. split.
  - intros fuel Hk. specialize (Hrun fuel Hk).
    unfold bus_runs in Hrun. step_core in Hrun.
    step_core. rewrite (u32_small (ps + os)) by lia. rewrite Hrun.
    step_core. rewrite Hpn. step_core. rewrite Hroom. reflexivity.
  - intros [cl al e r w io] Hwe. simpl in Hwe. subst w.
    destruct (Hobs cl al e r io) as (s' & ->). reflexivity.
Qed.

Lemma main_iteration_1_run T k m b rest :
  serving m ->
  ready_after k m ->
  page_num m + 1 < 2147483648 ->
  serial_in m = Some b :: rest ->
  u8 b = 0x31 ->
  let total := page_size_bytes (flash_info_glob m) + oob_size_bytes (flash_info_glob m) in
  let buf := samples (env m) (io_reads m) (Z.to_nat total)
             ++ drop (Z.to_nat total) (replicate sizeof_shared_buffer 0) in
  exists L,
    (forall fuel, (k < fuel)%nat ->
       main_iteration T fuel m =
         Ok tt (set_curr_page (u32 (curr_page m + 1))
                  (set_stdout (stdout m ++ page_report buf total)
                     (exchanged (mk_cmd CMD_READ_PAGE 0) L (S k) (Z.to_nat total)
                        buf (set_sz total (w_result m)) (page_num m + 1)
                        (polled true m)))))
    /\ forall s, s_we s = true ->
         snd (observe the_pins s L) =
           [OpCommand 0xFF; OpStandby; OpSleepUs 600; OpCommand 0x00]
           ++ map OpAddress (addr_bytes (u32 (page_num m)) 0)
           ++ [OpCommand 0x30; OpSleepUs 1]
           ++ replicate k (OpReadyPoll false) ++ [OpReadyPoll true]
           ++ map OpDataOut (samples (env m) (io_reads m) (Z.to_nat total)).
Proof.
  intros Hs Hready Hpn Hin Hb total buf.
  destruct_machine m. simpl in Hin. subst m_si.
  cbn [env io_reads flash_info_glob] in total, buf.
  match type of Hs with serving ?mm => set (m := mm) in * end.
  pose proof (serving_polled true m Hs) as Hs0.
  pose proof (ready_after_polled true k m Hready) as Hr0.
  set (m0 := polled true m) in *.
  pose proof Hs0 as (Hl & Hp & Hcq & Hcc & Hrq & Hrc & Hgeo & Hbuf).
  change (flash_info_glob m0) with m_fi in Hgeo. fold total in Hgeo.
  change (shared_buffer m0) with m_sb in Hbuf.
  set (c := mk_cmd CMD_READ_PAGE 0).
  set (m1 := set_cmd_queue (mk_queue (q_count (cmd_queue m0)) [c]) m0).
  destruct (core1_read_page_view k m1 c []) as (L & Hrun & Hobs); try done.
  { change (flash_info_glob m1) with m_fi. fold total. lia. }
  { unfold has_room. change (results_queue m1) with (results_queue m0).
    rewrite Hrq. exact Hrc. }
  exists L. split; [|exact Hobs]. intros fuel Hk.
  pose proof (dispatch_run fuel m0 c _ _ _ _ _ _ Hs0 (Hrun fuel Hk)) as Hd.
  rewrite (main_iteration_digit T fuel m b rest eq_refl) by lia.
  rewrite (digit_of_byte b 1 Hb). unfold main_switch. fold m0. fold c.
  erewrite bind_dispatch by exact Hd.
  match type of Hd with
  | _ = Ok ?r ?m2 => pose proof (read_page_done m2 r) as Hrep
  end.
  rewrite Hrep; clear Hrep.
  - reflexivity.
  - cbn [sz set_sz]. change (flash_info_glob _) with m_fi. fold total. lia.
  - change (flash_info_glob _) with m_fi. fold total.
    change (shared_buffer _) with buf. unfold buf.
    rewrite length_app, length_drop, length_replicate, samples_length.
    unfold sizeof_shared_buffer. lia.
  - change (flash_info_glob _) with m_fi. fold total. lia.
Qed.

(** X14: the command '1' from end to end.  With core 1 running, both
    queues empty, the chip ready after [k] polls and the page counter
    [p] non-negative, a turn of [main]'s loop that reads '1' has core 1
    clear the shared buffer and read page + spare bytes of the page whose
    row address is [p] modulo 2^17 into its start, prints exactly these
    bytes, two upper-case hexadecimal digits each, and leaves core 1's
    counter at [p + 1] and [main]'s own counter one higher than before. *)
Theorem read_page_command_end_to_end
    (T : Z) (fuel k : nat) (m : machine) (b : Z) (rest : list (option Z)) :
  serving m ->
  ready_after k m ->
  (k < fuel)%nat ->
  0 <= page_num m ->
  page_num m + 1 < 2147483648 ->
  serial_in m = Some b :: rest ->
  u8 b = 0x31 ->
  let n := Z.to_nat (page_size_bytes (flash_info_glob m)
                     + oob_size_bytes (flash_info_glob m)) in
  let got := samples (env m) (io_reads m) n in
  exists m' L p0 p1 p2,
    main_iteration T fuel m = Ok tt m'
    /\ stdout m' = stdout m ++ map (fmt_02x true) got
    /\ shared_buffer m' = got ++ replicate (sizeof_shared_buffer - n) 0
    /\ page_num m' = page_num m + 1
    /\ curr_page m' = u32 (curr_page m + 1)
    /\ serving m'
    /\ serial_in m' = rest
    /\ bus_log m' = L ++ bus_log (polled true m)
    /\ (forall s, s_we s = true ->
          snd (observe the_pins s L) =
            [OpCommand 0xFF; OpStandby; OpSleepUs 600; OpCommand 0x00;
             OpAddress 0; OpAddress 0; OpAddress p0; OpAddress p1; OpAddress p2;
             OpCommand 0x30; OpSleepUs 1]
            ++ replicate k (OpReadyPoll false) ++ [OpReadyPoll true]
            ++ map OpDataOut got)
    /\ p0 + 256 * p1 + 65536 * p2 = page_num m mod 2 ^ 17.
Proof.
  intros Hs Hready Hk Hpn0 Hpn Hin Hb n got.
  destruct (main_iteration_1_run T k m b rest Hs Hready Hpn Hin Hb)
    as (L & Hrun & Hobs).
  pose proof Hs as (_ & _ & _ & _ & _ & _ & Hgeo & Hbuf).
  eexists. exists L. do 3 eexists. split; [exact (Hrun fuel Hk)|].
  fold n. fold got.
  split; [|split; [|split; [|split; [|split; [|split; [|split; [|split]]]]]]].
  - cbn [stdout set_stdout set_curr_page]. unfold page_report.
    rewrite take_app_length' by (unfold got; symmetry; apply samples_length).
    by destruct m.
  - rewrite drop_replicate. by destruct m.
  - by destruct m.
  - by destruct m.
  - apply serving_set_curr_page, serving_set_stdout. unfold exchanged.
    apply serving_after_dispatch; [by apply serving_polled|].
    rewrite length_app, length_drop, length_replicate. unfold got.
    rewrite samples_length. unfold n, sizeof_shared_buffer. lia.
  - destruct m. simpl in Hin. by subst.
  - by destruct m.
  - intros s Hwe. rewrite (Hobs s Hwe). rewrite u32_small by lia.
    rewrite addr_bytes_column_0. reflexivity.
  - apply row_address_17_bits.
Qed.

Lemma dispatch_spin fuel m c :
  serving m ->
  never_ready m ->
  cmd c = CMD_READ_ID \/ cmd c = CMD_READ_PAGE ->
  exists m',
    dispatch fuel c m = Halt PollReady m'
    /\ results_queue m' = results_queue m
    /\ page_num m' = page_num m
    /\ stdout m' = stdout m.
Proof.
  intros Hs Hnever Hc.
  pose proof Hs as (Hl & Hp & Hcq & Hcc & Hrq & Hrc & Hgeo & Hbuf).
  set (m1 := set_cmd_queue (mk_queue (q_count (cmd_queue m)) [c]) m).
  assert (Hspin : exists m', core1_iteration fuel m1 = Halt PollReady m'
                             /\ results_queue m' = results_queue m1
                             /\ page_num m' = page_num m1).
  { destruct Hc as [Hc|Hc].
    - apply (core1_read_id_spin fuel m1 c []); done.
    - apply (core1_read_page_spin fuel m1 c []); done. }
  destruct Hspin as (m' & Hrun & Hq & Hpn).
  pose proof (core1_keeps_stdout fuel m1) as Hout. rewrite Hrun in Hout.
  unfold keeps in Hout. cbn [final] in Hout.
  exists m'. split; [|split; [|split]].
  - destruct_machine m. destruct m_cq as [ccap celems].
    destruct m_rq as [rcap relems].
    step_main in Hl. step_main in Hcq. step_main in Hcc. step_main in Hrq.
    subst m_cl celems relems. subst m1. step_main in Hrun. step_main.
    destruct ccap as [|ccap]; [lia|]. cbn [length Nat.ltb Nat.leb app].
    step_main. rewrite Hrun. reflexivity.
  - rewrite Hq. by destruct m.
  - rewrite Hpn. by destruct m.
  - rewrite Hout. by destruct m.
Qed.

Lemma bind_dispatch_halt {A} fuel c (k : result_t -> M A) m h m' :
  dispatch fuel c m = Halt h m' ->
  (queue_add_blocking cmd_queue_ref c ;; res <- await_result fuel ;; k res) m
    = Halt h m'.
Proof.
  unfold dispatch, bind. destruct (queue_add_blocking cmd_queue_ref c m);
    [|by intros [= -> ->]].
  by intros ->.
Qed.

(** X15: core 0 waits for core 1 without a time limit.  If the chip's
    ready/busy line never reads high, a turn of [main]'s loop that reads
    '0' or '1' never ends, however long it runs: core 1 is still polling,
    no result has been published, the page counter has not moved and
    nothing has been printed, not even an error. *)
Theorem read_commands_wait_for_chip
    (T : Z) (m : machine) (b : Z) (rest : list (option Z)) :
  serving m ->
  never_ready m ->
  serial_in m = Some b :: rest ->
  u8 b = 0x30 \/ u8 b = 0x31 ->
  forall fuel, exists m',
    main_iteration T fuel m = Halt PollReady m'
    /\ stdout m' = stdout m
    /\ q_elems (results_queue m') = []
    /\ page_num m' = page_num m.
Proof.
  intros Hs Hnever Hin Hb fuel.
  pose proof (serving_polled true m Hs) as Hs0.
  pose proof (never_ready_polled true m Hnever) as Hn0.
  pose proof Hs0 as (_ & _ & _ & _ & Hrq & _).
  rewrite (main_iteration_digit T fuel m b rest Hin) by lia.
  destruct Hb as [Hb|Hb].
  - rewrite (digit_of_byte b 0 Hb). unfold main_switch.
    destruct (dispatch_spin fuel (polled true m) (mk_cmd CMD_READ_ID 0) Hs0 Hn0)
      as (m' & Hd & Hq & Hpn & Hout); [by left|].
    erewrite bind_dispatch_halt by exact Hd.
    exists m'. rewrite Hout, Hq, Hpn, Hrq. by destruct m.
  - rewrite (digit_of_byte b 1 Hb). unfold main_switch.
    destruct (dispatch_spin fuel (polled true m) (mk_cmd CMD_READ_PAGE 0) Hs0 Hn0)
      as (m' & Hd & Hq & Hpn & Hout); [by right|].
    erewrite bind_dispatch_halt by exact Hd.
    exists m'. rewrite Hout, Hq, Hpn, Hrq. by destruct m.
Qed.

(** ** The loop *)

Lemma dispatch_reset fuel m a :
  serving m ->
  dispatch fuel (mk_cmd CMD_RESET_PAGE_NO a) m =
    Ok (mk_result 1 0)
       (exchanged (mk_cmd CMD_RESET_PAGE_NO a) [] 0 0 (shared_buffer m)
          (mk_result 1 0) 0 m).
Proof.
  intros Hs. pose proof Hs as (Hl & Hp & Hcq & Hcc & Hrq & Hrc & Hgeo & Hbuf).
  set (c := mk_cmd CMD_RESET_PAGE_NO a).
  set (m1 := set_cmd_queue (mk_queue (q_count (cmd_queue m)) [c]) m).
  destruct (core1_quiet_run fuel m1 c []) as (Hreset & _).
  { reflexivity. }
  { unfold has_room. simpl. rewrite Hrq. simpl. lia. }
  apply dispatch_run; [exact Hs|]. exact (Hreset eq_refl).
Qed.

Lemma main_iteration_2_run T fuel m b rest :
  serving m ->
  serial_in m = Some b :: rest ->
  u8 b = 0x32 ->
  main_iteration T fuel m =
    Ok tt (exchanged (mk_cmd CMD_RESET_PAGE_NO 0) [] 0 0 (shared_buffer m)
             (mk_result 1 0) 0 (polled true m)).
Proof.
  intros Hs Hin Hb.
  rewrite (main_iteration_digit T fuel m b rest Hin) by lia.
  rewrite (digit_of_byte b 2 Hb). unfold main_switch.
  erewrite bind_dispatch
    by (apply dispatch_reset; by apply serving_polled).
  by destruct m.
Qed.

Lemma tail_3 {A} (l : list A) : tail (tail (tail l)) = drop 3 l.
Proof. by destruct l as [|? [|? [|? ?]]]. Qed.

Lemma main_iteration_3_run T fuel m b tl :
  T < 0 ->
  serial_in m = Some b :: tl ->
  u8 b = 0x33 ->
  let p i := arrived T (tl !! i) in
  let m0 := set_serial_in (drop 3 tl) (polled true m) in
  ((T =? p 0%nat) || (T =? p 1%nat) || (T =? p 2%nat) = true ->
   main_iteration T fuel m =
     Ok tt (set_stdout (stdout m ++ ["Timed out reading page number" +:+ nl]) m0))
  /\ ((T =? p 0%nat) || (T =? p 1%nat) || (T =? p 2%nat) = false ->
      serving m ->
      main_iteration T fuel m =
        Ok tt (exchanged
                 (mk_cmd CMD_SET_PAGE_NO (page_no (p 0%nat) (p 1%nat) (p 2%nat)))
                 [] 0 0 (shared_buffer m) (mk_result 1 0)
                 (page_no (p 0%nat) (p 1%nat) (p 2%nat)) m0)).
Proof.
  intros HT Hin Hb p m0.
  assert (Hsw : main_iteration T fuel m = main_switch T fuel 3 (polled true m)).
  { rewrite (main_iteration_digit T fuel m b tl Hin) by lia.
    by rewrite (digit_of_byte b 3 Hb). }
  rewrite Hsw. unfold main_switch. rewrite !bind_getchar.
  assert (Htl : serial_in (polled true m) = tl).
  { unfold polled. simpl. by rewrite Hin. }
  cbn [serial_in set_serial_in]. rewrite Htl.
  replace (tail tl !! 0%nat) with (tl !! 1%nat) by (by destruct tl).
  replace (tail (tail tl) !! 0%nat) with (tl !! 2%nat)
    by (by destruct tl as [|? [|? ?]]).
  rewrite tail_3. fold (p 0%nat) (p 1%nat) (p 2%nat).
  split.
  - intros ->. subst m0. by destruct m.
  - intros -> Hs.
    fold (page_no (p 0%nat) (p 1%nat) (p 2%nat)).
    pose proof (page_no_17_bits (p 0%nat) (p 1%nat) (p 2%nat)) as Hpn.
    change (2 ^ 17) with 131072 in Hpn.
    rewrite (u32_small (page_no _ _ _)) by lia.
    assert (Hs0 : serving m0) by (subst m0; destruct m; exact Hs).
    assert (Hm0 : set_serial_in (drop 3 tl)
                    (set_serial_in (tail (tail tl))
                       (set_serial_in (tail tl) (polled true m))) = m0)
      by (subst m0; by destruct m).
    rewrite Hm0.
    erewrite bind_dispatch by (apply dispatch_set; exact Hs0).
    rewrite s32_u32_small by lia. subst m0. by destruct m.
Qed.

Lemma serving_exchanged m c L p b buf r pn :
  serving m ->
  length buf = sizeof_shared_buffer ->
  serving (exchanged c L p b buf r pn m).
Proof. intros. unfold exchanged. by apply serving_after_dispatch. Qed.

Lemma turn_keeps_polled d m : serving m -> 0 <= page_num m -> turn_keeps m (polled d m).
Proof.
  intros Hs Hpn. split; [by apply serving_polled|].
  destruct m. simpl in *. repeat split; try lia.
  - by exists 1%nat.
  - exists []. by rewrite app_nil_r.
Qed.

Ltac turn_fields :=
  cbn [env flash_info_glob page_num serial_in stdout
       set_curr_page set_stdout exchanged core1_done set_results_queue
       set_page_num set_shared_buffer set_w_result set_w_cmd_arg set_cmd_queue
       hw_update set_bus_log set_ry_reads set_io_reads polled set_serial_in
       set_timer_reads tail] in *.

Lemma main_iteration_turn T k m :
  -128 <= T < 0 ->
  serving m ->
  ready_after k m ->
  0 <= page_num m ->
  page_num m + 1 < 2147483648 ->
  exists m',
    (forall fuel, (k < fuel)%nat -> main_iteration T fuel m = Ok tt m')
    /\ turn_keeps m m'.
Proof.
  intros HT Hs Hready Hpn0 Hpn.
  pose proof Hs as (_ & _ & _ & _ & _ & _ & Hgeo & Hbuf).
  destruct (serial_in m) as [|[b|] rest] eqn:Hin.
  { exists (polled false m). split; [|by apply turn_keeps_polled].
    intros fuel _. apply main_iteration_idle; [exact HT|by left]. }
  2:{ exists (polled false m). split; [|by apply turn_keeps_polled].
      intros fuel _. apply main_iteration_idle; [exact HT|right; by exists rest]. }
  destruct (Z_le_dec 0x30 (u8 b)) as [Hlo|Hlo];
    [destruct (Z_le_dec (u8 b) 0x39) as [Hhi|Hhi]|].
  2,3: exists (polled false m); (split; [|by apply turn_keeps_polled]);
       intros fuel _; apply (main_iteration_other T fuel m b rest Hin); lia.
  assert (Hd : u8 b = 0x30 \/ u8 b = 0x31 \/ u8 b = 0x32 \/ u8 b = 0x33
               \/ u8 b = 0x34 \/ u8 b = 0x35
               \/ (0x36 <= u8 b <= 0x39)) by lia.
  destruct Hd as [Hb|[Hb|[Hb|[Hb|[Hb|[Hb|Hb]]]]]].
  - destruct (main_iteration_0_run T k m b rest Hs Hready Hin Hb) as (L & Hrun).
    eexists. split; [exact Hrun|]. split.
    { apply serving_set_stdout, serving_exchanged; [by apply serving_polled|].
      rewrite length_app, length_drop, samples_length, Hbuf.
      unfold sizeof_shared_buffer. lia. }
    destruct m. turn_fields. subst. repeat split; try lia.
    + by exists 1%nat.
    + by eexists.
  - destruct (main_iteration_1_run T k m b rest Hs Hready Hpn Hin Hb)
      as (L & Hrun & _).
    eexists. split; [exact Hrun|]. split.
    { apply serving_set_curr_page, serving_set_stdout, serving_exchanged;
        [by apply serving_polled|].
      rewrite length_app, length_drop, length_replicate, samples_length.
      unfold sizeof_shared_buffer. lia. }
    destruct m. turn_fields. subst. repeat split; try lia.
    + by exists 1%nat.
    + by eexists.
  - exists (exchanged (mk_cmd CMD_RESET_PAGE_NO 0) [] 0 0 (shared_buffer m)
              (mk_result 1 0) 0 (polled true m)).
    split; [intros fuel _; by apply (main_iteration_2_run T fuel m b rest)|].
    split; [apply serving_exchanged; [by apply serving_polled|exact Hbuf]|].
    destruct m. turn_fields. subst. repeat split; try lia.
    + by exists 1%nat.
    + exists []. by rewrite app_nil_r.
  - destruct (main_iteration_3_run T 0 m b rest ltac:(lia) Hin Hb) as (Hto & Hset).
    cbv zeta in Hto, Hset.
    destruct ((T =? arrived T (rest !! 0%nat)) || (T =? arrived T (rest !! 1%nat))
              || (T =? arrived T (rest !! 2%nat))) eqn:E.
    + eexists. split.
      { intros fuel _.
        destruct (main_iteration_3_run T fuel m b rest ltac:(lia) Hin Hb) as (H & _).
        cbv zeta in H. rewrite E in H. exact (H eq_refl). }
      split.
      { apply serving_set_stdout. destruct m. exact Hs. }
      destruct m. turn_fields. subst. repeat split; try lia.
      * by exists 4%nat.
      * by eexists.
    + eexists. split.
      { intros fuel _.
        destruct (main_iteration_3_run T fuel m b rest ltac:(lia) Hin Hb) as (_ & H).
        cbv zeta in H. rewrite E in H. exact (H eq_refl Hs). }
      split.
      { apply serving_exchanged; [destruct m; exact Hs|].
        destruct m. exact Hbuf. }
      pose proof (page_no_17_bits (arrived T (rest !! 0%nat))
                    (arrived T (rest !! 1%nat)) (arrived T (rest !! 2%nat))) as Hp.
      change (2 ^ 17) with 131072 in Hp.
      destruct m. turn_fields. subst. repeat split; try lia.
      * by exists 4%nat.
      * exists []. by rewrite app_nil_r.
  - eexists. split; [intros fuel _; by apply (main_iteration_4 T fuel m b rest)|].
    split; [by apply serving_set_stdout, serving_polled|].
    destruct m. turn_fields. subst. repeat split; try lia.
    + by exists 1%nat.
    + by eexists.
  - eexists. split; [intros fuel _; by apply (main_iteration_5 T fuel m b rest)|].
    split; [by apply serving_set_stdout, serving_polled|].
    destruct m. turn_fields. subst. repeat split; try lia.
    + by exists 1%nat.
    + by eexists.
  - exists (set_stdout (stdout m ++ [HELP_STR]) (polled true m)). split.
    { intros fuel _. rewrite (main_iteration_digit T fuel m b rest Hin) by lia.
      assert (Hd : u8 b - 48 = 6 \/ u8 b - 48 = 7 \/ u8 b - 48 = 8 \/ u8 b - 48 = 9)
        by lia.
      destruct Hd as [->|[->|[->| ->]]]; by destruct m. }
    split; [by apply serving_set_stdout, serving_polled|].
    destruct m. turn_fields. subst. repeat split; try lia.
    + by exists 1%nat.
    + by eexists.
Qed.

(** X16: [main]'s loop does not get stuck.  From a machine in which core 1
    runs and both queues are empty, on a chip whose ready/busy line always
    reads high again, [n] turns of the loop complete whatever the host
    sends or does not send, as long as the page counter stays within an
    [int].  Afterwards both queues are empty again; the geometry is
    unchanged; input has only been consumed from the front and output only
    appended. *)
Theorem main_loop_completes (T : Z) (n : nat) (m : machine) :
  -128 <= T < 0 ->
  serving m ->
  eventually_ready (env m) ->
  0 <= page_num m ->
  Z.max (page_num m) 131071 + Z.of_nat n < 2147483648 ->
  exists fuel0 m',
    (forall fuel, (fuel0 <= fuel)%nat -> main_loop T fuel n m = Ok tt m')
    /\ serving m'
    /\ flash_info_glob m' = flash_info_glob m
    /\ 0 <= page_num m' <= Z.max (page_num m) 131071 + Z.of_nat n
    /\ (exists j, serial_in m' = drop j (serial_in m))
    /\ (exists lines, stdout m' = stdout m ++ lines).
Proof.
  intros HT. revert m. induction n as [|n IH]; intros m Hs Hev Hpn0 Hpn.
  - exists 0%nat, m. split; [reflexivity|]. split; [exact Hs|].
    split; [reflexivity|]. split; [lia|]. split.
    + by exists 0%nat.
    + exists []. by rewrite app_nil_r.
  - destruct (ready_after_first m Hev) as (k & Hk).
    destruct (main_iteration_turn T k m HT Hs Hk Hpn0) as (m1 & Hrun & Hkeep);
      [lia|].
    destruct Hkeep as (Hs1 & He1 & Hf1 & Hp1 & (j1 & Hj1) & (l1 & Hl1)).
    destruct (IH m1 Hs1) as (fuel0 & m' & Hloop & Hs' & Hf' & Hp' & (j & Hj) & (l & Hl));
      [by rewrite He1|lia|lia|].
    exists (Nat.max (S k) fuel0), m'.
    split; [|split; [exact Hs'|split; [congruence|split; [lia|split]]]].
    + intros fuel Hfuel. cbn [main_loop]. unfold bind.
      rewrite Hrun by lia. apply Hloop. lia.
    + exists (j1 + j)%nat. by rewrite Hj, Hj1, drop_drop.
    + exists (l1 ++ l). by rewrite Hl, Hl1, app_assoc.
Qed.

(** X17: the command '3' always takes the next three entries of the serial
    input as its argument, whether they are bytes or timeouts: after a
    timeout on one of them the other two are still waited for and dropped,
    and bytes that are digits are not run as commands. *)
Theorem set_page_takes_three_entries
    (T : Z) (fuel : nat) (m : machine) (b : Z) (tl : list (option Z)) :
  T < 0 ->
  serving m ->
  serial_in m = Some b :: tl ->
  u8 b = 0x33 ->
  exists m',
    main_iteration T fuel m = Ok tt m'
    /\ serial_in m' = drop 3 tl
    /\ (stdout m' = stdout m
        \/ stdout m' = stdout m ++ ["Timed out reading page number" +:+ nl])
    /\ (stdout m' = stdout m <->
        exists b0 b1 b2, take 3 tl = [Some b0; Some b1; Some b2]).
Proof.
  intros HT Hs Hin Hb.
  destruct (main_iteration_3_run T fuel m b tl HT Hin Hb) as (Hto & Hset).
  cbv zeta in Hto, Hset.
  assert (Hnil : forall (x : string) (l : list string), l = l ++ [x] -> False).
  { intros x l H. apply (f_equal length) in H. rewrite length_app in H.
    simpl in H. lia. }
  destruct ((T =? arrived T (tl !! 0%nat)) || (T =? arrived T (tl !! 1%nat))
            || (T =? arrived T (tl !! 2%nat))) eqn:E.
  - eexists. split; [exact (Hto eq_refl)|].
    split; [by destruct m|]. split; [right; by destruct m|].
    split.
    + intros H. exfalso. destruct m. simpl in H. symmetry in H. by apply Hnil in H.
    + intros (b0 & b1 & b2 & Htk). exfalso.
      destruct tl as [|x0 [|x1 [|x2 tl]]]; try discriminate.
      simpl in Htk. injection Htk as -> -> ->. simpl in E.
      pose proof (Z.mod_pos_bound b0 256). pose proof (Z.mod_pos_bound b1 256).
      pose proof (Z.mod_pos_bound b2 256). unfold u8 in E.
      rewrite !orb_true_iff, !Z.eqb_eq in E. lia.
  - eexists. split; [exact (Hset eq_refl Hs)|].
    split; [by destruct m|]. split; [left; by destruct m|].
    split; [intros _|intros _; by destruct m].
    rewrite !orb_false_iff, !Z.eqb_neq in E. destruct E as ((E0 & E1) & E2).
    destruct tl as [|[b0|] [|[b1|] [|[b2|] tl]]]; simpl in E0, E1, E2; try done.
    by exists b0, b1, b2.
Qed.

(** ** Idle turns *)

Lemma heartbeat_bit_17 (m : machine) :
  heartbeat m = (131072 <=? timer (env m) (timer_reads m) mod 262144).
Proof.
  unfold heartbeat, u32. generalize (timer (env m) (timer_reads m)). intros t.
  rewrite Z.shiftr_div_pow2 by lia. change 0x1 with (Z.ones 1).
  rewrite Z.land_ones by lia. change (2 ^ 17) with 131072. change (2 ^ 1) with 2.
  destruct (Z.leb_spec 131072 (t mod 262144)) as [H|H];
    destruct (Z.eqb_spec ((t mod 4294967296 / 131072) mod 2) 0) as [E|E];
    try reflexivity; exfalso; revert H E; Z.div_mod_to_equations; lia.
Qed.

(** X18: a turn of [main]'s loop in which the host has sent nothing changes
    nothing but the LED: the timer is read once, and the LED is driven high
    exactly when the microsecond count modulo 262144 is at least 131072,
    so it is on and off for 131072 microseconds each; no byte is consumed,
    nothing is printed or queued, and the chip sees nothing. *)
Theorem idle_turn_blinks_led (T : Z) (fuel : nat) (m : machine) :
  -128 <= T < 0 ->
  serial_in m = [] ->
  let led := 131072 <=? timer (env m) (timer_reads m) mod 262144 in
  main_iteration T fuel m =
    Ok tt (set_bus_log (EvGpioPut LED_PIN led :: bus_log m)
             (set_timer_reads (S (timer_reads m)) m))
  /\ forall s, observe the_pins s [EvGpioPut LED_PIN led] = (s, []).
Proof.
  intros HT Hin led. split; [|reflexivity].
  rewrite (main_iteration_idle T fuel m HT (or_introl Hin)).
  unfold polled. rewrite heartbeat_bit_17. fold led.
  destruct m. simpl in Hin. by subst.
Qed.

(** X19: the command '2' from end to end.  With core 1 running and both
    queues empty, a turn of [main]'s loop that reads '2' returns with core
    1's page counter at 0 and both queues empty again, whatever state the
    chip is in: nothing is printed, the shared buffer is as it was, and the
    only bus activity is on the LED, which the chip does not see. *)
Theorem reset_command_end_to_end
    (T : Z) (fuel : nat) (m : machine) (b : Z) (rest : list (option Z)) :
  serving m ->
  serial_in m = Some b :: rest ->
  u8 b = 0x32 ->
  exists m' L,
    main_iteration T fuel m = Ok tt m'
    /\ page_num m' = 0
    /\ serving m'
    /\ stdout m' = stdout m
    /\ shared_buffer m' = shared_buffer m
    /\ serial_in m' = rest
    /\ (ry_reads m', io_reads m') = (ry_reads m, io_reads m)
    /\ bus_log m' = L ++ bus_log m
    /\ (forall s, observe the_pins s L = (s, [])).
Proof.
  intros Hs Hin Hb. pose proof Hs as (_ & _ & _ & _ & _ & _ & _ & Hbuf).
  eexists. exists [EvGpioPut LED_PIN true; EvGpioPut LED_PIN (heartbeat m)].
  split; [exact (main_iteration_2_run T fuel m b rest Hs Hin Hb)|].
  split; [reflexivity|]. split.
  { apply serving_exchanged; [by apply serving_polled|exact Hbuf]. }
  destruct m. simpl in Hin. subst. by repeat split.
Qed.

(** X20: [read_onfi_id] on a chip that is ready after [k] polls: the chip
    sees the identification command 0x90 at address 0x20, the polls and
    four data reads.  The four bytes go to a local array only: the shared
    buffer and everything else but the bus are as before, and the bytes
    are not compared with anything. *)
Theorem read_onfi_id_sequence (fuel k : nat) (m : machine) (b : bus_state) :
  ready_after k m ->
  (k < fuel)%nat ->
  s_we b = true ->
  exists L,
    read_onfi_id fuel the_pins m =
      Ok tt (hw_update (L ++ bus_log m) (S k + ry_reads m) (4 + io_reads m) m)
    /\ snd (observe the_pins b L) =
         [OpCommand 0x90; OpAddress 0x20]
         ++ replicate k (OpReadyPoll false) ++ [OpReadyPoll true]
         ++ map OpDataOut (samples (env m) (io_reads m) 4).
Proof.
  intros Hready Hk Hwe. destruct b as [cl al e r w io]. simpl in Hwe. subst w.
  unfold read_onfi_id. cbv zeta.
  destruct_machine m. unfold ready_after in Hready. step_bus in Hready.
  destruct (write_cmd_run 0x90 (mk_machine m_w m_bl m_rr m_ir m_tr m_pd m_si m_so
              m_cq m_rq m_pg m_sb m_fi m_cl m_wc m_wr m_pn m_cp)) as (L1 & H1 & O1).
  step_bus in H1.
  next_machine H1 ltac:(fun m1 =>
    destruct (write_addr_1_run 0x20 m1) as (L2 & H2 & O2)).
  step_bus in H2.
  next_machine H2 ltac:(fun m2 =>
    destruct (read_bytes_run k m2 (replicate 6 0) 4) as (L3 & H3 & O3);
    [exact Hready|simpl; lia|]).
  exists ((L3 ++ L2) ++ L1). split.
  - specialize (H3 fuel Hk). unfold bus_runs in H3. step_bus in H3.
    step_bus. rewrite H1, H2, H3. by rewrite <- !app_assoc.
  - rewrite observe_app.
    destruct (O1 cl al e r io) as (io1 & ->); cbv beta iota.
    rewrite observe_app.
    destruct (O2 false false false true io1) as (io2 & ->); cbv beta iota.
    destruct (O3 (mk_bus false false false true true io2)) as (s3 & ->); cbv beta iota.
    by rewrite <- ?app_assoc.
Qed.



(** ** Dumping *)

Lemma samples_app w from a b :
  samples w from (a + b) = samples w from a ++ samples w (a + from) b.
Proof.
  unfold samples. rewrite seq_app, map_app. by rewrite (Nat.add_comm from a).
Qed.

(** X21: dumping.  With core 1 running and both queues empty, on a chip
    whose ready/busy line always reads high again, [n] turns of [main]'s
    loop that each read '1' print the next [n] times page + spare bytes
    the chip drives, in the order it drives them and with nothing in
    between, two upper-case hexadecimal digits per byte, and advance core
    1's page counter by [n]. *)
Theorem dump_pages (T : Z) (n : nat) (m : machine) (rest : list (option Z)) :
  serving m ->
  eventually_ready (env m) ->
  0 <= page_num m ->
  page_num m + Z.of_nat n < 2147483648 ->
  serial_in m = replicate n (Some 0x31) ++ rest ->
  let total := Z.to_nat (page_size_bytes (flash_info_glob m)
                         + oob_size_bytes (flash_info_glob m)) in
  exists fuel0 m',
    (forall fuel, (fuel0 <= fuel)%nat -> main_loop T fuel n m = Ok tt m')
    /\ stdout m' =
         stdout m
         ++ map (fmt_02x true) (samples (env m) (io_reads m) (n * total))
    /\ page_num m' = page_num m + Z.of_nat n
    /\ io_reads m' = (n * total + io_reads m)%nat
    /\ serial_in m' = rest
    /\ serving m'.
Proof.
  revert m. induction n as [|n IH]; intros m Hs Hev Hpn0 Hpn Hin total.
  - exists 0%nat, m. split; [reflexivity|].
    split; [by rewrite app_nil_r|]. split; [simpl; lia|].
    split; [reflexivity|]. split; [exact Hin|exact Hs].
  - cbn [replicate app] in Hin.
    destruct (ready_after_first m Hev) as (k & Hk).
    destruct (main_iteration_1_run T k m 0x31 _ Hs Hk ltac:(lia) Hin eq_refl)
      as (L & Hrun & _).
    cbv zeta in Hrun. fold total in Hrun.
    match type of Hrun with
    | forall fuel, _ -> _ = Ok tt ?mm => set (m1 := mm) in *
    end.
    pose proof Hs as (_ & _ & _ & _ & _ & _ & Hgeo & Hbuf).
    assert (Hs1 : serving m1).
    { apply serving_set_curr_page, serving_set_stdout, serving_exchanged;
        [by apply serving_polled|].
      rewrite length_app, length_drop, length_replicate, samples_length.
      unfold total, sizeof_shared_buffer. lia. }
    assert (Hf : env m1 = env m /\ flash_info_glob m1 = flash_info_glob m
                 /\ page_num m1 = page_num m + 1
                 /\ io_reads m1 = (total + io_reads m)%nat
                 /\ serial_in m1 = replicate n (Some 0x31) ++ rest
                 /\ stdout m1 =
                      stdout m ++ map (fmt_02x true)
                                    (samples (env m) (io_reads m) total)).
    { subst m1. destruct m. turn_fields. subst.
      unfold page_report. fold total.
      rewrite take_app_length' by (symmetry; apply samples_length).
      by repeat split. }
    destruct Hf as (He1 & Hf1 & Hp1 & Hi1 & Hin1 & Ho1).
    destruct (IH m1 Hs1) as (fuel0 & m' & Hloop & Ho & Hp & Hi & Hin' & Hs');
      [by rewrite He1|lia|lia|exact Hin1|].
    rewrite Hf1 in Ho, Hi. fold total in Ho, Hi.
    exists (Nat.max (S k) fuel0), m'.
    split; [|split; [|split; [|split; [|split; [exact Hin'|exact Hs']]]]].
    + intros fuel Hfuel. cbn [main_loop]. unfold bind.
      rewrite Hrun by lia. apply Hloop. lia.
    + rewrite Ho, Ho1, He1, Hi1. cbn [Nat.mul].
      by rewrite samples_app, map_app, app_assoc.
    + lia.
    + lia.
Qed.


(** ** More worked examples *)

Lemma example_with_serving host : serving (example_with host).
Proof. vm_compute. repeat split; first [reflexivity | lia | discriminate]. Qed.

Lemma example_with_ready host : ready_after 0 (example_with host).
Proof. split; [intros j Hj; lia|reflexivity]. Qed.

Lemma example_with_eventually_ready host : eventually_ready (env (example_with host)).
Proof. intros r. exists 0%nat. vm_compute. reflexivity. Qed.

Lemma power_on_ready host : ready_after 0 (power_on example_chip host).
Proof. split; [intros j Hj; lia|reflexivity]. Qed.

Lemma stalled_serving host : serving (stalled host).
Proof. vm_compute. repeat split; first [reflexivity | lia | discriminate]. Qed.

Lemma stalled_never_ready host : never_ready (stalled host).
Proof.
  intros j.
  assert (Hr : ry_reads (stalled host) = 1%nat) by (vm_compute; reflexivity).
  assert (He : env (stalled host) = fading_chip) by (vm_compute; reflexivity).
  rewrite Hr, He, Nat.add_1_r. reflexivity.
Qed.

Lemma write_latches_one_byte_witness :
  exists L b',
    write_cmd the_pins 0x190 (power_on example_chip []) =
      Ok tt (hw_update (L ++ []) 0 0 (power_on example_chip []))
    /\ observe the_pins bus_idle L = (b', [OpCommand 0x90]).
Proof.
  destruct (write_latches_one_byte 0x190 0x20 (power_on example_chip []) bus_idle)
    as ((L & b' & Hrun & Hobs & _) & _); [reflexivity|].
  exists L, b'. split; [exact Hrun|exact Hobs].
Defined.

Lemma write_addr_5_encodes_witness :
  exists L b' c0 c1 p0 p1 p2,
    observe the_pins bus_idle L = (b', map OpAddress [c0; c1; p0; p1; p2])
    /\ c0 + 256 * c1 = 0x0234
    /\ p0 + 256 * p1 + 65536 * p2 = 0x11234.
Proof.
  destruct (write_addr_5_encodes 0x31234 0x2234 (power_on example_chip []) bus_idle)
    as (L & b' & c0 & c1 & p0 & p1 & p2 & _ & Hobs & _ & Hc & Hp & _);
    [reflexivity|].
  exists L, b', c0, c1, p0, p1, p2. split; [exact Hobs|]. split; [exact Hc|exact Hp].
Defined.

Lemma read_id_sequence_witness :
  exists m',
    read_id 3 the_pins [1; 2; 3; 4; 5; 6; 7] (power_on slow_chip []) =
      Ok [0xA0; 0xA1; 0xA2; 0xA3; 0xA4; 6; 7] m'.
Proof.
  destruct (read_id_sequence 3 2 (power_on slow_chip []) [1; 2; 3; 4; 5; 6; 7]
              bus_idle) as (L & Hrun & _).
  - exact slow_chip_ready_after_2.
  - lia.
  - simpl. lia.
  - reflexivity.
  - eexists. exact Hrun.
Defined.

Lemma main_startup_serves_witness :
  exists m',
    main_startup 1 (power_on example_chip [Some 0x31]) = Ok tt m'
    /\ serving m'
    /\ flash_info_glob m' = mk_flash_info 4096 256 570425344.
Proof.
  destruct (main_startup_serves 0 (power_on example_chip [Some 0x31])
              (mk_id 0x98 0xDC 0x90 0x26 0x76))
    as (m' & L & Hrun & Hs & Hfi & _).
  - apply power_on_ready.
  - reflexivity.
  - reflexivity.
  - reflexivity.
  - reflexivity.
  - exists m'. split; [apply Hrun; lia|]. split; [exact Hs|exact Hfi].
Defined.

Lemma main_startup_waits_for_chip_witness :
  exists m',
    main (-1) 7 3 (power_on dead_chip [Some 0x30]) = Halt PollReady m'
    /\ ry_reads m' = 7%nat /\ stdout m' = [].
Proof.
  destruct (main_startup_waits_for_chip (-1) 3 (power_on dead_chip [Some 0x30])
              dead_chip_never_ready 7%nat) as (m' & Hrun & Hry & Hout & _).
  exists m'. split; [exact Hrun|]. split; [exact Hry|exact Hout].
Defined.

Lemma info_commands_stay_on_core0_witness :
  exists m',
    main_iteration (-1) 1 (example_with [Some 0x35]) = Ok tt m'
    /\ stdout m' = ["4096,256,570425344" +:+ nl].
Proof.
  destruct (info_commands_stay_on_core0 (-1) 1 (example_with [Some 0x35]) 0x35 [])
    as (m' & L & Hrun & Hout & _).
  - reflexivity.
  - right. reflexivity.
  - exists m'. split; [exact Hrun|exact Hout].
Defined.

Lemma boot_then_info_command_witness :
  exists m',
    main (-1) 1 1 (power_on example_chip [Some 0x34]) = Ok tt m'
    /\ stdout m' = ["Drive strength is 0" +:+ nl].
Proof.
  destruct (boot_then_info_command (-1) 0 (power_on example_chip [Some 0x34])
              (mk_id 0x98 0xDC 0x90 0x26 0x76) 0x34 [])
    as (m' & Hrun & Hout & _).
  - apply power_on_ready.
  - reflexivity.
  - reflexivity.
  - reflexivity.
  - reflexivity.
  - left. reflexivity.
  - exists m'. split; [apply Hrun; lia|exact Hout].
Defined.

Lemma read_id_command_end_to_end_witness :
  exists m',
    main_iteration (-1) 1 (example_with [Some 0x30]) = Ok tt m'
    /\ take 6 (stdout m') = ["ID: "; "ab "; "ab "; "ab "; "ab "; "ab "].
Proof.
  destruct (read_id_command_end_to_end (-1) 1 0 (example_with [Some 0x30]) 0x30 [])
    as (m' & id & Hrun & _ & Hout & _).
  - apply example_with_serving.
  - apply example_with_ready.
  - lia.
  - reflexivity.
  - reflexivity.
  - exists m'. split; [exact Hrun|]. rewrite Hout. reflexivity.
Defined.

Lemma read_page_command_end_to_end_witness :
  exists m',
    main_iteration (-1) 1 (example_with [Some 0x31]) = Ok tt m'
    /\ page_num m' = 1 /\ curr_page m' = 1.
Proof.
  destruct (read_page_command_end_to_end (-1) 1 0 (example_with [Some 0x31]) 0x31 [])
    as (m' & L & p0 & p1 & p2 & Hrun & _ & _ & Hpn & Hcp & _).
  - apply example_with_serving.
  - apply example_with_ready.
  - lia.
  - vm_compute. discriminate.
  - vm_compute. reflexivity.
  - reflexivity.
  - reflexivity.
  - exists m'. split; [exact Hrun|]. split; [exact Hpn|exact Hcp].
Defined.

Lemma read_commands_wait_for_chip_witness :
  exists m',
    main_iteration (-1) 9 (stalled [Some 0x31]) = Halt PollReady m'
    /\ stdout m' = [].
Proof.
  destruct (read_commands_wait_for_chip (-1) (stalled [Some 0x31]) 0x31 []
              (stalled_serving _) (stalled_never_ready _) eq_refl
              (or_intror eq_refl) 9%nat) as (m' & Hrun & Hout & _).
  exists m'. split; [exact Hrun|exact Hout].
Defined.

Lemma main_loop_completes_witness :
  exists fuel0 m',
    (forall fuel, (fuel0 <= fuel)%nat ->
       main_loop (-1) fuel 3 (example_with [Some 0x32; None; Some 0x41]) = Ok tt m')
    /\ serving m'.
Proof.
  destruct (main_loop_completes (-1) 3 (example_with [Some 0x32; None; Some 0x41]))
    as (fuel0 & m' & Hrun & Hs & _).
  - lia.
  - apply example_with_serving.
  - apply example_with_eventually_ready.
  - vm_compute. discriminate.
  - vm_compute. reflexivity.
  - exists fuel0, m'. split; [exact Hrun|exact Hs].
Defined.

Lemma set_page_takes_three_entries_witness :
  exists m',
    main_iteration (-1) 1 (example_with [Some 0x33; None; Some 0x31; Some 0x32; Some 0x30])
      = Ok tt m'
    /\ serial_in m' = [Some 0x30].
Proof.
  destruct (set_page_takes_three_entries (-1) 1
              (example_with [Some 0x33; None; Some 0x31; Some 0x32; Some 0x30])
              0x33 [None; Some 0x31; Some 0x32; Some 0x30])
    as (m' & Hrun & Hin & _).
  - lia.
  - apply example_with_serving.
  - reflexivity.
  - reflexivity.
  - exists m'. split; [exact Hrun|exact Hin].
Defined.

Lemma idle_turn_blinks_led_witness :
  main_iteration (-1) 1 (power_on (mk_world (fun _ => true) (fun _ => 0)
                                      (fun _ => 131072)) [])
  = Ok tt (set_bus_log [EvGpioPut LED_PIN true]
             (set_timer_reads 1
                (power_on (mk_world (fun _ => true) (fun _ => 0)
                             (fun _ => 131072)) []))).
Proof.
  destruct (idle_turn_blinks_led (-1) 1
              (power_on (mk_world (fun _ => true) (fun _ => 0) (fun _ => 131072)) []))
    as (Hrun & _).
  - lia.
  - reflexivity.
  - exact Hrun.
Defined.

Lemma reset_command_end_to_end_witness :
  exists m',
    main_iteration (-1) 0 (stalled [Some 0x32]) = Ok tt m' /\ page_num m' = 0.
Proof.
  destruct (reset_command_end_to_end (-1) 0 (stalled [Some 0x32]) 0x32 []
              (stalled_serving _) eq_refl eq_refl) as (m' & L & Hrun & Hpn & _).
  exists m'. split; [exact Hrun|exact Hpn].
Defined.

Lemma read_onfi_id_sequence_witness :
  exists L,
    snd (observe the_pins bus_idle L) =
      [OpCommand 0x90; OpAddress 0x20; OpReadyPoll false; OpReadyPoll false;
       OpReadyPoll true; OpDataOut 0xA0; OpDataOut 0xA1; OpDataOut 0xA2;
       OpDataOut 0xA3].
Proof.
  destruct (read_onfi_id_sequence 3 2 (power_on slow_chip []) bus_idle
              slow_chip_ready_after_2) as (L & _ & Hobs); [lia|reflexivity|].
  exists L. exact Hobs.
Defined.


Lemma dump_pages_witness :
  exists fuel0 m',
    (forall fuel, (fuel0 <= fuel)%nat ->
       main_loop (-1) fuel 2 (example_with [Some 0x31; Some 0x31; Some 0x32])
         = Ok tt m')
    /\ page_num m' = 2
    /\ serial_in m' = [Some 0x32].
Proof.
  destruct (dump_pages (-1) 2 (example_with [Some 0x31; Some 0x31; Some 0x32])
              [Some 0x32])
    as (fuel0 & m' & Hrun & _ & Hpn & _ & Hin & _).
  - apply example_with_serving.
  - apply example_with_eventually_ready.
  - vm_compute. discriminate.
  - vm_compute. reflexivity.
  - reflexivity.
  - exists fuel0, m'. split; [exact Hrun|]. split; [exact Hpn|exact Hin].
Defined.
